(** * Client transaction identifier: a shallow embedding of [transaction.ts]

    The development follows the class [ClientTransaction]: the text
    primitives its methods call, the base64 and SHA-256 primitives of the
    host, the document accessor, the session record with its methods in a
    state-and-error monad, and then the properties of the methods.

    Conventions.
    - A JavaScript string is a [string]: a sequence of code units below 256.
    - A byte, and a time in seconds, is a [Z]. A value of type Number that
      comes out of arithmetic is a [number]: a whole number, an infinity or
      [NaN]; products, quotients and the reading of digits are rounded to
      the nearest double as the host does.
    - A quotient that need not be whole is a [Number Q]. *)

From Stdlib Require Import ZArith List String Ascii Bool Lia QArith Qround.
From Stdlib Require Import DecimalString DecimalPos DecimalZ.
Import ListNotations.

Local Open Scope string_scope.
Local Open Scope Z_scope.

Set Warnings "-register-all".

(** ** Characters *)

Module Char.

Definition code (c : ascii) : Z := Z.of_N (N_of_ascii c).

(** [\d] *)
Definition is_digit (c : ascii) : bool :=
  (48 <=? code c) && (code c <=? 57).

(** [\w] *)
Definition is_word (c : ascii) : bool :=
  is_digit c
  || ((65 <=? code c) && (code c <=? 90))
  || ((97 <=? code c) && (code c <=? 122))
  || (code c =? 95).

(** [\s], and the white space of [trim] and [parseInt]: TAB, LF, VT, FF, CR,
    SPACE and NBSP are the white-space code units below 256. *)
Definition is_space (c : ascii) : bool :=
  ((9 <=? code c) && (code c <=? 13)) || (code c =? 32) || (code c =? 160).

Definition digit_value (c : ascii) : Z := code c - 48.

End Char.

(** ** The string primitives of the host *)

Module JsString.

(** [s.substring(n)] *)
Fixpoint substring_from (n : nat) (s : string) : string :=
  match n, s with
  | O, _ => s
  | S _, EmptyString => EmptyString
  | S n', String _ s' => substring_from n' s'
  end.

(** Puts a code unit in front of the first piece of a split. *)
Definition cons_head (c : ascii) (l : list string) : list string :=
  match l with
  | [] => [String c EmptyString]
  | h :: t => String c h :: t
  end.

(** [s.split(sep)] for a one-unit separator: the empty string splits into
    one empty piece. *)
Fixpoint split (sep : ascii) (s : string) : list string :=
  match s with
  | EmptyString => [EmptyString]
  | String c s' =>
      if Ascii.eqb c sep then EmptyString :: split sep s'
      else cons_head c (split sep s')
  end.

(** [s.replace(/[^\d]+/g, " ")]: [in_run] tells that the unit before was
    part of the run being replaced. *)
Fixpoint replace_non_digits_from (in_run : bool) (s : string) : string :=
  match s with
  | EmptyString => EmptyString
  | String c s' =>
      if Char.is_digit c then String c (replace_non_digits_from false s')
      else if in_run then replace_non_digits_from true s'
      else String " " (replace_non_digits_from true s')
  end.

Definition replace_non_digits (s : string) : string :=
  replace_non_digits_from false s.

Fixpoint trimStart (s : string) : string :=
  match s with
  | EmptyString => EmptyString
  | String c s' => if Char.is_space c then trimStart s' else s
  end.

Fixpoint trimEnd (s : string) : string :=
  match s with
  | EmptyString => EmptyString
  | String c s' =>
      match trimEnd s' with
      | EmptyString => if Char.is_space c then EmptyString else String c EmptyString
      | r => String c r
      end
  end.

(** [s.trim()] *)
Definition trim (s : string) : string := trimEnd (trimStart s).

(** [s.split(/\s+/)]: every maximal run of white space separates two
    pieces, so white space at either end leaves an empty piece there. *)
Fixpoint split_spaces_from (in_run : bool) (s : string) : list string :=
  match s with
  | EmptyString => [EmptyString]
  | String c s' =>
      if Char.is_space c then
        if in_run then split_spaces_from true s'
        else EmptyString :: split_spaces_from true s'
      else cons_head c (split_spaces_from false s')
  end.

Definition split_spaces (s : string) : list string :=
  split_spaces_from false s.

(** [s.replace(/=/g, "")] *)
Fixpoint remove_char (x : ascii) (s : string) : string :=
  match s with
  | EmptyString => EmptyString
  | String c s' =>
      if Ascii.eqb c x then remove_char x s' else String c (remove_char x s')
  end.

(** [s] without its last unit, when that unit is [x]. *)
Fixpoint drop_last_if (x : ascii) (s : string) : option string :=
  match s with
  | EmptyString => None
  | String c s' =>
      match s' with
      | EmptyString => if Ascii.eqb c x then Some EmptyString else None
      | _ => option_map (String c) (drop_last_if x s')
      end
  end.

End JsString.

(** ** Numbers *)

(** A value of type Number: [NaN], one of the two infinities, or a finite
    value given exactly, in [Z] when it is whole and in [Q] when it need not
    be. Zero has no sign. *)
Inductive Number (A : Type) : Type :=
| NaN
| Infinity (negative : bool)
| Finite (a : A).

Arguments NaN {A}.
Arguments Infinity {A} negative.
Arguments Finite {A} a.

(** A whole number, an infinity or [NaN]. *)
Definition number : Type := Number Z.

Module JsNumber.

(** The digits at the front of a string, most significant first. *)
Fixpoint leading_digits (s : string) : list Z :=
  match s with
  | EmptyString => []
  | String c s' =>
      if Char.is_digit c then Char.digit_value c :: leading_digits s' else []
  end.

Definition of_digits (ds : list Z) : Z :=
  fold_left (fun acc d => 10 * acc + d) ds 0.

(** [a / d] rounded to a nearest integer, a half going to the even one. *)
Definition div_half_even (a d : Z) : Z :=
  let q := a / d in
  match 2 * (a mod d) ?= d with
  | Lt => q
  | Gt => q + 1
  | Eq => if Z.even q then q else q + 1
  end.

(** The binary exponent of [a / d], for [a] and [d] positive: the integer
    [e] with [2 ^ e <= a / d < 2 ^ (e + 1)], for quotients from [2 ^ -1100]
    on. *)
Definition exponent (a d : Z) : Z := Z.log2 (a * 2 ^ 1100 / d) - 1100.

(** The double nearest to [a / d], for [a] and [d] positive, as a
    mantissa [m] of at most 53 bits and a scale [s]: the double is
    [m * 2 ^ s]. The scale of the subnormal doubles is -1074. *)
Definition nearest (a d : Z) : Z * Z :=
  let s := Z.max (exponent a d - 52) (-1074) in
  (div_half_even (a * 2 ^ Z.max 0 (- s)) (d * 2 ^ Z.max 0 s), s).

(** The Number value of an integer: the double nearest to it, a tie going
    to the even mantissa, and an infinity from [2 ^ 1024 - 2 ^ 970] on.
    Integers up to [2 ^ 53] in absolute value are kept. *)
Definition of_Z (z : Z) : number :=
  if z =? 0 then Finite 0
  else
    let '(m, s) := nearest (Z.abs z) 1 in
    let v := Z.shiftl m s in
    if 2 ^ 1024 <=? v then Infinity (z <? 0) else Finite (Z.sgn z * v).

(** [p / d] on doubles, for a whole [p] and a positive whole [d]: the
    double nearest to the quotient. *)
Definition quotient (p d : Z) : Q :=
  if p =? 0 then 0%Q
  else
    let '(m, s) := nearest (Z.abs p) d in
    if 0 <=? s then inject_Z (Z.sgn p * m * 2 ^ s)
    else (Z.sgn p * m) # Z.to_pos (2 ^ (- s)).

(** [parseInt(s, 10)]: white space is skipped, a sign is read, then the
    longest run of digits, whose integer is turned into a Number; no digit
    at all gives [NaN]. *)
Definition parseInt (s : string) : number :=
  let s1 := JsString.trimStart s in
  let '(sign, s2) :=
    match s1 with
    | String "-" r => (-1, r)
    | String "+" r => (1, r)
    | _ => (1, s1)
    end in
  match leading_digits s2 with
  | [] => NaN
  | ds => of_Z (sign * of_digits ds)
  end.

(** Two numbers are the same finite number. *)
Definition same_finite (x y : number) : bool :=
  match x, y with
  | Finite a, Finite b => a =? b
  | _, _ => false
  end.

(** The positive integer [v] is read back as the double [x]. *)
Definition represents (x v : Z) : bool :=
  (0 <? v) && same_finite (of_Z v) (Finite x).

(** The integer with the fewest significant digits that is read back as
    the double [x], looked for among the multiples of [10 ^ j] next to [x],
    from the largest [j] down; of two of them the nearer one, and the even
    one when they are as near. *)
Fixpoint shortest (j : nat) (x : Z) : Z :=
  match j with
  | O => x
  | S j' =>
      let p := 10 ^ Z.of_nat j in
      let lo := x / p * p in
      let hi := lo + p in
      match represents x lo, represents x hi with
      | true, true =>
          match x - lo ?= hi - x with
          | Lt => lo
          | Gt => hi
          | Eq => if Z.even (lo / p) then lo else hi
          end
      | true, false => lo
      | false, true => hi
      | false, false => shortest j' x
      end
  end.

(** The decimal digits of an integer that is not negative. *)
Definition digits (z : Z) : string :=
  NilZero.string_of_uint (N.to_uint (Z.to_N z)).

Fixpoint strip_zeros (fuel : nat) (v : Z) : Z :=
  match fuel with
  | O => v
  | S fuel' =>
      if (v mod 10 =? 0) && negb (v =? 0) then strip_zeros fuel' (v / 10)
      else v
  end.

(** The string of a positive whole double: its shortest digits, followed by
    zeros while it is below 10^21, and in exponent form from there on. *)
Definition toString_positive (x : Z) : string :=
  let v := shortest (String.length (digits x)) x in
  if v <? 10 ^ 21 then digits v
  else
    let n := String.length (digits v) in
    match digits (strip_zeros n v) with
    | String d EmptyString => String d ("e+" ++ digits (Z.of_nat n - 1))
    | String d r => String d ("." ++ r ++ "e+" ++ digits (Z.of_nat n - 1))
    | EmptyString => EmptyString
    end.

(** The string of a whole double inside a template literal. *)
Definition toString (z : Z) : string :=
  if z =? 0 then "0"
  else if z <? 0 then String "-" (toString_positive (- z))
  else toString_positive z.

(** [x % m] for an array element that may be missing. *)
Definition rem (x : option Z) (m : Z) : number :=
  match x with
  | Some v => Finite (Z.rem v m)
  | None => NaN
  end.

(** [x * y] on doubles. *)
Definition mul (x y : number) : number :=
  match x, y with
  | Finite a, Finite b => of_Z (a * b)
  | Infinity n, Finite b => if b =? 0 then NaN else Infinity (xorb n (b <? 0))
  | Finite a, Infinity n => if a =? 0 then NaN else Infinity (xorb n (a <? 0))
  | Infinity n, Infinity n' => Infinity (xorb n n')
  | _, _ => NaN
  end.

(** [a[i]]: a missing element, or an index that is not one, is
    [undefined]. *)
Definition index {A : Type} (a : list A) (i : number) : option A :=
  match i with
  | Finite z => if z <? 0 then None else nth_error a (Z.to_nat z)
  | _ => None
  end.

(** [Math.round(x)]: the integer nearest to [x], a half going up. *)
Definition Math_round (x : Q) : Z := Qfloor (x + (1 # 2))%Q.

(** [Math.round(x / 10) * 10] on doubles. *)
Definition round_to_tens (x : number) : number :=
  match x with
  | Finite v => of_Z (Math_round (quotient v 10) * 10)
  | Infinity n => Infinity n
  | NaN => NaN
  end.

(** [x / d] for [d] a power of two: the quotient of a whole double is
    exact. *)
Definition div (x : number) (d : positive) : Number Q :=
  match x with
  | Finite v => Finite (v # d)
  | Infinity n => Infinity n
  | NaN => NaN
  end.

(** The conversion of the operands of [&], [>>] and [^]. *)
Definition ToInt32 (z : Z) : Z :=
  let m := z mod 2 ^ 32 in
  if m <? 2 ^ 31 then m else m - 2 ^ 32.

(** [a & b] *)
Definition and (a b : Z) : Z := Z.land (ToInt32 a) (ToInt32 b).

(** [a >> n], for [0 <= n < 32] *)
Definition shr (a n : Z) : Z := Z.shiftr (ToInt32 a) n.

(** [a ^ b] *)
Definition xor (a b : Z) : Z := Z.lxor (ToInt32 a) (ToInt32 b).

(** The conversion of an element stored into a [Uint8Array]. *)
Definition ToUint8 (z : Z) : Z := z mod 256.

End JsNumber.

(** ** Base64, standard alphabet *)

Module Base64.

Definition alphabet : string :=
  "ABCDEFGHIJKLMNOPQRSTUVWXYZabcdefghijklmnopqrstuvwxyz0123456789+/".

Definition char_of (i : Z) : ascii :=
  match String.get (Z.to_nat i) alphabet with
  | Some c => c
  | None => "="%char
  end.

Definition value_of (c : ascii) : option Z :=
  let n := Char.code c in
  if (65 <=? n) && (n <=? 90) then Some (n - 65)
  else if (97 <=? n) && (n <=? 122) then Some (n - 71)
  else if (48 <=? n) && (n <=? 57) then Some (n + 4)
  else if n =? 43 then Some 62
  else if n =? 47 then Some 63
  else None.

(** [encodeBase64]: three bytes give four characters, and the last group
    is padded with [=]. *)
Fixpoint encodeBase64 (bs : list Z) : string :=
  match bs with
  | [] => EmptyString
  | [a] =>
      String (char_of (Z.shiftr a 2))
        (String (char_of (Z.shiftl (Z.land a 3) 4)) "==")
  | [a; b] =>
      String (char_of (Z.shiftr a 2))
        (String (char_of (Z.lor (Z.shiftl (Z.land a 3) 4) (Z.shiftr b 4)))
           (String (char_of (Z.shiftl (Z.land b 15) 2)) "="))
  | a :: b :: c :: rest =>
      String (char_of (Z.shiftr a 2))
        (String (char_of (Z.lor (Z.shiftl (Z.land a 3) 4) (Z.shiftr b 4)))
           (String (char_of (Z.lor (Z.shiftl (Z.land b 15) 2) (Z.shiftr c 6)))
              (String (char_of (Z.land c 63)) (encodeBase64 rest))))
  end.

Definition is_ascii_whitespace (c : ascii) : bool :=
  let n := Char.code c in
  (n =? 9) || (n =? 10) || (n =? 12) || (n =? 13) || (n =? 32).

Fixpoint remove_whitespace (s : string) : string :=
  match s with
  | EmptyString => EmptyString
  | String c s' =>
      if is_ascii_whitespace c then remove_whitespace s'
      else String c (remove_whitespace s')
  end.

(** Removes the one or two [=] that end a text whose length is a multiple
    of four. *)
Definition remove_padding (s : string) : string :=
  if (Nat.modulo (String.length s) 4 =? 0)%nat then
    match JsString.drop_last_if "="%char s with
    | Some r =>
        match JsString.drop_last_if "="%char r with
        | Some r' => r'
        | None => r
        end
    | None => s
    end
  else s.

(** The values of the characters, or nothing when one is not of the
    alphabet. *)
Fixpoint values (s : string) : option (list Z) :=
  match s with
  | EmptyString => Some []
  | String c s' =>
      match value_of c, values s' with
      | Some v, Some vs => Some (v :: vs)
      | _, _ => None
      end
  end.

(** Four values give three bytes; two or three values at the end give one
    or two bytes, their unused low bits dropped; one value alone is an
    error. *)
Fixpoint bytes_of_values (vs : list Z) : option (list Z) :=
  match vs with
  | [] => Some []
  | [_] => None
  | [a; b] => Some [Z.lor (Z.shiftl a 2) (Z.shiftr b 4)]
  | [a; b; c] =>
      Some [Z.lor (Z.shiftl a 2) (Z.shiftr b 4);
            Z.lor (Z.shiftl (Z.land b 15) 4) (Z.shiftr c 2)]
  | a :: b :: c :: d :: rest =>
      match bytes_of_values rest with
      | Some bs =>
          Some (Z.lor (Z.shiftl a 2) (Z.shiftr b 4)
                :: Z.lor (Z.shiftl (Z.land b 15) 4) (Z.shiftr c 2)
                :: Z.lor (Z.shiftl (Z.land c 3) 6) d :: bs)
      | None => None
      end
  end.

(** [decodeBase64], taken as the decoding of the host ([atob]): ASCII white
    space is skipped, the padding may be there or not, and [None] is the
    exception raised on any other text. *)
Definition decodeBase64 (s : string) : option (list Z) :=
  match values (remove_padding (remove_whitespace s)) with
  | Some vs => bytes_of_values vs
  | None => None
  end.

End Base64.

(** ** UTF-8 *)

Module Utf8.

(** [new TextEncoder().encode(s)]: a unit below 128 is one byte, a unit
    from 128 to 255 is two. *)
Fixpoint encode (s : string) : list Z :=
  match s with
  | EmptyString => []
  | String c s' =>
      let n := Char.code c in
      if n <? 128 then n :: encode s'
      else Z.lor 192 (Z.shiftr n 6) :: Z.lor 128 (Z.land n 63) :: encode s'
  end.

End Utf8.

(** ** SHA-256 (FIPS 180-4), the digest of [crypto.subtle] *)

Module Sha256.

Definition w32 (x : Z) : Z := x mod 2 ^ 32.

Definition rotr (n x : Z) : Z :=
  Z.lor (Z.shiftr x n) (w32 (Z.shiftl x (32 - n))).

Definition Ch (x y z : Z) : Z :=
  Z.lxor (Z.land x y) (Z.land (w32 (Z.lnot x)) z).

Definition Maj (x y z : Z) : Z :=
  Z.lxor (Z.lxor (Z.land x y) (Z.land x z)) (Z.land y z).

Definition Sigma0 (x : Z) : Z :=
  Z.lxor (Z.lxor (rotr 2 x) (rotr 13 x)) (rotr 22 x).

Definition Sigma1 (x : Z) : Z :=
  Z.lxor (Z.lxor (rotr 6 x) (rotr 11 x)) (rotr 25 x).

Definition sigma0 (x : Z) : Z :=
  Z.lxor (Z.lxor (rotr 7 x) (rotr 18 x)) (Z.shiftr x 3).

Definition sigma1 (x : Z) : Z :=
  Z.lxor (Z.lxor (rotr 17 x) (rotr 19 x)) (Z.shiftr x 10).

(** The first [n] primes from [p] on, by trial division. *)
Definition is_prime (p : Z) : bool :=
  forallb (fun d => negb (p mod d =? 0))
    (map Z.of_nat (seq 2 (Z.to_nat (Z.sqrt p) - 1))).

Fixpoint primes_from (fuel n : nat) (p : Z) : list Z :=
  match fuel, n with
  | O, _ | _, O => []
  | S fuel', S n' =>
      if is_prime p then p :: primes_from fuel' n' (p + 1)
      else primes_from fuel' n (p + 1)
  end.

(** The cube root of [n], rounded down, found bit by bit below [2 ^ bits]. *)
Fixpoint cube_root (bits : nat) (n x : Z) : Z :=
  match bits with
  | O => x
  | S b =>
      let y := x + 2 ^ Z.of_nat b in
      cube_root b n (if y * y * y <=? n then y else x)
  end.

(** The round constants: the first 32 bits of the fractional parts of the
    cube roots of the first 64 primes. *)
Definition K : list Z := Eval vm_compute in
  map (fun p => w32 (cube_root 36 (p * 2 ^ 96) 0)) (primes_from 400 64 2).

(** The initial hash value: the first 32 bits of the fractional parts of
    the square roots of the first 8 primes. *)
Definition H0 : list Z := Eval vm_compute in
  map (fun p => w32 (Z.sqrt (p * 2 ^ 64))) (primes_from 400 8 2).

(** The message, a one bit, zero bits up to 56 modulo 64 bytes, and the
    length in bits on eight bytes. *)
Definition pad (msg : list Z) : list Z :=
  let n := Z.of_nat (List.length msg) in
  let zeros := Z.to_nat ((55 - n) mod 64) in
  let bits := 8 * n in
  msg ++ [128] ++ repeat 0 zeros
      ++ map (fun i => Z.shiftr bits (8 * i) mod 256) [7; 6; 5; 4; 3; 2; 1; 0].

(** Big-endian words of a block. *)
Fixpoint words (bs : list Z) : list Z :=
  match bs with
  | a :: b :: c :: d :: rest =>
      (Z.shiftl a 24 + Z.shiftl b 16 + Z.shiftl c 8 + d) :: words rest
  | _ => []
  end.

Definition word_bytes (w : Z) : list Z :=
  [Z.shiftr w 24 mod 256; Z.shiftr w 16 mod 256; Z.shiftr w 8 mod 256; w mod 256].

(** One round on the working variables, newest first. *)
Definition round (st : list Z) (k w : Z) : list Z :=
  match st with
  | [a; b; c; d; e; f; g; h] =>
      let t1 := h + Sigma1 e + Ch e f g + k + w in
      let t2 := Sigma0 a + Maj a b c in
      [w32 (t1 + t2); a; b; c; w32 (d + t1); e; f; g]
  | _ => st
  end.

(** The rounds over a window of sixteen schedule words. *)
Fixpoint rounds (ks : list Z) (win : list Z) (st : list Z) : list Z :=
  match ks with
  | [] => st
  | k :: ks' =>
      let w := nth 0 win 0 in
      let next :=
        w32 (sigma1 (nth 14 win 0) + nth 9 win 0 + sigma0 (nth 1 win 0) + w) in
      rounds ks' (tl win ++ [next]) (round st k w)
  end.

Definition compress (h : list Z) (block : list Z) : list Z :=
  map (fun p => w32 (fst p + snd p)) (combine h (rounds K (words block) h)).

Fixpoint blocks (n : nat) (bs : list Z) (h : list Z) : list Z :=
  match n with
  | O => h
  | S n' => blocks n' (skipn 64 bs) (compress h (firstn 64 bs))
  end.

Definition digest (msg : list Z) : list Z :=
  let p := pad msg in
  flat_map word_bytes (blocks (Nat.div (List.length p) 64) p H0).

End Sha256.

(** ** The two regular expressions *)

Module Regex.

(** [s] without the prefix [p], when it starts with it. *)
Fixpoint strip_prefix (p s : string) : option string :=
  match p, s with
  | EmptyString, _ => Some s
  | String a p', String b s' =>
      if Ascii.eqb a b then strip_prefix p' s' else None
  | String _ _, EmptyString => None
  end.

(** The longest prefix whose units satisfy [f], and what follows it. *)
Fixpoint span (f : ascii -> bool) (s : string) : string * string :=
  match s with
  | EmptyString => (EmptyString, EmptyString)
  | String c s' =>
      if f c then let '(a, b) := span f s' in (String c a, b)
      else (EmptyString, s)
  end.

Definition double_quote : ascii := ascii_of_nat 34.

Definition is_quote (c : ascii) : bool :=
  Ascii.eqb c "'"%char || Ascii.eqb c double_quote.

(** [ON_DEMAND_FILE_REGEX] matched at the front of [s]: a quote (single
    or double), [ondemand.s], the same quote, a colon, any white space, a
    second quote, word units, the second quote again; the result is the
    word units (group 3). Neither star can give back a unit, since white
    space is not a quote and a quote is not a word unit. *)
Definition on_demand_file_at (s : string) : option string :=
  match s with
  | String q1 r1 =>
      if is_quote q1 then
        match strip_prefix ("ondemand.s" ++ String q1 ":") r1 with
        | Some r2 =>
            match snd (span Char.is_space r2) with
            | String q2 r3 =>
                if is_quote q2 then
                  let '(name, r4) := span Char.is_word r3 in
                  match r4 with
                  | String q r5 => if Ascii.eqb q q2 then Some name else None
                  | EmptyString => None
                  end
                else None
            | EmptyString => None
            end
        | None => None
        end
      else None
  | EmptyString => None
  end.

(** [ON_DEMAND_FILE_REGEX.exec(s)]: group 3 of the leftmost match. *)
Fixpoint on_demand_file (s : string) : option string :=
  match on_demand_file_at s with
  | Some name => Some name
  | None =>
      match s with
      | EmptyString => None
      | String _ s' => on_demand_file s'
      end
  end.

(** [INDICES_REGEX] matched at the front of [s]: group 1 of
    [\(\w\[(\d{1,2})\],\s*16\)] and the length of the match. *)
Definition indices_at (s : string) : option (string * nat) :=
  match s with
  | String "(" (String w (String "[" r1)) =>
      if Char.is_word w then
        let '(digits, r2) :=
          match r1 with
          | String d1 (String d2 r) =>
              if Char.is_digit d1 && Char.is_digit d2
              then (String d1 (String d2 EmptyString), r)
              else if Char.is_digit d1
              then (String d1 EmptyString, String d2 r)
              else (EmptyString, r1)
          | String d1 EmptyString =>
              if Char.is_digit d1 then (String d1 EmptyString, EmptyString)
              else (EmptyString, r1)
          | EmptyString => (EmptyString, r1)
          end in
        match digits with
        | EmptyString => None
        | _ =>
            match strip_prefix "]," r2 with
            | Some r3 =>
                let '(spaces, r4) := span Char.is_space r3 in
                match strip_prefix "16)" r4 with
                | Some _ =>
                    Some (digits,
                          (3 + String.length digits + 2
                           + String.length spaces + 3)%nat)
                | None => None
                end
            | None => None
            end
        end
      else None
  | _ => None
  end.

(** The loop over [INDICES_REGEX.exec]: [skip] units are left before
    [lastIndex], where the next search starts. *)
Fixpoint indices_from (skip : nat) (s : string) : list string :=
  match s with
  | EmptyString => []
  | String _ s' =>
      match skip with
      | S k => indices_from k s'
      | O =>
          match indices_at s with
          | Some (digits, len) => digits :: indices_from (Nat.pred len) s'
          | None => indices_from O s'
          end
      end
  end.

Definition indices (s : string) : list string := indices_from O s.

End Regex.

(** ** The document accessor *)

(** An element: its attributes in order, and its element children. *)
Inductive Element : Type :=
| mkElement (attributes : list (string * string)) (children : list Element).

Definition attributes (e : Element) : list (string * string) :=
  match e with mkElement a _ => a end.

Definition children (e : Element) : list Element :=
  match e with mkElement _ c => c end.

(** [e.getAttribute(name)], [None] being [null]. *)
Definition getAttribute (e : Element) (name : string) : option string :=
  match find (fun p => String.eqb (fst p) name) (attributes e) with
  | Some p => Some (snd p)
  | None => None
  end.

(** What the class reads of a [Document]: the serialised markup, the
    element found by the selector [[name='twitter-site-verification']], and
    the elements found by [[id^='loading-x-anim']], in document order. *)
Record Document : Type := {
  outerHTML : string;
  siteVerification : option Element;
  loadingFrames : list Element
}.

(** What [fetch] and then [text()] give: a rejected promise, or a response
    with its [ok] flag and its text ([None] when [text()] rejects). *)
Inductive FetchOutcome : Type :=
| fetch_rejected
| fetch_response (ok : bool) (text : option string).

(** ** Errors *)

Inductive Error : Type :=
| IndicesNotFound        (* Couldn't get KEY_BYTE indices *)
| KeyNotFound            (* Couldn't get key from the page source *)
| FailedToGetKey         (* Failed to get key *)
| IndicesNotInitialized  (* Indices not initialized *)
| InvalidFrameData       (* Invalid frame data *)
| NotInitialized         (* ClientTransaction is not initialized ... *)
| TypeError              (* a property read on undefined *)
| InvalidCharacterError  (* the key is not base64 *)
| HelperError (message : string). (* thrown inside an imported helper *)

Inductive Outcome (A : Type) : Type :=
| Returns (a : A)
| Throws (e : Error).

Arguments Returns {A} a.
Arguments Throws {A} e.

(** ** The session and its monad *)

Record ClientTransaction : Type := {
  DEFAULT_ROW_INDEX : option number;
  DEFAULT_KEY_BYTES_INDICES : option (list number);
  homePageDocument : Document;
  key : option string;
  keyBytes : option (list Z);
  animationKey : option string;
  isInitialized : bool
}.

(** A method: from the session before the call to its outcome and the
    session after it. *)
Definition M (A : Type) : Type :=
  ClientTransaction -> Outcome A * ClientTransaction.

Definition ret {A : Type} (a : A) : M A := fun s => (Returns a, s).

Definition throw {A : Type} (e : Error) : M A := fun s => (Throws e, s).

Definition bind {A B : Type} (m : M A) (f : A -> M B) : M B :=
  fun s =>
    match m s with
    | (Returns a, s') => f a s'
    | (Throws e, s') => (Throws e, s')
    end.

Definition this : M ClientTransaction := fun s => (Returns s, s).

(** The outcome of a call that does not touch the session. *)
Definition lift {A : Type} (o : Outcome A) : M A := fun s => (o, s).

Declare Scope method_scope.
Delimit Scope method_scope with method.

Notation "x <- m ;; k" := (bind m (fun x => k))
  (at level 61, m at next level, right associativity) : method_scope.
Notation "' p <- m ;; k" := (bind m (fun x => let 'p := x in k))
  (at level 61, p pattern, m at next level, right associativity) : method_scope.
Notation "m ;; k" := (bind m (fun _ => k))
  (at level 61, right associativity) : method_scope.

Local Open Scope method_scope.

Definition set_DEFAULT_ROW_INDEX (v : option number) : M unit :=
  fun s =>
    (Returns tt,
     {| DEFAULT_ROW_INDEX := v;
        DEFAULT_KEY_BYTES_INDICES := DEFAULT_KEY_BYTES_INDICES s;
        homePageDocument := homePageDocument s;
        key := key s; keyBytes := keyBytes s;
        animationKey := animationKey s; isInitialized := isInitialized s |}).

Definition set_DEFAULT_KEY_BYTES_INDICES (v : option (list number)) : M unit :=
  fun s =>
    (Returns tt,
     {| DEFAULT_ROW_INDEX := DEFAULT_ROW_INDEX s;
        DEFAULT_KEY_BYTES_INDICES := v;
        homePageDocument := homePageDocument s;
        key := key s; keyBytes := keyBytes s;
        animationKey := animationKey s; isInitialized := isInitialized s |}).

Definition set_key (v : option string) : M unit :=
  fun s =>
    (Returns tt,
     {| DEFAULT_ROW_INDEX := DEFAULT_ROW_INDEX s;
        DEFAULT_KEY_BYTES_INDICES := DEFAULT_KEY_BYTES_INDICES s;
        homePageDocument := homePageDocument s;
        key := v; keyBytes := keyBytes s;
        animationKey := animationKey s; isInitialized := isInitialized s |}).

Definition set_keyBytes (v : option (list Z)) : M unit :=
  fun s =>
    (Returns tt,
     {| DEFAULT_ROW_INDEX := DEFAULT_ROW_INDEX s;
        DEFAULT_KEY_BYTES_INDICES := DEFAULT_KEY_BYTES_INDICES s;
        homePageDocument := homePageDocument s;
        key := key s; keyBytes := v;
        animationKey := animationKey s; isInitialized := isInitialized s |}).

Definition set_animationKey (v : option string) : M unit :=
  fun s =>
    (Returns tt,
     {| DEFAULT_ROW_INDEX := DEFAULT_ROW_INDEX s;
        DEFAULT_KEY_BYTES_INDICES := DEFAULT_KEY_BYTES_INDICES s;
        homePageDocument := homePageDocument s;
        key := key s; keyBytes := keyBytes s;
        animationKey := v; isInitialized := isInitialized s |}).

Definition set_isInitialized (v : bool) : M unit :=
  fun s =>
    (Returns tt,
     {| DEFAULT_ROW_INDEX := DEFAULT_ROW_INDEX s;
        DEFAULT_KEY_BYTES_INDICES := DEFAULT_KEY_BYTES_INDICES s;
        homePageDocument := homePageDocument s;
        key := key s; keyBytes := keyBytes s;
        animationKey := animationKey s; isInitialized := v |}).

(** ** The class *)

Definition ADDITIONAL_RANDOM_NUMBER : Z := 3.
Definition DEFAULT_KEYWORD : string := "obfiowerehiring".

(** [new ClientTransaction(homePageDocument)] *)
Definition constructor (doc : Document) : ClientTransaction :=
  {| DEFAULT_ROW_INDEX := None;
     DEFAULT_KEY_BYTES_INDICES := None;
     homePageDocument := doc;
     key := None; keyBytes := None; animationKey := None;
     isInitialized := false |}.

(** An optional string that is given and not empty: the left operand of
    [||] when it is taken. *)
Definition truthy (s : option string) : option string :=
  match s with
  | Some EmptyString => None
  | _ => s
  end.

(** [response || this.homePageDocument] *)
Definition document_or_own (response : option Document) : M Document :=
  self <- this ;;
  ret (match response with
       | Some d => d
       | None => homePageDocument self
       end).

(** [getKey]: lines 145-162. *)
Definition getKey (response : option Document) : M string :=
  response <- document_or_own response ;;
  let content :=
    match siteVerification response with
    | Some element =>
        match getAttribute element "content" with
        | Some c => c
        | None => EmptyString
        end
    | None => EmptyString
    end in
  match content with
  | EmptyString => throw KeyNotFound
  | _ => ret content
  end.

(** [getKeyBytes]: lines 170-172. *)
Definition getKeyBytes (key : string) : M (list Z) :=
  match Base64.decodeBase64 key with
  | Some bytes => ret bytes
  | None => throw InvalidCharacterError
  end.

(** [getFrames]: lines 180-183. *)
Definition getFrames (response : option Document) : M (list Element) :=
  response <- document_or_own response ;;
  ret (loadingFrames response).

(** The callback of [items.map] in [get2dArray]: lines 219-226. *)
Definition frame_row (item : string) : list number :=
  let cleaned := JsString.trim (JsString.replace_non_digits item) in
  let parts :=
    match cleaned with
    | EmptyString => []
    | _ => JsString.split_spaces cleaned
    end in
  map JsNumber.parseInt parts.

(** Steps 2 and 3 of [get2dArray]: lines 216-226. *)
Definition frame_table (dAttr : string) : list (list number) :=
  map frame_row (JsString.split "C" (JsString.substring_from 9 dAttr)).

(** [get2dArray]: lines 193-227. *)
Definition get2dArray (keyBytes : list Z) (response : option Document)
    (frames : option (list Element)) : M (list (list number)) :=
  frames <- match frames with
            | Some f => ret f
            | None => getFrames response
            end ;;
  match frames with
  | [] => ret [[]]
  | _ =>
      match JsNumber.index frames (JsNumber.rem (nth_error keyBytes 5) 4) with
      | None => throw TypeError
      | Some frame =>
          match nth_error (children frame) 0 with
          | None => throw TypeError
          | Some firstChild =>
              match nth_error (children firstChild) 1 with
              | None => throw TypeError
              | Some targetChild =>
                  match getAttribute targetChild "d" with
                  | None => ret []
                  | Some dAttr => ret (frame_table dAttr)
                  end
              end
          end
      end
  end.

(** The reduction that gives [frameTime] before it is rounded:
    lines 314-316. *)
Definition frame_time_product (keyBytes : list Z) (indices : list number)
    : number :=
  fold_left
    (fun num1 num2 =>
       JsNumber.mul num1 (JsNumber.rem (JsNumber.index keyBytes num2) 16))
    indices (Finite 1).

(** [getAnimationKey] up to its call of [animate]: lines 305-325. The
    result is the pair of arguments [(frameRow, targetTime)]. *)
Definition animationArguments (keyBytes : list Z) (response : option Document)
    : M (list number * Number Q) :=
  let totalTime := 4096%positive in
  self <- this ;;
  match DEFAULT_ROW_INDEX self, DEFAULT_KEY_BYTES_INDICES self with
  | Some row_index, Some key_bytes_indices =>
      let rowIndex := JsNumber.rem (JsNumber.index keyBytes row_index) 16 in
      let frameTime := frame_time_product keyBytes key_bytes_indices in
      let frameTime := JsNumber.round_to_tens frameTime in
      arr <- get2dArray keyBytes response None ;;
      match JsNumber.index arr rowIndex with
      | None => throw InvalidFrameData
      | Some frameRow =>
          let targetTime := JsNumber.div frameTime totalTime in
          ret (frameRow, targetTime)
      end
  | _, _ => throw IndicesNotInitialized
  end.

(** The argument [timeNow] when it is given: a whole number of seconds, or
    [NaN]. *)
Inductive Seconds : Type :=
| seconds_NaN
| seconds (t : Z).

(** [timeNow || Math.floor((Date.now() - 1682924400 * 1000) / 1000)]:
    line 356. The left operand is taken when it is truthy: a number other
    than zero and [NaN]. [nowMillis] is what [Date.now()] gives. *)
Definition resolveTimeNow (timeNow : option Seconds) (nowMillis : Z) : Z :=
  match timeNow with
  | Some (seconds t) =>
      if t =? 0 then (nowMillis - 1682924400 * 1000) / 1000 else t
  | Some seconds_NaN | None => (nowMillis - 1682924400 * 1000) / 1000
  end.

(** [timeNowBytes]: lines 357-362. *)
Definition timeNowBytes (timeNow : Z) : list Z :=
  [JsNumber.and timeNow 255;
   JsNumber.and (JsNumber.shr timeNow 8) 255;
   JsNumber.and (JsNumber.shr timeNow 16) 255;
   JsNumber.and (JsNumber.shr timeNow 24) 255].

Section Collaborators.

(** The network: what fetching a URL gives. *)
Variable fetch : string -> FetchOutcome.

(** The floating-point part of [animate] (lines 255-295) and the helpers it
    imports: [curves] is lines 261-264, [Cubic_getValue curves t] is
    [new Cubic(curves).getValue(t)], and [encode frames val] is the rest of
    the body, from the value of the curve to the string. Each of them calls
    imported helpers, and returns or throws as they do. *)
Variable float : Type.
Variable curves : list number -> Outcome (list float).
Variable Cubic_getValue : list float -> Number Q -> Outcome float.
Variable encode : list number -> float -> Outcome string.

(** [animate]: lines 255-295. *)
Definition animate (frames : list number) (targetTime : Number Q)
    : Outcome string :=
  match curves frames with
  | Throws e => Throws e
  | Returns c =>
      match Cubic_getValue c targetTime with
      | Throws e => Throws e
      | Returns val => encode frames val
      end
  end.

(** [getIndices]: lines 93-137. *)
Definition getIndices (homePageDocument : option Document)
    : M (number * list number) :=
  response <- document_or_own homePageDocument ;;
  let responseStr := outerHTML response in
  let keyByteIndices :=
    match Regex.on_demand_file responseStr with
    | Some name =>
        let onDemandFileUrl :=
          "https://abs.twimg.com/responsive-web/client-web/ondemand.s."
            ++ name ++ "a.js" in
        match fetch onDemandFileUrl with
        | fetch_response true (Some responseText) => Regex.indices responseText
        | _ => []
        end
    | None => []
    end in
  match keyByteIndices with
  | [] => throw IndicesNotFound
  | _ =>
      let numericIndices := map JsNumber.parseInt keyByteIndices in
      ret (hd NaN numericIndices, tl numericIndices)
  end.

(** [getAnimationKey]: lines 304-329. *)
Definition getAnimationKey (keyBytes : list Z) (response : option Document)
    : M string :=
  ' (frameRow, targetTime) <- animationArguments keyBytes response ;;
  lift (animate frameRow targetTime).

(** [initialize]: lines 47-74. *)
Definition initialize : M unit :=
  self <- this ;;
  if isInitialized self then ret tt
  else
    ' (row_index, key_bytes_indices) <- getIndices (Some (homePageDocument self)) ;;
    set_DEFAULT_ROW_INDEX (Some row_index) ;;
    set_DEFAULT_KEY_BYTES_INDICES (Some key_bytes_indices) ;;
    k <- getKey (Some (homePageDocument self)) ;;
    set_key (Some k) ;;
    match k with
    | EmptyString => throw FailedToGetKey
    | _ =>
        kb <- getKeyBytes k ;;
        set_keyBytes (Some kb) ;;
        ak <- getAnimationKey kb (Some (homePageDocument self)) ;;
        set_animationKey (Some ak) ;;
        set_isInitialized true
    end.

(** [ClientTransaction.create]: lines 81-85. *)
Definition create (doc : Document) : Outcome ClientTransaction :=
  match initialize (constructor doc) with
  | (Returns _, instance) => Returns instance
  | (Throws e, _) => Throws e
  end.

(** [key || this.key || this.getKey(response)]: line 364. *)
Definition resolveKey (key_arg : option string) (response : option Document)
    : M string :=
  self <- this ;;
  match truthy key_arg with
  | Some k => ret k
  | None =>
      match truthy (key self) with
      | Some k => ret k
      | None => getKey response
      end
  end.

(** [key ? this.getKeyBytes(key) : this.keyBytes || this.getKeyBytes(key)]:
    lines 365-367. *)
Definition resolveKeyBytes (k : string) : M (list Z) :=
  self <- this ;;
  match k with
  | EmptyString =>
      match keyBytes self with
      | Some kb => ret kb
      | None => getKeyBytes k
      end
  | _ => getKeyBytes k
  end.

(** [animationKey || this.animationKey ||
    this.getAnimationKey(keyBytes, response)]: lines 368-371. *)
Definition resolveAnimationKey (animationKey_arg : option string)
    (kb : list Z) (response : option Document) : M string :=
  self <- this ;;
  match truthy animationKey_arg with
  | Some ak => ret ak
  | None =>
      match truthy (animationKey self) with
      | Some ak => ret ak
      | None => getAnimationKey kb response
      end
  end.

(** [generateTransactionId]: lines 341-395. The optional arguments are
    [response], [key_arg], [animationKey_arg] and [timeNow_arg]; [nowMillis]
    is what [Date.now()] gives and [randomNum] what
    [Math.floor(Math.random() * 256)] gives. *)
Definition generateTransactionId (method path : string)
    (response : option Document) (key_arg animationKey_arg : option string)
    (timeNow_arg : option Seconds) (nowMillis randomNum : Z) : M string :=
  self <- this ;;
  if negb (isInitialized self) then throw NotInitialized
  else
    let timeNow := resolveTimeNow timeNow_arg nowMillis in
    let time_bytes := timeNowBytes timeNow in
    k <- resolveKey key_arg response ;;
    kb <- resolveKeyBytes k ;;
    ak <- resolveAnimationKey animationKey_arg kb response ;;
    let data :=
      method ++ "!" ++ path ++ "!" ++ JsNumber.toString timeNow
        ++ DEFAULT_KEYWORD ++ ak in
    let dataBuffer := Utf8.encode data in
    let hashBytes := Sha256.digest dataBuffer in
    let bytesArr :=
      (kb ++ time_bytes ++ firstn 16 hashBytes
         ++ [ADDITIONAL_RANDOM_NUMBER])%list in
    let out :=
      map JsNumber.ToUint8
        (randomNum :: map (fun item => JsNumber.xor item randomNum) bytesArr) in
    ret (JsString.remove_char "=" (Base64.encodeBase64 out)).

End Collaborators.

(** ** The statements of the specification, in its own words *)

(** A byte. *)
Definition is_byte (b : Z) : Prop := 0 <= b < 256.

(** A whole number that is a double: its Number value is itself. *)
Definition whole_double (z : Z) : Prop := JsNumber.of_Z z = Finite z.

(** The text of a time: its decimal writing, with a minus sign when it is
    negative; a time of 2^53 or more stands as the host writes it. *)
Definition time_text (timeNow : Z) : string :=
  if Z.abs timeNow <? 2 ^ 53 then NilZero.string_of_int (Z.to_int timeNow)
  else JsNumber.toString timeNow.

(** The bytes that are hashed and sent: section 4.8, steps 4 and 5. *)
Definition message (method path : string) (timeNow : Z) (ak : string)
    : string :=
  method ++ "!" ++ path ++ "!" ++ time_text timeNow
    ++ "obfiowerehiring" ++ ak.

(** Section 4.8, step 2: [timeNow] cut to 32 bits, least significant byte
    first. *)
Definition timeBytes (timeNow : Z) : list Z :=
  let m := timeNow mod 2 ^ 32 in
  [m mod 256; m / 2 ^ 8 mod 256; m / 2 ^ 16 mod 256; m / 2 ^ 24].

(** UTF-8: a character below 128 is one byte, itself; a character from 128
    to 2047 is two bytes, 110xxxxx and 10xxxxxx, that hold its eleven bits
    from the highest down. *)
Definition utf8 (text : string) : list Z :=
  flat_map
    (fun c =>
       let n := Z.of_nat (nat_of_ascii c) in
       if n <? 128 then [n] else [192 + n / 64; 128 + n mod 64])
    (list_ascii_of_string text).

Definition payload (method path : string) (timeNow : Z) (kb : list Z)
    (ak : string) : list Z :=
  (kb ++ timeBytes timeNow
     ++ firstn 16 (Sha256.digest (utf8 (message method path timeNow ak)))
     ++ [3])%list.

(** Section 4.8, steps 7 and 8. *)
Definition masked (mask : Z) (bytes : list Z) : list Z :=
  mask :: map (fun b => Z.lxor b mask) bytes.

Definition identifier (out : list Z) : string :=
  JsString.remove_char "=" (Base64.encodeBase64 out).

(** Section 8: every byte from index 1 onward, combined with byte 0. *)
Definition unmask (out : list Z) : list Z :=
  match out with
  | [] => []
  | b0 :: rest => map (fun b => Z.lxor b b0) rest
  end.

(** Four bytes read as a little-endian integer. *)
Definition little_endian (bs : list Z) : Z :=
  fold_right (fun b acc => b + 256 * acc) 0 bs.

(** [r] is a multiple of ten nearest to [p]. *)
Definition nearest_multiple_of_10 (p r : Z) : Prop :=
  r mod 10 = 0 /\ Z.abs (r - p) <= 5.

(** The product of the low four bits of the key bytes at the given
    places, from left to right and starting from 1. *)
Definition nibble_product (kb : list Z) (places : list Z) : Z :=
  fold_left (fun acc i => acc * (nth (Z.to_nat i) kb 0 mod 16)) places 1.

(** Every product met on the way from [acc], from left to right, is at
    most [bound]. *)
Fixpoint products_within (bound : Z) (kb : list Z) (places : list Z) (acc : Z)
    : bool :=
  match places with
  | [] => true
  | i :: rest =>
      let next := acc * (nth (Z.to_nat i) kb 0 mod 16) in
      (next <=? bound) && products_within bound kb rest next
  end.

(** The frame table of section 4.3, in the words of the specification. *)
Module FrameTableSpec.

(** Every maximal run of non-digits becomes one space: a non-digit gives a
    space when it is the last of its run. *)
Fixpoint squash (s : string) : string :=
  match s with
  | EmptyString => EmptyString
  | String c s' =>
      if Char.is_digit c then String c (squash s')
      else
        match s' with
        | EmptyString => " "
        | String c' _ =>
            if Char.is_digit c' then String " " (squash s') else squash s'
        end
  end.

(** The maximal runs of units that are not white space. *)
Fixpoint tokens (s : string) : list string :=
  match s with
  | EmptyString => []
  | String c s' =>
      if Char.is_space c then tokens s'
      else
        match s' with
        | EmptyString => [String c EmptyString]
        | String c' _ =>
            if Char.is_space c' then String c EmptyString :: tokens s'
            else JsString.cons_head c (tokens s')
        end
  end.

(** White space removed from both ends. *)
Fixpoint drop_spaces (l : list ascii) : list ascii :=
  match l with
  | [] => []
  | c :: l' => if Char.is_space c then drop_spaces l' else l
  end.

Definition trim (s : string) : string :=
  string_of_list_ascii
    (rev (drop_spaces (rev (drop_spaces (list_ascii_of_string s))))).

(** The value of a string of digits, by the weight of each place. *)
Fixpoint decimal (s : string) : Z :=
  match s with
  | EmptyString => 0
  | String c s' => Char.digit_value c * 10 ^ Z.of_nat (String.length s') + decimal s'
  end.

(** The pieces of a text between the occurrences of a delimiter; [piece]
    is the piece being read. *)
Fixpoint pieces_from (delimiter : ascii) (piece s : string) : list string :=
  match s with
  | EmptyString => [piece]
  | String c s' =>
      if Ascii.eqb c delimiter
      then piece :: pieces_from delimiter EmptyString s'
      else pieces_from delimiter (piece ++ String c EmptyString) s'
  end.

Definition pieces (delimiter : ascii) (s : string) : list string :=
  pieces_from delimiter EmptyString s.

(** A row: the base-10 integers of a segment. *)
Definition row (segment : string) : list Z :=
  map decimal (tokens (trim (squash segment))).

Definition parse (pathData : string) : list (list Z) :=
  map row
    (pieces "C" (String.substring 9 (String.length pathData - 9) pathData)).

(** Every integer of the table is at most [2 ^ 53]. *)
Definition exact (table : list (list Z)) : bool :=
  forallb (forallb (fun v => v <=? 2 ^ 53)) table.

End FrameTableSpec.

(** A method that leaves the session as it found it. *)
Definition read_only {A : Type} (m : M A) : Prop :=
  forall s, snd (m s) = s.

Arguments animate {float} curves Cubic_getValue encode frames targetTime.
Arguments getAnimationKey {float} curves Cubic_getValue encode keyBytes response.
Arguments initialize fetch {float} curves Cubic_getValue encode.
Arguments create fetch {float} curves Cubic_getValue encode doc.
Arguments resolveAnimationKey {float} curves Cubic_getValue encode
  animationKey_arg kb response.
Arguments generateTransactionId {float} curves Cubic_getValue encode
  method path response key_arg animationKey_arg timeNow_arg nowMillis randomNum.

(** ** Bounded enumeration, for facts checked case by case *)

Definition range (n : nat) : list Z := map Z.of_nat (seq 0 n).

Definition all_below (n : nat) (P : Z -> bool) : bool := forallb P (range n).

Definition all_below2 (n m : nat) (P : Z -> Z -> bool) : bool :=
  all_below n (fun a => all_below m (P a)).

(** The six-bit values that [encodeBase64] writes for a list of bytes. *)
Fixpoint sextets (bs : list Z) : list Z :=
  match bs with
  | [] => []
  | [a] => [Z.shiftr a 2; Z.shiftl (Z.land a 3) 4]
  | [a; b] =>
      [Z.shiftr a 2; Z.lor (Z.shiftl (Z.land a 3) 4) (Z.shiftr b 4);
       Z.shiftl (Z.land b 15) 2]
  | a :: b :: c :: rest =>
      Z.shiftr a 2 :: Z.lor (Z.shiftl (Z.land a 3) 4) (Z.shiftr b 4)
        :: Z.lor (Z.shiftl (Z.land b 15) 2) (Z.shiftr c 6)
        :: Z.land c 63 :: sextets rest
  end.

Definition text_of_values (vs : list Z) : string :=
  string_of_list_ascii (map Base64.char_of vs).

Definition is_sextet (v : Z) : Prop := 0 <= v < 64.

(** Every unit of [s] satisfies [f]. *)
Fixpoint every (f : ascii -> bool) (s : string) : bool :=
  match s with
  | EmptyString => true
  | String c s' => f c && every f s'
  end.

Definition digit_or_blank (c : ascii) : bool :=
  Char.is_digit c || Ascii.eqb c " ".

Definition starts_with (f : ascii -> bool) (s : string) : bool :=
  match s with
  | EmptyString => false
  | String c _ => f c
  end.

(** ** A sample page, for the examples *)

Module Sample.

(** A frame element: its first child holds two children, and the second of
    them carries the path data. *)
Definition frame (d : string) : Element :=
  mkElement [("id", "loading-x-anim-0")]
    [mkElement [] [mkElement [] []; mkElement [("d", d)] []]].

Definition path0 : string :=
  "M 0 0 0 010,20,30,40,50,60,128,5,6,7,8C1 2 3 4 5 6 7 8 9C11 12 13 14 15 16 17 18".

Definition path1 : string :=
  "M 1 1 1 121 22 23 24 25 26 27 28 h C31,32,33,34,35,36,37,38C41 42 43 44 45 46 47 48 ".

Definition markup : string :=
  "<html><script>{'ondemand.s': 'abc123'}</script></html>".

Definition script : string :=
  "f=[n(e[0], 16),n(e[7], 16),n(e[9],16)]".

Definition document : Document :=
  {| outerHTML := markup;
     siteVerification :=
       Some (mkElement [("name", "twitter-site-verification");
                        ("content", "AAECAwQFBgcICQoLDA0ODw==")] []);
     loadingFrames := [frame path0; frame path1; frame path0; frame path1] |}.

(** The same page without its loading animation. *)
Definition document_without_frames : Document :=
  {| outerHTML := markup;
     siteVerification := siteVerification document;
     loadingFrames := [] |}.

Definition fetch (url : string) : FetchOutcome :=
  if String.eqb url
       "https://abs.twimg.com/responsive-web/client-web/ondemand.s.abc123a.js"
  then fetch_response true (Some script)
  else fetch_rejected.

(** Stand-ins for the floating-point part of [animate]. *)
Definition curves (frames : list number) : Outcome (list Z) := Returns [].
Definition Cubic_getValue (c : list Z) (t : Number Q) : Outcome Z := Returns 0.
Definition encode (frames : list number) (val : Z) : Outcome string :=
  Returns "00".

Definition key_bytes : list Z :=
  [0; 1; 2; 3; 4; 5; 6; 7; 8; 9; 10; 11; 12; 13; 14; 15].

(** A session as [initialize] leaves it on [document]. *)
Definition session : ClientTransaction :=
  {| DEFAULT_ROW_INDEX := Some (Finite 0);
     DEFAULT_KEY_BYTES_INDICES := Some [Finite 7; Finite 9];
     homePageDocument := document;
     key := Some "AAECAwQFBgcICQoLDA0ODw==";
     keyBytes := Some key_bytes;
     animationKey := Some "00";
     isInitialized := true |}.

End Sample.

(** The document a method works on: its argument, or else the one of the
    session. *)
Definition document_of (response : option Document) (s : ClientTransaction)
    : Document :=
  match response with
  | Some d => d
  | None => homePageDocument s
  end.

(** The address of the auxiliary script named in the markup. *)
Definition onDemandFileUrl (name : string) : string :=
  "https://abs.twimg.com/responsive-web/client-web/ondemand.s."
    ++ name ++ "a.js".

(** The three ways of finding no index, in the words of section 4.1. *)
Definition marker_absent (markup : string) : Prop :=
  Regex.on_demand_file markup = None.

Definition fetch_fails (fetch : string -> FetchOutcome) (markup : string)
    : Prop :=
  exists name,
    Regex.on_demand_file markup = Some name
    /\ forall text, fetch (onDemandFileUrl name) <> fetch_response true (Some text).

Definition no_match (fetch : string -> FetchOutcome) (markup : string) : Prop :=
  exists name text,
    Regex.on_demand_file markup = Some name
    /\ fetch (onDemandFileUrl name) = fetch_response true (Some text)
    /\ Regex.indices text = [].

(** The session that a successful [initialize] leaves. *)
Definition ready (doc : Document) (row_index : number) (indices : list number)
    (k : string) (kb : list Z) (ak : string) : ClientTransaction :=
  {| DEFAULT_ROW_INDEX := Some row_index;
     DEFAULT_KEY_BYTES_INDICES := Some indices;
     homePageDocument := doc;
     key := Some k;
     keyBytes := Some kb;
     animationKey := Some ak;
     isInitialized := true |}.

(** What [Base64.remove_padding] does to a text whose length is a multiple
    of four. *)
Definition strip_padding (s : string) : string :=
  match JsString.drop_last_if "="%char s with
  | Some r =>
      match JsString.drop_last_if "="%char r with
      | Some r' => r'
      | None => r
      end
  | None => s
  end.

(** The number of units of [s] equal to [x]. *)
Fixpoint occurrences (x : ascii) (s : string) : nat :=
  match s with
  | EmptyString => O
  | String c s' =>
      if Ascii.eqb c x then S (occurrences x s') else occurrences x s'
  end.

(** A character of the base64 alphabet. *)
Definition is_alphabet (c : ascii) : bool :=
  match Base64.value_of c with
  | Some _ => true
  | None => false
  end.

(** ** Sessions and collaborators at the edges, for the examples *)

Module Edge.

(** A network that is down. *)
Definition fetch_down (url : string) : FetchOutcome := fetch_rejected.

(** A session that an earlier attempt left half filled. *)
Definition half_filled : ClientTransaction :=
  {| DEFAULT_ROW_INDEX := Some (Finite 3);
     DEFAULT_KEY_BYTES_INDICES := Some [Finite 1];
     homePageDocument := Sample.document;
     key := Some "AAEC";
     keyBytes := None;
     animationKey := None;
     isInitialized := false |}.

(** A script of fifteen literals: the row index 0, and fourteen times the
    index 15. *)
Definition script_of_fifteen : string :=
  "f=[n(e[0], 16),n(e[15], 16),n(e[15], 16),n(e[15], 16),n(e[15], 16),"
    ++ "n(e[15], 16),n(e[15], 16),n(e[15], 16),n(e[15], 16),n(e[15], 16),"
    ++ "n(e[15], 16),n(e[15], 16),n(e[15], 16),n(e[15], 16),n(e[15], 16)]".

Definition fetch_fifteen (url : string) : FetchOutcome :=
  fetch_response true (Some script_of_fifteen).

(** A path whose second number, 2^53 + 1, is not a double. *)
Definition path_beyond : string := "M 0 0 0 07 9007199254740993C5".

(** An [encode] that refuses a row of fewer than eight numbers, as a helper
    does that checks the lengths of its vectors. *)
Definition encode_strict (frames : list number) (val : Z) : Outcome string :=
  if (List.length frames <? 8)%nat
  then Throws (HelperError "vectors of unequal length")
  else Returns "00".

(** The sample session with a key-byte index beyond its sixteen key
    bytes. *)
Definition far_index : ClientTransaction :=
  {| DEFAULT_ROW_INDEX := Some (Finite 0);
     DEFAULT_KEY_BYTES_INDICES := Some [Finite 7; Finite 40];
     homePageDocument := Sample.document;
     key := Some "AAECAwQFBgcICQoLDA0ODw==";
     keyBytes := Some Sample.key_bytes;
     animationKey := Some "00";
     isInitialized := true |}.

End Edge.

(** * Properties *)

(** ** The monad *)

Lemma read_only_ret {A : Type} (a : A) : read_only (ret a).
Proof. intros s. reflexivity. Qed.

Lemma read_only_throw {A : Type} (e : Error) : read_only (@throw A e).
Proof. intros s. reflexivity. Qed.

Lemma read_only_this : read_only this.
Proof. intros s. reflexivity. Qed.

Lemma read_only_bind {A B : Type} (m : M A) (f : A -> M B) :
  read_only m -> (forall a, read_only (f a)) -> read_only (bind m f).
Proof.
  intros Hm Hf s. unfold bind.
  specialize (Hm s). destruct (m s) as [[a | e] s1]; simpl in Hm; subst s1.
  - apply Hf.
  - reflexivity.
Qed.

(** The outcome of a read-only method decides what follows it. *)
Lemma bind_read_only {A B : Type} (m : M A) (f : A -> M B) s :
  read_only m ->
  bind m f s =
  match fst (m s) with
  | Returns a => f a s
  | Throws e => (Throws e, s)
  end.
Proof.
  intros Hm. unfold bind. specialize (Hm s).
  destruct (m s) as [[a | e] s1]; simpl in *; subst s1; reflexivity.
Qed.

Lemma run_read_only {A : Type} (m : M A) s :
  read_only m -> m s = (fst (m s), s).
Proof.
  intros Hm. specialize (Hm s). destruct (m s) as [o s1].
  simpl in *. subst s1. reflexivity.
Qed.

Create HintDb frame.

#[local] Hint Resolve read_only_ret read_only_throw read_only_this : frame.

Ltac frame_step :=
  match goal with
  | |- read_only (bind _ _) => apply read_only_bind; [ | intros ]
  | |- read_only (match ?x with _ => _ end) => destruct x
  | |- read_only _ => solve [ auto with frame ]
  end.

Ltac frame := repeat frame_step.

Lemma read_only_document_or_own response : read_only (document_or_own response).
Proof. unfold document_or_own. frame. Qed.

#[local] Hint Resolve read_only_document_or_own : frame.

Lemma read_only_getKey response : read_only (getKey response).
Proof. unfold getKey. frame. Qed.

Lemma read_only_getKeyBytes k : read_only (getKeyBytes k).
Proof. unfold getKeyBytes. frame. Qed.

Lemma read_only_getFrames response : read_only (getFrames response).
Proof. unfold getFrames. frame. Qed.

#[local] Hint Resolve read_only_getKey read_only_getKeyBytes
  read_only_getFrames : frame.

Lemma read_only_get2dArray kb response frames :
  read_only (get2dArray kb response frames).
Proof. unfold get2dArray. frame. Qed.

#[local] Hint Resolve read_only_get2dArray : frame.

Lemma read_only_animationArguments kb response :
  read_only (animationArguments kb response).
Proof. unfold animationArguments. frame. Qed.

#[local] Hint Resolve read_only_animationArguments : frame.

Lemma read_only_getIndices fetch doc : read_only (getIndices fetch doc).
Proof. unfold getIndices. frame. Qed.

Lemma read_only_getAnimationKey {float : Type} curves Cubic_getValue encode kb response :
  read_only (@getAnimationKey float curves Cubic_getValue encode kb response).
Proof. unfold getAnimationKey. frame. Qed.

#[local] Hint Resolve read_only_getIndices read_only_getAnimationKey : frame.

Lemma read_only_resolveKey key_arg response :
  read_only (resolveKey key_arg response).
Proof. unfold resolveKey. frame. Qed.

Lemma read_only_resolveKeyBytes k : read_only (resolveKeyBytes k).
Proof. unfold resolveKeyBytes. frame. Qed.

Lemma read_only_resolveAnimationKey {float : Type} curves Cubic_getValue encode
    ak_arg kb response :
  read_only (@resolveAnimationKey float curves Cubic_getValue encode ak_arg kb response).
Proof. unfold resolveAnimationKey. frame. Qed.

#[local] Hint Resolve read_only_resolveKey read_only_resolveKeyBytes
  read_only_resolveAnimationKey : frame.

(** C8. [generateTransactionId] never writes to the session: whatever the
    arguments, overrides included, and whether it returns or throws, every
    field of the session is after the call what it was before. *)
Theorem generateTransactionId_read_only {float : Type}
    (curves : list number -> Outcome (list float))
    (Cubic_getValue : list float -> Number Q -> Outcome float)
    (encode : list number -> float -> Outcome string)
    method path response key_arg animationKey_arg timeNow_arg nowMillis randomNum s :
  snd (generateTransactionId curves Cubic_getValue encode method path response
         key_arg animationKey_arg timeNow_arg nowMillis randomNum s) = s.
Proof.
  revert s. change (read_only (generateTransactionId curves Cubic_getValue encode
    method path response key_arg animationKey_arg timeNow_arg nowMillis randomNum)).
  unfold generateTransactionId. frame.
Qed.

(** ** Facts checked over all bytes *)

Lemma in_range n z : 0 <= z < Z.of_nat n -> In z (range n).
Proof.
  intros H. unfold range. apply in_map_iff.
  exists (Z.to_nat z). split; [lia | apply in_seq; lia].
Qed.

Lemma all_below_spec n P :
  all_below n P = true -> forall z, 0 <= z < Z.of_nat n -> P z = true.
Proof.
  unfold all_below. intros H z Hz.
  rewrite forallb_forall in H. apply H, in_range, Hz.
Qed.

Lemma all_below2_spec n m P :
  all_below2 n m P = true ->
  forall a b, 0 <= a < Z.of_nat n -> 0 <= b < Z.of_nat m -> P a b = true.
Proof.
  unfold all_below2. intros H a b Ha Hb.
  apply (all_below_spec m (P a)); [ | exact Hb ].
  apply (all_below_spec n (fun a => all_below m (P a))); assumption.
Qed.

Ltac by_bytes P :=
  let H := fresh in
  assert (H : all_below2 256 256 P = true) by (vm_compute; reflexivity);
  let a := fresh "a" in let b := fresh "b" in
  let Ha := fresh in let Hb := fresh in
  intros a b Ha Hb;
  generalize (all_below2_spec 256 256 P H a b Ha Hb); clear H; cbv beta.

Lemma xor_bytes : forall a b, is_byte a -> is_byte b ->
  JsNumber.ToUint8 (JsNumber.xor a b) = Z.lxor a b /\ is_byte (Z.lxor a b).
Proof.
  by_bytes (fun a b => (JsNumber.ToUint8 (JsNumber.xor a b) =? Z.lxor a b)
                       && ((0 <=? Z.lxor a b) && (Z.lxor a b <? 256))).
  intros E. unfold is_byte.
  apply andb_true_iff in E. destruct E as [E1 E2].
  apply andb_true_iff in E2. destruct E2 as [E2 E3].
  apply Z.eqb_eq in E1. apply Z.leb_le in E2. apply Z.ltb_lt in E3. lia.
Qed.

Lemma lxor_undo a b : Z.lxor (Z.lxor a b) b = a.
Proof.
  rewrite Z.lxor_assoc, Z.lxor_nilpotent, Z.lxor_0_r. reflexivity.
Qed.

(** ** Base64 *)

Lemma list_ind3 {A : Type} (P : list A -> Prop) :
  P [] -> (forall a, P [a]) -> (forall a b, P [a; b]) ->
  (forall a b c rest, P rest -> P (a :: b :: c :: rest)) ->
  forall l, P l.
Proof.
  intros H0 H1 H2 H3.
  fix IH 1. intros [ | a [ | b [ | c rest]]].
  - exact H0.
  - apply H1.
  - apply H2.
  - apply H3, IH.
Qed.

Lemma list_ind4 {A : Type} (P : list A -> Prop) :
  P [] -> (forall a, P [a]) -> (forall a b, P [a; b]) ->
  (forall a b c, P [a; b; c]) ->
  (forall a b c d rest, P rest -> P (a :: b :: c :: d :: rest)) ->
  forall l, P l.
Proof.
  intros H0 H1 H2 H3 H4.
  fix IH 1. intros [ | a [ | b [ | c [ | d rest]]]].
  - exact H0.
  - apply H1.
  - apply H2.
  - apply H3.
  - apply H4, IH.
Qed.

(** What the encoder and the decoder do to the bits of two bytes. *)
Lemma base64_bits : forall a b, is_byte a -> is_byte b ->
  (is_sextet (Z.shiftr a 2) /\ is_sextet (Z.shiftl (Z.land a 3) 4)
   /\ is_sextet (Z.lor (Z.shiftl (Z.land a 3) 4) (Z.shiftr b 4))
   /\ is_sextet (Z.shiftl (Z.land a 15) 2)
   /\ is_sextet (Z.lor (Z.shiftl (Z.land a 15) 2) (Z.shiftr b 6))
   /\ is_sextet (Z.land a 63))
  /\ (Z.lor (Z.shiftl (Z.shiftr a 2) 2)
        (Z.shiftr (Z.lor (Z.shiftl (Z.land a 3) 4) (Z.shiftr b 4)) 4) = a
      /\ Z.lor (Z.shiftl (Z.shiftr a 2) 2)
           (Z.shiftr (Z.shiftl (Z.land a 3) 4) 4) = a
      /\ Z.land (Z.lor (Z.shiftl (Z.land a 3) 4) (Z.shiftr b 4)) 15
         = Z.shiftr b 4
      /\ Z.shiftr (Z.lor (Z.shiftl (Z.land a 15) 2) (Z.shiftr b 6)) 2
         = Z.land a 15
      /\ Z.shiftr (Z.shiftl (Z.land a 15) 2) 2 = Z.land a 15
      /\ Z.land (Z.lor (Z.shiftl (Z.land a 15) 2) (Z.shiftr b 6)) 3
         = Z.shiftr b 6
      /\ Z.lor (Z.shiftl (Z.shiftr a 4) 4) (Z.land a 15) = a
      /\ Z.lor (Z.shiftl (Z.shiftr a 6) 6) (Z.land a 63) = a).
Proof.
  by_bytes (fun a b =>
    let six v := (0 <=? v) && (v <? 64) in
    six (Z.shiftr a 2) && six (Z.shiftl (Z.land a 3) 4)
    && six (Z.lor (Z.shiftl (Z.land a 3) 4) (Z.shiftr b 4))
    && six (Z.shiftl (Z.land a 15) 2)
    && six (Z.lor (Z.shiftl (Z.land a 15) 2) (Z.shiftr b 6))
    && six (Z.land a 63)
    && (Z.lor (Z.shiftl (Z.shiftr a 2) 2)
          (Z.shiftr (Z.lor (Z.shiftl (Z.land a 3) 4) (Z.shiftr b 4)) 4) =? a)
    && (Z.lor (Z.shiftl (Z.shiftr a 2) 2)
          (Z.shiftr (Z.shiftl (Z.land a 3) 4) 4) =? a)
    && (Z.land (Z.lor (Z.shiftl (Z.land a 3) 4) (Z.shiftr b 4)) 15
        =? Z.shiftr b 4)
    && (Z.shiftr (Z.lor (Z.shiftl (Z.land a 15) 2) (Z.shiftr b 6)) 2
        =? Z.land a 15)
    && (Z.shiftr (Z.shiftl (Z.land a 15) 2) 2 =? Z.land a 15)
    && (Z.land (Z.lor (Z.shiftl (Z.land a 15) 2) (Z.shiftr b 6)) 3
        =? Z.shiftr b 6)
    && (Z.lor (Z.shiftl (Z.shiftr a 4) 4) (Z.land a 15) =? a)
    && (Z.lor (Z.shiftl (Z.shiftr a 6) 6) (Z.land a 63) =? a)).
  intros E. unfold is_sextet.
  repeat (apply andb_true_iff in E; destruct E as [E ?]).
  repeat match goal with
         | H : (_ && _) = true |- _ => apply andb_true_iff in H; destruct H
         | H : (_ <=? _) = true |- _ => apply Z.leb_le in H
         | H : (_ <? _) = true |- _ => apply Z.ltb_lt in H
         | H : (_ =? _) = true |- _ => apply Z.eqb_eq in H
         end.
  repeat split; assumption.
Qed.

(** The bytes the decoder makes of six-bit values are bytes. *)
Lemma decoded_bytes : forall a b, is_sextet a -> is_sextet b ->
  is_byte (Z.lor (Z.shiftl a 2) (Z.shiftr b 4))
  /\ is_byte (Z.lor (Z.shiftl (Z.land a 15) 4) (Z.shiftr b 2))
  /\ is_byte (Z.lor (Z.shiftl (Z.land a 3) 6) b).
Proof.
  pose (P := fun a b : Z =>
    let byte v := (0 <=? v) && (v <? 256) in
    byte (Z.lor (Z.shiftl a 2) (Z.shiftr b 4))
    && byte (Z.lor (Z.shiftl (Z.land a 15) 4) (Z.shiftr b 2))
    && byte (Z.lor (Z.shiftl (Z.land a 3) 6) b)).
  assert (H : all_below2 64 64 P = true) by (vm_compute; reflexivity).
  intros a b Ha Hb.
  generalize (all_below2_spec 64 64 P H a b Ha Hb). clear H.
  unfold P, is_byte. cbv beta zeta. intros E.
  repeat (apply andb_true_iff in E; destruct E as [E ?]).
  repeat match goal with
         | H : (_ && _) = true |- _ => apply andb_true_iff in H; destruct H
         | H : (_ <=? _) = true |- _ => apply Z.leb_le in H
         | H : (_ <? _) = true |- _ => apply Z.ltb_lt in H
         end.
  repeat split; assumption.
Qed.

(** The character of a six-bit value: it is read back as that value, and it
    is neither padding nor white space. *)
Lemma char_of_value v : is_sextet v ->
  Base64.value_of (Base64.char_of v) = Some v
  /\ Ascii.eqb (Base64.char_of v) "=" = false
  /\ Base64.is_ascii_whitespace (Base64.char_of v) = false.
Proof.
  pose (P := fun v : Z =>
    match Base64.value_of (Base64.char_of v) with
    | Some w => w =? v
    | None => false
    end
    && negb (Ascii.eqb (Base64.char_of v) "=")
    && negb (Base64.is_ascii_whitespace (Base64.char_of v))).
  assert (H : all_below 64 P = true) by (vm_compute; reflexivity).
  intros Hv. generalize (all_below_spec 64 P H v Hv). clear H.
  unfold P. intros E.
  apply andb_true_iff in E. destruct E as [E E3].
  apply andb_true_iff in E. destruct E as [E1 E2].
  apply negb_true_iff in E2. apply negb_true_iff in E3.
  destruct (Base64.value_of (Base64.char_of v)) as [w | ]; [ | discriminate ].
  apply Z.eqb_eq in E1. subst w. auto.
Qed.

Lemma value_of_sextet c v : Base64.value_of c = Some v -> is_sextet v.
Proof.
  unfold Base64.value_of, is_sextet.
  repeat match goal with
         | |- context [if ?b then _ else _] => destruct b eqn:?
         end; intros E; inversion E; subst; clear E;
  repeat match goal with
         | H : (_ && _) = true |- _ => apply andb_true_iff in H; destruct H
         | H : (_ <=? _) = true |- _ => apply Z.leb_le in H
         | H : (_ =? _) = true |- _ => apply Z.eqb_eq in H
         end; lia.
Qed.

Ltac all_cons :=
  repeat (apply Forall_cons; [assumption | ]); try apply Forall_nil.

Lemma sextets_range bs : Forall is_byte bs -> Forall is_sextet (sextets bs).
Proof.
  induction bs as [ | a | a b | a b c rest IH] using list_ind3; intros H.
  - constructor.
  - inversion H as [ | ? ? Ha _]; subst.
    destruct (base64_bits a a Ha Ha) as [(? & ? & _) _].
    cbn [sextets]. all_cons.
  - inversion H as [ | ? ? Ha H']; subst.
    inversion H' as [ | ? ? Hb _]; subst.
    destruct (base64_bits a b Ha Hb) as [(? & _ & ? & _) _].
    destruct (base64_bits b b Hb Hb) as [(_ & _ & _ & ? & _) _].
    cbn [sextets]. all_cons.
  - inversion H as [ | ? ? Ha H']; subst.
    inversion H' as [ | ? ? Hb H'']; subst.
    inversion H'' as [ | ? ? Hc Hrest]; subst.
    destruct (base64_bits a b Ha Hb) as [(? & _ & ? & _) _].
    destruct (base64_bits b c Hb Hc) as [(_ & _ & _ & _ & ? & _) _].
    destruct (base64_bits c c Hc Hc) as [(_ & _ & _ & _ & _ & ?) _].
    cbn [sextets]. all_cons. apply IH, Hrest.
Qed.

Lemma remove_padding_char v s : is_sextet v ->
  JsString.remove_char "=" (String (Base64.char_of v) s)
  = String (Base64.char_of v) (JsString.remove_char "=" s).
Proof.
  intros Hv. destruct (char_of_value v Hv) as (_ & E & _).
  cbn [JsString.remove_char]. rewrite E. reflexivity.
Qed.

(** The identifier is the text of the six-bit values, with no padding. *)
Lemma identifier_text bs :
  Forall is_byte bs -> identifier bs = text_of_values (sextets bs).
Proof.
  unfold identifier, text_of_values.
  induction bs as [ | a | a b | a b c rest IH] using list_ind3; intros H;
    pose proof (sextets_range _ H) as Hs; cbn [sextets] in Hs.
  - reflexivity.
  - inversion Hs as [ | ? ? H1 Hs1]; subst. inversion Hs1 as [ | ? ? H2 _]; subst.
    cbn [Base64.encodeBase64 sextets map string_of_list_ascii].
    rewrite !remove_padding_char by assumption. reflexivity.
  - inversion Hs as [ | ? ? H1 Hs1]; subst. inversion Hs1 as [ | ? ? H2 Hs2]; subst.
    inversion Hs2 as [ | ? ? H3 _]; subst.
    cbn [Base64.encodeBase64 sextets map string_of_list_ascii].
    rewrite !remove_padding_char by assumption. reflexivity.
  - inversion Hs as [ | ? ? H1 Hs1]; subst. inversion Hs1 as [ | ? ? H2 Hs2]; subst.
    inversion Hs2 as [ | ? ? H3 Hs3]; subst. inversion Hs3 as [ | ? ? H4 _]; subst.
    cbn [Base64.encodeBase64 sextets map string_of_list_ascii].
    rewrite !remove_padding_char by assumption.
    rewrite IH; [reflexivity | ].
    inversion H as [ | ? ? _ H']; subst. inversion H' as [ | ? ? _ H'']; subst.
    inversion H'' as [ | ? ? _ Hrest]; subst. exact Hrest.
Qed.

Lemma remove_whitespace_text vs :
  Forall is_sextet vs ->
  Base64.remove_whitespace (text_of_values vs) = text_of_values vs.
Proof.
  unfold text_of_values. induction 1 as [ | v vs Hv _ IH]; [reflexivity | ].
  destruct (char_of_value v Hv) as (_ & _ & E).
  cbn [map string_of_list_ascii Base64.remove_whitespace].
  rewrite E, IH. reflexivity.
Qed.

Lemma drop_last_if_text vs :
  Forall is_sextet vs -> JsString.drop_last_if "=" (text_of_values vs) = None.
Proof.
  unfold text_of_values. induction 1 as [ | v vs Hv Hvs IH]; [reflexivity | ].
  destruct (char_of_value v Hv) as (_ & E & _).
  cbn [map string_of_list_ascii JsString.drop_last_if].
  destruct vs as [ | w ws].
  - cbn [map string_of_list_ascii]. rewrite E. reflexivity.
  - cbn [map string_of_list_ascii] in *. rewrite IH. reflexivity.
Qed.

Lemma remove_padding_text vs :
  Forall is_sextet vs ->
  Base64.remove_padding (text_of_values vs) = text_of_values vs.
Proof.
  intros H. unfold Base64.remove_padding.
  rewrite (drop_last_if_text vs H).
  destruct (_ =? _)%nat; reflexivity.
Qed.

Lemma values_text vs :
  Forall is_sextet vs -> Base64.values (text_of_values vs) = Some vs.
Proof.
  unfold text_of_values. induction 1 as [ | v vs Hv _ IH]; [reflexivity | ].
  destruct (char_of_value v Hv) as (E & _).
  cbn [map string_of_list_ascii Base64.values]. rewrite E, IH. reflexivity.
Qed.

Lemma values_range s vs :
  Base64.values s = Some vs -> Forall is_sextet vs.
Proof.
  revert vs. induction s as [ | c s IH]; intros vs H; cbn [Base64.values] in H.
  - inversion H. constructor.
  - destruct (Base64.value_of c) as [v | ] eqn:Ev; [ | discriminate ].
    destruct (Base64.values s) as [ws | ]; [ | discriminate ].
    inversion H; subst. constructor.
    + eapply value_of_sextet, Ev.
    + apply IH. reflexivity.
Qed.

(** Decoding undoes encoding, group by group. *)
Lemma bytes_of_sextets bs :
  Forall is_byte bs -> Base64.bytes_of_values (sextets bs) = Some bs.
Proof.
  induction bs as [ | a | a b | a b c rest IH] using list_ind3; intros H.
  - reflexivity.
  - inversion H as [ | ? ? Ha _]; subst.
    destruct (base64_bits a a Ha Ha) as [_ (_ & E & _)].
    cbn [sextets Base64.bytes_of_values]. rewrite E. reflexivity.
  - inversion H as [ | ? ? Ha H']; subst.
    inversion H' as [ | ? ? Hb _]; subst.
    destruct (base64_bits a b Ha Hb) as [_ (E1 & _ & E2 & _)].
    destruct (base64_bits b b Hb Hb) as [_ (_ & _ & _ & _ & E3 & _ & E4 & _)].
    cbn [sextets Base64.bytes_of_values]. rewrite E1, E2, E3, E4. reflexivity.
  - inversion H as [ | ? ? Ha H']; subst.
    inversion H' as [ | ? ? Hb H'']; subst.
    inversion H'' as [ | ? ? Hc Hrest]; subst.
    destruct (base64_bits a b Ha Hb) as [_ (E1 & _ & E2 & _)].
    destruct (base64_bits b c Hb Hc) as [_ (_ & _ & _ & E3 & _ & E5 & E4 & _)].
    destruct (base64_bits c c Hc Hc) as [_ (_ & _ & _ & _ & _ & _ & _ & E6)].
    cbn [sextets Base64.bytes_of_values]. rewrite (IH Hrest).
    rewrite E1, E2, E3, E4, E5, E6. reflexivity.
Qed.

(** Decoding an identifier gives back the bytes it was made of. *)
Lemma decodeBase64_identifier bs :
  Forall is_byte bs -> Base64.decodeBase64 (identifier bs) = Some bs.
Proof.
  intros H. pose proof (sextets_range bs H) as Hs.
  rewrite (identifier_text bs H). unfold Base64.decodeBase64.
  rewrite (remove_whitespace_text _ Hs), (remove_padding_text _ Hs),
    (values_text _ Hs).
  apply bytes_of_sextets, H.
Qed.

Lemma bytes_of_values_bytes vs : forall bs,
  Forall is_sextet vs -> Base64.bytes_of_values vs = Some bs ->
  Forall is_byte bs.
Proof.
  induction vs as [ | a | a b | a b c | a b c d rest IH] using list_ind4;
    intros bs Hv H; cbn [Base64.bytes_of_values] in H.
  - inversion H. constructor.
  - discriminate.
  - inversion Hv as [ | ? ? Ha Hv1]; subst. inversion Hv1 as [ | ? ? Hb _]; subst.
    inversion H; subst. destruct (decoded_bytes a b Ha Hb) as (? & _).
    all_cons.
  - inversion Hv as [ | ? ? Ha Hv1]; subst. inversion Hv1 as [ | ? ? Hb Hv2]; subst.
    inversion Hv2 as [ | ? ? Hc _]; subst.
    inversion H; subst. destruct (decoded_bytes a b Ha Hb) as (? & _).
    destruct (decoded_bytes b c Hb Hc) as (_ & ? & _).
    all_cons.
  - inversion Hv as [ | ? ? Ha Hv1]; subst. inversion Hv1 as [ | ? ? Hb Hv2]; subst.
    inversion Hv2 as [ | ? ? Hc Hv3]; subst. inversion Hv3 as [ | ? ? Hd Hrest]; subst.
    destruct (Base64.bytes_of_values rest) as [bs' | ]; [ | discriminate ].
    inversion H; subst. destruct (decoded_bytes a b Ha Hb) as (? & _).
    destruct (decoded_bytes b c Hb Hc) as (_ & ? & _).
    destruct (decoded_bytes c d Hc Hd) as (_ & _ & ?).
    all_cons. apply IH; [assumption | reflexivity].
Qed.

(** Every decoded key is a list of bytes. *)
Lemma decodeBase64_bytes s bs :
  Base64.decodeBase64 s = Some bs -> Forall is_byte bs.
Proof.
  unfold Base64.decodeBase64.
  destruct (Base64.values _) as [vs | ] eqn:E; [ | discriminate ].
  apply bytes_of_values_bytes. eapply values_range, E.
Qed.

(** ** Doubles *)

Lemma div_half_even_one x : JsNumber.div_half_even x 1 = x.
Proof.
  unfold JsNumber.div_half_even. rewrite Z.mod_1_r, Z.div_1_r. reflexivity.
Qed.

(** The rounded quotient is within a half of the quotient. *)
Lemma div_half_even_near a d :
  0 < d ->
  - d <= 2 * (JsNumber.div_half_even a d * d - a) <= d
  /\ a / d <= JsNumber.div_half_even a d <= a / d + 1.
Proof.
  intros Hd. unfold JsNumber.div_half_even.
  pose proof (Z.div_mod a d ltac:(lia)) as E.
  pose proof (Z.mod_pos_bound a d Hd) as B.
  set (q := a / d) in *. set (r := a mod d) in *. clearbody q r.
  assert (E' : q * d = a - r) by lia. clear E.
  destruct (2 * r ?= d) eqn:C.
  - apply Z.compare_eq_iff in C. destruct (Z.even q); lia.
  - apply -> Z.compare_lt_iff in C. lia.
  - apply -> Z.compare_gt_iff in C. lia.
Qed.

Lemma div_half_even_nonneg a d :
  0 <= a -> 0 < d -> 0 <= JsNumber.div_half_even a d.
Proof.
  intros Ha Hd. pose proof (div_half_even_near a d Hd) as [_ [H _]].
  pose proof (Z.div_pos a d Ha Hd). lia.
Qed.

(** A quotient of at most [c] is rounded to at most [c]. *)
Lemma div_half_even_le a d c :
  0 < d -> a <= c * d -> JsNumber.div_half_even a d <= c.
Proof.
  intros Hd H. unfold JsNumber.div_half_even.
  pose proof (Z.div_mod a d ltac:(lia)) as E.
  pose proof (Z.mod_pos_bound a d Hd) as B.
  assert (Hq : a / d <= c) by (apply Z.div_le_upper_bound; lia).
  destruct (Z.eq_dec (a / d) c) as [Hc | Hc].
  - assert (Hm : a mod d = 0) by nia.
    rewrite Hm.
    replace (2 * 0 ?= d) with Lt by (symmetry; apply Z.compare_lt_iff; lia).
    lia.
  - destruct (2 * (a mod d) ?= d); [destruct (Z.even (a / d)) | | ]; lia.
Qed.

Lemma exponent_one a : 0 < a -> JsNumber.exponent a 1 = Z.log2 a.
Proof.
  intros Ha. unfold JsNumber.exponent.
  rewrite Z.div_1_r, Z.log2_mul_pow2 by lia. lia.
Qed.

(** An integer of at most 53 bits is its own mantissa. *)
Lemma nearest_small a :
  0 < a -> Z.log2 a <= 52 ->
  JsNumber.nearest a 1 = (a * 2 ^ (52 - Z.log2 a), Z.log2 a - 52).
Proof.
  intros Ha Hl. pose proof (Z.log2_nonneg a) as Hn.
  unfold JsNumber.nearest. rewrite (exponent_one a Ha).
  rewrite (Z.max_l (Z.log2 a - 52) (-1074)) by lia.
  rewrite (Z.max_r 0 (- (Z.log2 a - 52))) by lia.
  rewrite (Z.max_l 0 (Z.log2 a - 52)) by lia.
  change (1 * 2 ^ 0) with 1. rewrite div_half_even_one.
  replace (- (Z.log2 a - 52)) with (52 - Z.log2 a) by lia. reflexivity.
Qed.

(** A longer integer is cut to 53 bits. *)
Lemma nearest_large a :
  0 < a -> 52 < Z.log2 a ->
  JsNumber.nearest a 1
  = (JsNumber.div_half_even a (2 ^ (Z.log2 a - 52)), Z.log2 a - 52).
Proof.
  intros Ha Hl. unfold JsNumber.nearest. rewrite (exponent_one a Ha).
  rewrite (Z.max_l (Z.log2 a - 52) (-1074)) by lia.
  rewrite (Z.max_l 0 (- (Z.log2 a - 52))) by lia.
  rewrite (Z.max_r 0 (Z.log2 a - 52)) by lia.
  rewrite Z.mul_1_l. change (2 ^ 0) with 1. rewrite Z.mul_1_r. reflexivity.
Qed.

Lemma sgn_abs z : Z.sgn z * Z.abs z = z.
Proof. destruct z; reflexivity. Qed.

(** Integers of at most 53 bits are doubles. *)
Lemma of_Z_short z : Z.log2 (Z.abs z) <= 52 -> JsNumber.of_Z z = Finite z.
Proof.
  intros Hl. unfold JsNumber.of_Z.
  destruct (z =? 0) eqn:E0; [apply Z.eqb_eq in E0; subst; reflexivity | ].
  apply Z.eqb_neq in E0.
  assert (Ha : 0 < Z.abs z) by lia.
  rewrite (nearest_small _ Ha Hl).
  pose proof (Z.log2_nonneg (Z.abs z)) as Hn.
  rewrite Z.shiftl_div_pow2 by lia.
  replace (- (Z.log2 (Z.abs z) - 52)) with (52 - Z.log2 (Z.abs z)) by lia.
  rewrite Z.div_mul by (apply Z.pow_nonzero; lia).
  assert (Hb : Z.abs z < 2 ^ 1024).
  { apply Z.log2_lt_pow2; lia. }
  destruct (2 ^ 1024 <=? Z.abs z) eqn:E; [apply Z.leb_le in E; lia | ].
  rewrite sgn_abs. reflexivity.
Qed.

Lemma of_Z_exact z : Z.abs z <= 2 ^ 53 -> JsNumber.of_Z z = Finite z.
Proof.
  intros H. destruct (Z.eq_dec (Z.abs z) (2 ^ 53)) as [E | E].
  - assert (Hz : z = 2 ^ 53 \/ z = - 2 ^ 53) by lia.
    destruct Hz as [-> | ->]; vm_compute; reflexivity.
  - apply of_Z_short.
    destruct (Z.eq_dec z 0) as [-> | Hz]; [cbn; lia | ].
    assert (Z.log2 (Z.abs z) < 53) by (apply Z.log2_lt_pow2; lia). lia.
Qed.

(** The Number value of an integer that is not negative is not negative,
    and is never [NaN]. *)
Lemma of_Z_nonneg z :
  0 <= z ->
  JsNumber.of_Z z = Infinity false
  \/ exists v, JsNumber.of_Z z = Finite v /\ 0 <= v.
Proof.
  intros Hz. unfold JsNumber.of_Z.
  destruct (z =? 0) eqn:E0; [right; exists 0; split; [reflexivity | lia] | ].
  apply Z.eqb_neq in E0.
  destruct (JsNumber.nearest (Z.abs z) 1) as [m s] eqn:En.
  destruct (2 ^ 1024 <=? Z.shiftl m s).
  - left. f_equal. apply Z.ltb_ge. exact Hz.
  - right. eexists. split; [reflexivity | ].
    assert (Hm : 0 <= fst (JsNumber.nearest (Z.abs z) 1)).
    { unfold JsNumber.nearest. cbn [fst]. apply div_half_even_nonneg.
      - apply Z.mul_nonneg_nonneg; [lia | apply Z.pow_nonneg; lia].
      - apply Z.mul_pos_pos; [lia | apply Z.pow_pos_nonneg; lia]. }
    rewrite En in Hm. cbn [fst] in Hm.
    pose proof (proj2 (Z.shiftl_nonneg m s) Hm).
    replace (Z.sgn z) with 1 by lia. lia.
Qed.

(** Below a power of two, the Number value is finite and below it too. *)
Lemma of_Z_bounded z k :
  0 <= k <= 1023 -> Z.abs z <= 2 ^ k ->
  exists v, JsNumber.of_Z z = Finite v /\ Z.abs v <= 2 ^ k.
Proof.
  intros Hk Hz.
  destruct (Z_le_gt_dec (Z.log2 (Z.abs z)) 52) as [Hs | Hl].
  - exists z. split; [apply of_Z_short, Hs | exact Hz].
  - assert (Ha : 0 < Z.abs z).
    { destruct (Z.eq_dec (Z.abs z) 0) as [E | E]; [ | lia ].
      rewrite E in Hl. cbn in Hl. lia. }
    assert (Hlk : Z.log2 (Z.abs z) <= k).
    { rewrite <- (Z.log2_pow2 k) by lia. apply Z.log2_le_mono, Hz. }
    unfold JsNumber.of_Z.
    destruct (z =? 0) eqn:E0; [apply Z.eqb_eq in E0; subst; cbn in Ha; lia | ].
    rewrite (nearest_large _ Ha) by lia.
    set (s := Z.log2 (Z.abs z) - 52) in *.
    rewrite Z.shiftl_mul_pow2 by lia.
    assert (Hp : 0 < 2 ^ s) by (apply Z.pow_pos_nonneg; lia).
    assert (Hm : JsNumber.div_half_even (Z.abs z) (2 ^ s) <= 2 ^ (k - s)).
    { apply div_half_even_le; [exact Hp | ].
      rewrite <- Z.pow_add_r by lia. replace (k - s + s) with k by lia.
      exact Hz. }
    assert (Hm0 : 0 <= JsNumber.div_half_even (Z.abs z) (2 ^ s))
      by (apply div_half_even_nonneg; lia).
    assert (Hv : JsNumber.div_half_even (Z.abs z) (2 ^ s) * 2 ^ s <= 2 ^ k).
    { replace (2 ^ k) with (2 ^ (k - s) * 2 ^ s)
        by (rewrite <- Z.pow_add_r by lia; f_equal; lia).
      apply Z.mul_le_mono_nonneg_r; lia. }
    assert (Hk' : 2 ^ k < 2 ^ 1024) by (apply Z.pow_lt_mono_r; lia).
    destruct (2 ^ 1024 <=? _) eqn:E; [apply Z.leb_le in E; lia | ].
    eexists. split; [reflexivity | ].
    rewrite Z.abs_mul.
    assert (Hsg : Z.abs (Z.sgn z) = 1) by lia.
    rewrite Hsg, Z.mul_1_l, Z.abs_eq by nia. exact Hv.
Qed.

(** The binary exponent of a tenth of a positive integer below 2^53. *)
Lemma exponent_tenth p :
  0 < p <= 2 ^ 53 -> -4 <= JsNumber.exponent p 10 <= 49.
Proof.
  intros Hp. unfold JsNumber.exponent.
  set (W := 2 ^ 1096).
  assert (HW : 0 < W) by (apply Z.pow_pos_nonneg; lia).
  replace (2 ^ 1100) with (16 * W) by reflexivity.
  assert (Hlow : 2 ^ 1096 <= p * (16 * W) / 10).
  { apply Z.div_le_lower_bound; [lia | ]. fold W. nia. }
  assert (Hhigh : p * (16 * W) / 10 < 2 ^ 1150).
  { replace (2 ^ 1150) with (2 ^ 54 * W) by reflexivity.
    apply Z.div_lt_upper_bound; [lia | ]. nia. }
  assert (Hpos : 0 < p * (16 * W) / 10).
  { pose proof (Z.pow_pos_nonneg 2 1096 ltac:(lia) ltac:(lia)). lia. }
  apply Z.log2_le_pow2 in Hlow; [ | exact Hpos ].
  apply Z.log2_lt_pow2 in Hhigh; [ | exact Hpos ].
  lia.
Qed.

Lemma Math_round_dyadic m k :
  0 <= k ->
  JsNumber.Math_round (m # Z.to_pos (2 ^ k)) = (2 * m + 2 ^ k) / (2 * 2 ^ k).
Proof.
  intros Hk. unfold JsNumber.Math_round, Qfloor, Qplus. cbn [Qnum Qden].
  assert (Hp : 0 < 2 ^ k) by (apply Z.pow_pos_nonneg; lia).
  rewrite Pos2Z.inj_mul, Z2Pos.id by exact Hp.
  f_equal; lia.
Qed.

(** [Math.round(p / 10)] on doubles is the exact rounding, a half going
    up, for every integer from 0 to 2^53. *)
Lemma Math_round_tenth p :
  0 <= p <= 2 ^ 53 ->
  JsNumber.Math_round (JsNumber.quotient p 10) = (p + 5) / 10.
Proof.
  intros Hp. unfold JsNumber.quotient.
  destruct (p =? 0) eqn:E0; [apply Z.eqb_eq in E0; subst; reflexivity | ].
  apply Z.eqb_neq in E0.
  assert (Hp' : 0 < p <= 2 ^ 53) by lia.
  pose proof (exponent_tenth p Hp') as He.
  unfold JsNumber.nearest.
  rewrite (Z.abs_eq p) by lia.
  set (e := JsNumber.exponent p 10) in *. clearbody e.
  rewrite (Z.max_l (e - 52) (-1074)) by lia.
  rewrite (Z.max_r 0 (- (e - 52))) by lia.
  rewrite (Z.max_l 0 (e - 52)) by lia.
  change (10 * 2 ^ 0) with 10.
  destruct (0 <=? e - 52) eqn:Es; [apply Z.leb_le in Es; lia | ].
  replace (Z.sgn p) with 1 by lia. rewrite Z.mul_1_l.
  set (k := - (e - 52)) in *.
  assert (Hk : 3 <= k <= 56) by lia.
  rewrite Math_round_dyadic by lia.
  pose proof (div_half_even_near (p * 2 ^ k) 10 ltac:(lia)) as [Hm _].
  set (m := JsNumber.div_half_even (p * 2 ^ k) 10) in *. clearbody m.
  assert (HN : exists N', 2 ^ k = 2 * N' /\ 4 <= N').
  { exists (2 ^ (k - 1)). split.
    - rewrite <- Z.pow_succ_r by lia. f_equal. lia.
    - change 4 with (2 ^ 2). apply Z.pow_le_mono_r; lia. }
  destruct HN as (N' & EN & HN'). rewrite EN in *. clear EN.
  pose proof (Z.div_mod (p + 5) 10 ltac:(lia)) as Ed.
  pose proof (Z.mod_pos_bound (p + 5) 10 ltac:(lia)) as Bd.
  set (t := (p + 5) / 10) in *. set (r := (p + 5) mod 10) in *.
  clearbody t r.
  symmetry. apply (Z.div_unique _ _ t (2 * m + 2 * N' - 2 * (2 * N') * t)).
  - left. assert (p = 10 * t + r - 5) by lia. subst p. nia.
  - lia.
Qed.

(** [Math.round(p / 10) * 10] on doubles is the exact nearest multiple of
    ten, a half going up, for every integer from 0 to 2^53. *)
Lemma round_to_tens_exact p :
  0 <= p <= 2 ^ 53 ->
  JsNumber.round_to_tens (Finite p) = Finite ((p + 5) / 10 * 10).
Proof.
  intros Hp. unfold JsNumber.round_to_tens. rewrite (Math_round_tenth p Hp).
  apply of_Z_exact.
  change (2 ^ 53) with 9007199254740992 in *.
  assert (0 <= (p + 5) / 10 <= 900719925474099)
    by (Z.div_mod_to_equations; lia).
  lia.
Qed.

(** ** The text of a time *)

(** An integer from 2^53 on has a Number value from 2^53 on. *)
Lemma of_Z_large v w :
  2 ^ 53 <= v -> JsNumber.of_Z v = Finite w -> 2 ^ 53 <= w.
Proof.
  intros Hv. change (2 ^ 53) with 9007199254740992 in *.
  assert (Ha : 0 < Z.abs v) by lia.
  assert (Hl : 53 <= Z.log2 (Z.abs v)).
  { apply Z.log2_le_pow2; [exact Ha | ].
    change (2 ^ 53) with 9007199254740992. lia. }
  unfold JsNumber.of_Z.
  destruct (v =? 0) eqn:E0; [apply Z.eqb_eq in E0; lia | ].
  rewrite (nearest_large _ Ha) by lia.
  rewrite (Z.abs_eq v) in * by lia.
  set (sc := Z.log2 v - 52) in *.
  rewrite Z.shiftl_mul_pow2 by lia.
  destruct (2 ^ 1024 <=? _); [discriminate | ].
  intros H. injection H as <-.
  replace (Z.sgn v) with 1 by lia. rewrite Z.mul_1_l.
  assert (Hp : 0 < 2 ^ sc) by (apply Z.pow_pos_nonneg; lia).
  pose proof (div_half_even_near v (2 ^ sc) Hp) as [_ [Hm _]].
  assert (Hq : 2 ^ 52 <= v / 2 ^ sc).
  { apply Z.div_le_lower_bound; [exact Hp | ].
    rewrite Z.mul_comm, <- Z.pow_add_r by lia.
    replace (52 + sc) with (Z.log2 v) by lia.
    apply Z.log2_spec. lia. }
  assert (Hs : 2 <= 2 ^ sc).
  { change 2 with (2 ^ 1) at 1. apply Z.pow_le_mono_r; lia. }
  change (2 ^ 52) with 4503599627370496 in Hq. nia.
Qed.

(** Below 2^53 a double is read back from itself only. *)
Lemma represents_safe x v :
  0 < x < 2 ^ 53 -> JsNumber.represents x v = true -> v = x.
Proof.
  intros Hx H. unfold JsNumber.represents in H.
  apply andb_true_iff in H. destruct H as [Hv H]. apply Z.ltb_lt in Hv.
  destruct (Z_le_gt_dec v (2 ^ 53)) as [Hs | Hl].
  - rewrite of_Z_exact in H by lia. cbn in H. apply Z.eqb_eq in H. exact H.
  - destruct (JsNumber.of_Z v) as [ | n | w] eqn:E; cbn in H;
      try discriminate.
    apply Z.eqb_eq in H. subst w.
    pose proof (of_Z_large v x ltac:(lia) E). lia.
Qed.

Lemma shortest_safe j x : 0 < x < 2 ^ 53 -> JsNumber.shortest j x = x.
Proof.
  intros Hx. induction j as [ | j IH]; [reflexivity | ].
  cbn [JsNumber.shortest].
  set (p := 10 ^ Z.of_nat (S j)).
  assert (Hp : 0 < p) by (apply Z.pow_pos_nonneg; lia).
  destruct (JsNumber.represents x (x / p * p)) eqn:E1;
    destruct (JsNumber.represents x (x / p * p + p)) eqn:E2;
    try (apply (represents_safe x _ Hx) in E1);
    try (apply (represents_safe x _ Hx) in E2).
  - lia.
  - exact E1.
  - exact E2.
  - exact IH.
Qed.

Lemma digits_string_of_int z :
  0 < z -> JsNumber.digits z = NilZero.string_of_int (Z.to_int z).
Proof. destruct z; try lia. reflexivity. Qed.

Lemma to_int_not_nil z :
  Z.to_int z <> Decimal.Pos Decimal.Nil /\ Z.to_int z <> Decimal.Neg Decimal.Nil.
Proof.
  destruct z as [ | p | p]; cbn; split; try discriminate;
    intros H; injection H as H; exact (DecimalPos.Unsigned.to_uint_nonnil p H).
Qed.

(** Below 2^53 the string of a time is its decimal writing. *)
Lemma toString_digits z :
  Z.abs z < 2 ^ 53 ->
  JsNumber.toString z = NilZero.string_of_int (Z.to_int z).
Proof.
  intros Hz. unfold JsNumber.toString.
  destruct (z =? 0) eqn:E0; [apply Z.eqb_eq in E0; subst; reflexivity | ].
  apply Z.eqb_neq in E0.
  change (2 ^ 53) with 9007199254740992 in Hz.
  destruct (z <? 0) eqn:En.
  - apply Z.ltb_lt in En. unfold JsNumber.toString_positive.
    rewrite shortest_safe by (change (2 ^ 53) with 9007199254740992; lia).
    replace (- z <? 10 ^ 21) with true
      by (symmetry; apply Z.ltb_lt;
          change (10 ^ 21) with 1000000000000000000000; lia).
    destruct z; try lia. reflexivity.
  - apply Z.ltb_ge in En. unfold JsNumber.toString_positive.
    rewrite shortest_safe by (change (2 ^ 53) with 9007199254740992; lia).
    replace (z <? 10 ^ 21) with true
      by (symmetry; apply Z.ltb_lt;
          change (10 ^ 21) with 1000000000000000000000; lia).
    apply digits_string_of_int. lia.
Qed.

(** The text of the time in the message is the string that the code
    builds. *)
Lemma time_text_toString t : time_text t = JsNumber.toString t.
Proof.
  unfold time_text. destruct (Z.abs t <? 2 ^ 53) eqn:E; [ | reflexivity ].
  apply Z.ltb_lt in E. symmetry. apply toString_digits, E.
Qed.

(** ** The bytes of an identifier *)

Lemma and_255 x : JsNumber.and x 255 = JsNumber.ToInt32 x mod 256.
Proof.
  unfold JsNumber.and.
  replace (JsNumber.ToInt32 255) with (Z.ones 8) by (vm_compute; reflexivity).
  rewrite Z.land_ones by lia. reflexivity.
Qed.

Lemma ToInt32_mod256 x : JsNumber.ToInt32 x mod 256 = x mod 256.
Proof.
  unfold JsNumber.ToInt32.
  change (2 ^ 32) with 4294967296. change (2 ^ 31) with 2147483648.
  destruct (_ <? _); Z.div_mod_to_equations; lia.
Qed.

(** The bytes that the code cuts with [&] and [>>] are the time bytes of
    the specification. *)
Lemma timeNowBytes_timeBytes t : timeNowBytes t = timeBytes t.
Proof.
  unfold timeNowBytes, timeBytes.
  rewrite !and_255, !ToInt32_mod256. unfold JsNumber.shr.
  rewrite !Z.shiftr_div_pow2 by lia. unfold JsNumber.ToInt32.
  change (2 ^ 8) with 256. change (2 ^ 16) with 65536.
  change (2 ^ 24) with 16777216. change (2 ^ 32) with 4294967296.
  change (2 ^ 31) with 2147483648.
  destruct (_ <? _);
    repeat match goal with
           | |- _ :: _ = _ :: _ => apply f_equal2
           end;
    try reflexivity; Z.div_mod_to_equations; lia.
Qed.

Lemma timeBytes_bytes t : Forall is_byte (timeBytes t).
Proof.
  rewrite <- timeNowBytes_timeBytes.
  unfold timeNowBytes. rewrite !and_255. unfold is_byte.
  repeat (apply Forall_cons; [apply Z.mod_pos_bound; lia | ]).
  apply Forall_nil.
Qed.

(** The four time bytes are the time, least significant byte first. *)
Lemma little_endian_timeBytes t :
  0 <= t < 2 ^ 32 -> little_endian (timeBytes t) = t.
Proof.
  intros H. unfold timeBytes, little_endian, fold_right.
  rewrite (Z.mod_small t) by exact H.
  change (2 ^ 8) with 256. change (2 ^ 16) with 65536.
  change (2 ^ 24) with 16777216. change (2 ^ 32) with 4294967296 in H.
  Z.div_mod_to_equations. lia.
Qed.

Lemma digest_bytes m : Forall is_byte (Sha256.digest m).
Proof.
  unfold Sha256.digest. apply Forall_flat_map, Forall_forall.
  intros w _. unfold Sha256.word_bytes, is_byte.
  repeat (apply Forall_cons; [apply Z.mod_pos_bound; lia | ]).
  apply Forall_nil.
Qed.

Lemma all_firstn {A : Type} (P : A -> Prop) n l :
  Forall P l -> Forall P (firstn n l).
Proof.
  revert l. induction n as [ | n IH]; intros [ | x l] H; cbn;
    try apply Forall_nil.
  inversion H; subst. apply Forall_cons; auto.
Qed.

Lemma payload_bytes method path t kb ak :
  Forall is_byte kb -> Forall is_byte (payload method path t kb ak).
Proof.
  intros H. unfold payload.
  apply Forall_app; split; [ | apply Forall_app; split;
                                [ | apply Forall_app; split ] ].
  - exact H.
  - apply timeBytes_bytes.
  - apply all_firstn, digest_bytes.
  - apply Forall_cons; [unfold is_byte; lia | apply Forall_nil].
Qed.

(** On bytes, the conversions of [^] and of [Uint8Array] change nothing. *)
Lemma masked_bytes r bs :
  is_byte r -> Forall is_byte bs ->
  map JsNumber.ToUint8 (r :: map (fun item => JsNumber.xor item r) bs)
  = masked r bs
  /\ Forall is_byte (masked r bs).
Proof.
  intros Hr H. unfold masked. cbn [map]. split.
  - f_equal.
    + unfold JsNumber.ToUint8, is_byte in *. apply Z.mod_small. exact Hr.
    + rewrite map_map. apply map_ext_in. intros b Hb.
      rewrite Forall_forall in H. apply xor_bytes; auto.
  - apply Forall_cons; [exact Hr | ].
    apply Forall_forall. intros x Hx. apply in_map_iff in Hx.
    destruct Hx as (b & <- & Hb). rewrite Forall_forall in H.
    apply xor_bytes; auto.
Qed.

Lemma code_identifier r bs :
  is_byte r -> Forall is_byte bs ->
  JsString.remove_char "="
    (Base64.encodeBase64
       (map JsNumber.ToUint8 (r :: map (fun item => JsNumber.xor item r) bs)))
  = identifier (masked r bs).
Proof.
  intros Hr H. unfold identifier.
  rewrite (proj1 (masked_bytes r bs Hr H)). reflexivity.
Qed.

Lemma unmask_masked r bs : unmask (masked r bs) = bs.
Proof.
  unfold unmask, masked. rewrite map_map.
  rewrite <- (map_id bs) at 2. apply map_ext. intros b. apply lxor_undo.
Qed.

(** ** The resolution of the key *)

Lemma truthy_nonempty o k : truthy o = Some k -> k <> EmptyString /\ o = Some k.
Proof.
  destruct o as [[ | c s] | ]; cbn; intros H; inversion H; subst.
  split; [discriminate | reflexivity].
Qed.

Lemma getKey_nonempty response s k :
  fst (getKey response s) = Returns k -> k <> EmptyString.
Proof.
  unfold getKey. rewrite bind_read_only by auto with frame.
  destruct (fst (document_or_own response s)) as [d | e]; [ | discriminate ].
  destruct (match siteVerification d with Some _ => _ | None => _ end);
    cbn; intros H; inversion H. discriminate.
Qed.

Lemma resolveKey_nonempty key_arg response s k :
  fst (resolveKey key_arg response s) = Returns k -> k <> EmptyString.
Proof.
  unfold resolveKey. rewrite bind_read_only by auto with frame. cbn [this fst].
  destruct (truthy key_arg) as [k1 | ] eqn:E1.
  - cbn. intros H; inversion H; subst. eapply truthy_nonempty, E1.
  - destruct (truthy (key s)) as [k2 | ] eqn:E2.
    + cbn. intros H; inversion H; subst. eapply truthy_nonempty, E2.
    + apply getKey_nonempty.
Qed.

Lemma resolveKeyBytes_decode k s kb :
  k <> EmptyString ->
  (fst (resolveKeyBytes k s) = Returns kb <-> Base64.decodeBase64 k = Some kb).
Proof.
  intros Hk. unfold resolveKeyBytes.
  rewrite bind_read_only by auto with frame. cbn [this fst].
  destruct k as [ | c k']; [contradiction | ].
  unfold getKeyBytes.
  destruct (Base64.decodeBase64 (String c k')) as [bs | ]; cbn; split;
    intros H; inversion H; reflexivity.
Qed.

(** The encoder of the host writes UTF-8. *)
Lemma encode_utf8 text : Utf8.encode text = utf8 text.
Proof.
  unfold utf8. induction text as [ | c text IH]; [reflexivity | ].
  cbn [Utf8.encode list_ascii_of_string flat_map]. rewrite <- IH.
  destruct c as [[] [] [] [] [] [] [] []]; reflexivity.
Qed.

(** [generateTransactionId], step by step. *)
Lemma generateTransactionId_steps {float : Type}
    (curves : list number -> Outcome (list float))
    (Cubic_getValue : list float -> Number Q -> Outcome float)
    (encode : list number -> float -> Outcome string)
    method path response key_arg animationKey_arg timeNow_arg nowMillis randomNum s :
  generateTransactionId curves Cubic_getValue encode method path response
    key_arg animationKey_arg timeNow_arg nowMillis randomNum s =
  if isInitialized s then
    match fst (resolveKey key_arg response s) with
    | Throws e => (Throws e, s)
    | Returns k =>
        match fst (resolveKeyBytes k s) with
        | Throws e => (Throws e, s)
        | Returns kb =>
            match fst (resolveAnimationKey curves Cubic_getValue encode
                         animationKey_arg kb response s) with
            | Throws e => (Throws e, s)
            | Returns ak =>
                (Returns
                   (JsString.remove_char "="
                      (Base64.encodeBase64
                         (map JsNumber.ToUint8
                            (randomNum
                             :: map (fun item => JsNumber.xor item randomNum)
                                  (payload method path
                                     (resolveTimeNow timeNow_arg nowMillis)
                                     kb ak))))), s)
            end
        end
    end
  else (Throws NotInitialized, s).
Proof.
  unfold payload.
  rewrite <- (timeNowBytes_timeBytes (resolveTimeNow timeNow_arg nowMillis)).
  unfold generateTransactionId.
  rewrite bind_read_only by auto with frame. cbn [this fst].
  destruct (isInitialized s); [ | reflexivity ]. cbn [negb].
  rewrite bind_read_only by auto with frame.
  destruct (fst (resolveKey key_arg response s)) as [k | e]; [ | reflexivity ].
  rewrite bind_read_only by auto with frame.
  destruct (fst (resolveKeyBytes k s)) as [kb | e]; [ | reflexivity ].
  rewrite bind_read_only by auto with frame.
  destruct (fst (resolveAnimationKey _ _ _ _ _ _ _)) as [ak | e];
    [rewrite encode_utf8; unfold message; rewrite time_text_toString | ];
    reflexivity.
Qed.

(** What a call that returns has done. *)
Lemma generateTransactionId_returns {float : Type}
    (curves : list number -> Outcome (list float))
    (Cubic_getValue : list float -> Number Q -> Outcome float)
    (encode : list number -> float -> Outcome string)
    method path response key_arg animationKey_arg timeNow_arg nowMillis
    randomNum s id :
  is_byte randomNum ->
  fst (generateTransactionId curves Cubic_getValue encode method path response
         key_arg animationKey_arg timeNow_arg nowMillis randomNum s)
  = Returns id ->
  isInitialized s = true /\
  exists k kb ak,
    fst (resolveKey key_arg response s) = Returns k /\
    fst (resolveKeyBytes k s) = Returns kb /\
    fst (resolveAnimationKey curves Cubic_getValue encode
           animationKey_arg kb response s) = Returns ak /\
    Forall is_byte
      (masked randomNum
         (payload method path (resolveTimeNow timeNow_arg nowMillis) kb ak)) /\
    id = identifier
           (masked randomNum
              (payload method path (resolveTimeNow timeNow_arg nowMillis) kb ak)).
Proof.
  intros Hr. rewrite generateTransactionId_steps.
  destruct (isInitialized s); [ | discriminate ].
  destruct (fst (resolveKey key_arg response s)) as [k | e] eqn:Ek;
    [ | discriminate ].
  destruct (fst (resolveKeyBytes k s)) as [kb | e] eqn:Ekb; [ | discriminate ].
  destruct (fst (resolveAnimationKey _ _ _ _ _ _ _)) as [ak | e] eqn:Eak;
    [ | discriminate ].
  assert (Hkb : Forall is_byte kb).
  { eapply decodeBase64_bytes, resolveKeyBytes_decode; [ | exact Ekb ].
    eapply resolveKey_nonempty, Ek. }
  rewrite code_identifier by (auto using payload_bytes).
  cbn [fst]. intros H. injection H as <-.
  split; [reflexivity | ]. exists k, kb, ak.
  split; [reflexivity | ]. split; [exact Ekb | ]. split; [exact Eak | ].
  split; [ | reflexivity ].
  apply masked_bytes; auto using payload_bytes.
Qed.


Lemma payload_key_bytes method path t kb ak :
  firstn (List.length kb) (payload method path t kb ak) = kb.
Proof.
  unfold payload. rewrite firstn_app, Nat.sub_diag, firstn_all.
  cbn [firstn]. apply app_nil_r.
Qed.

Lemma payload_time_bytes method path t kb ak :
  firstn 4 (skipn (List.length kb) (payload method path t kb ak))
  = timeBytes t.
Proof.
  unfold payload. rewrite skipn_app, Nat.sub_diag, skipn_all.
  cbn [skipn app]. reflexivity.
Qed.


(** The random byte can be read off an identifier: two identifiers made
    with different random bytes differ. *)
Lemma identifier_reveals_mask r1 r2 bs1 bs2 :
  Forall is_byte (masked r1 bs1) -> Forall is_byte (masked r2 bs2) ->
  identifier (masked r1 bs1) = identifier (masked r2 bs2) -> r1 = r2.
Proof.
  intros H1 H2 E.
  apply decodeBase64_identifier in H1. apply decodeBase64_identifier in H2.
  rewrite E in H1. rewrite H1 in H2. unfold masked in H2. congruence.
Qed.

(** C9. With the random byte fixed the identifier is determined: two calls,
    on any sessions and with any optional arguments and clocks, that
    resolve the same key bytes, the same animation key and the same time,
    and that are given the same method, path and random byte, return the
    same identifier. *)
Theorem generateTransactionId_deterministic {float : Type}
    (curves : list number -> Outcome (list float))
    (Cubic_getValue : list float -> Number Q -> Outcome float)
    (encode : list number -> float -> Outcome string)
    method path randomNum kb ak
    response1 key_arg1 animationKey_arg1 timeNow_arg1 nowMillis1 s1 k1
    response2 key_arg2 animationKey_arg2 timeNow_arg2 nowMillis2 s2 k2 :
  isInitialized s1 = true -> isInitialized s2 = true ->
  fst (resolveKey key_arg1 response1 s1) = Returns k1 ->
  fst (resolveKeyBytes k1 s1) = Returns kb ->
  fst (resolveAnimationKey curves Cubic_getValue encode
         animationKey_arg1 kb response1 s1) = Returns ak ->
  fst (resolveKey key_arg2 response2 s2) = Returns k2 ->
  fst (resolveKeyBytes k2 s2) = Returns kb ->
  fst (resolveAnimationKey curves Cubic_getValue encode
         animationKey_arg2 kb response2 s2) = Returns ak ->
  resolveTimeNow timeNow_arg1 nowMillis1 = resolveTimeNow timeNow_arg2 nowMillis2 ->
  exists id,
    fst (generateTransactionId curves Cubic_getValue encode method path
           response1 key_arg1 animationKey_arg1 timeNow_arg1 nowMillis1
           randomNum s1) = Returns id /\
    fst (generateTransactionId curves Cubic_getValue encode method path
           response2 key_arg2 animationKey_arg2 timeNow_arg2 nowMillis2
           randomNum s2) = Returns id.
Proof.
  intros I1 I2 Ek1 Ekb1 Eak1 Ek2 Ekb2 Eak2 Et.
  rewrite !generateTransactionId_steps.
  rewrite I1, I2, Ek1, Ek2, Ekb1, Ekb2, Eak1, Eak2, Et. cbn [fst].
  eexists. split; reflexivity.
Qed.

(** ** The time *)



(** ** The frame table *)

Lemma digit_not_space c : Char.is_digit c = true -> Char.is_space c = false.
Proof.
  unfold Char.is_digit, Char.is_space. intros H.
  apply andb_true_iff in H. destruct H as [H1 H2].
  apply Z.leb_le in H1. apply Z.leb_le in H2.
  destruct (9 <=? Char.code c) eqn:E1, (Char.code c <=? 13) eqn:E2,
    (Char.code c =? 32) eqn:E3, (Char.code c =? 160) eqn:E4;
    try reflexivity;
    repeat match goal with
           | H : (_ <=? _) = true |- _ => apply Z.leb_le in H
           | H : (_ =? _) = true |- _ => apply Z.eqb_eq in H
           end; lia.
Qed.

Lemma substring_all s : String.substring 0 (String.length s) s = s.
Proof. induction s as [ | c s IH]; cbn; [ | rewrite IH ]; reflexivity. Qed.

(** Dropping the first [n] units, in the two ways it is written. *)
Lemma substring_from_spec n : forall s,
  String.substring n (String.length s - n) s = JsString.substring_from n s.
Proof.
  induction n as [ | n IH]; intros s.
  - rewrite Nat.sub_0_r. apply substring_all.
  - destruct s as [ | c s]; [reflexivity | ].
    cbn [String.length Nat.sub String.substring JsString.substring_from].
    apply IH.
Qed.

(** Replacing the runs of non-digits, in the two ways it is written. *)
Lemma replace_non_digits_from_squash s :
  JsString.replace_non_digits_from false s = FrameTableSpec.squash s
  /\ (if starts_with (fun c => negb (Char.is_digit c)) s
      then String " " (JsString.replace_non_digits_from true s)
      else JsString.replace_non_digits_from true s)
     = FrameTableSpec.squash s.
Proof.
  induction s as [ | c s [IH1 IH2]]; [split; reflexivity | ].
  cbn [JsString.replace_non_digits_from FrameTableSpec.squash starts_with].
  destruct (Char.is_digit c) eqn:Ec; cbn [negb].
  - rewrite IH1. split; reflexivity.
  - assert (E : String " " (JsString.replace_non_digits_from true s)
                = match s with
                  | EmptyString => " "
                  | String c' _ =>
                      if Char.is_digit c' then String " " (FrameTableSpec.squash s)
                      else FrameTableSpec.squash s
                  end).
    { destruct s as [ | c' s']; [reflexivity | ].
      cbn [starts_with] in IH2.
      destruct (Char.is_digit c'); cbn [negb] in IH2; rewrite <- IH2; reflexivity. }
    split; exact E.
Qed.

Lemma replace_non_digits_squash s :
  JsString.replace_non_digits s = FrameTableSpec.squash s.
Proof. apply replace_non_digits_from_squash. Qed.

Lemma every_squash s : every digit_or_blank (FrameTableSpec.squash s) = true.
Proof.
  induction s as [ | c s IH]; [reflexivity | ].
  cbn [FrameTableSpec.squash].
  destruct (Char.is_digit c) eqn:Ec.
  - cbn [every]. unfold digit_or_blank at 1. rewrite Ec, IH. reflexivity.
  - destruct s as [ | c' s']; [reflexivity | ].
    destruct (Char.is_digit c'); [ | exact IH ].
    cbn [every]. rewrite IH. reflexivity.
Qed.

Lemma every_trimStart f s : every f s = true -> every f (JsString.trimStart s) = true.
Proof.
  induction s as [ | c s IH]; [reflexivity | ].
  cbn [JsString.trimStart]. intros H.
  destruct (Char.is_space c); [ | exact H ].
  cbn [every] in H. apply andb_true_iff in H. apply IH, H.
Qed.

Lemma every_trimEnd f s : every f s = true -> every f (JsString.trimEnd s) = true.
Proof.
  induction s as [ | c s IH]; [reflexivity | ].
  cbn [JsString.trimEnd every]. intros H.
  apply andb_true_iff in H. destruct H as [Hc Hs]. specialize (IH Hs).
  destruct (JsString.trimEnd s) as [ | c' r].
  - destruct (Char.is_space c); [reflexivity | ]. cbn [every]. rewrite Hc. reflexivity.
  - cbn [every] in *. rewrite Hc. exact IH.
Qed.

Lemma trimEnd_idempotent s :
  JsString.trimEnd (JsString.trimEnd s) = JsString.trimEnd s.
Proof.
  induction s as [ | c s IH]; [reflexivity | ].
  cbn [JsString.trimEnd].
  destruct (JsString.trimEnd s) as [ | c' r] eqn:E.
  - destruct (Char.is_space c) eqn:Ec; [reflexivity | ].
    cbn [JsString.trimEnd]. rewrite Ec. reflexivity.
  - cbn [JsString.trimEnd] in *. rewrite IH. reflexivity.
Qed.

Lemma trimStart_chars s :
  list_ascii_of_string (JsString.trimStart s)
  = FrameTableSpec.drop_spaces (list_ascii_of_string s).
Proof.
  induction s as [ | c s IH]; [reflexivity | ].
  cbn [JsString.trimStart list_ascii_of_string FrameTableSpec.drop_spaces].
  destruct (Char.is_space c); [exact IH | reflexivity].
Qed.

Lemma drop_spaces_snoc l c :
  FrameTableSpec.drop_spaces (l ++ [c])%list
  = match FrameTableSpec.drop_spaces l with
    | [] => FrameTableSpec.drop_spaces [c]
    | r => (r ++ [c])%list
    end.
Proof.
  induction l as [ | a l IH]; [reflexivity | ].
  cbn [app FrameTableSpec.drop_spaces].
  destruct (Char.is_space a); [exact IH | reflexivity].
Qed.

Lemma trimEnd_chars s :
  list_ascii_of_string (JsString.trimEnd s)
  = rev (FrameTableSpec.drop_spaces (rev (list_ascii_of_string s))).
Proof.
  induction s as [ | c s IH]; [reflexivity | ].
  cbn [JsString.trimEnd list_ascii_of_string rev].
  rewrite drop_spaces_snoc.
  destruct (FrameTableSpec.drop_spaces (rev (list_ascii_of_string s)))
    as [ | a r] eqn:E.
  - destruct (JsString.trimEnd s); [ | discriminate IH ].
    cbn [FrameTableSpec.drop_spaces].
    destruct (Char.is_space c); reflexivity.
  - destruct (JsString.trimEnd s) as [ | c' t].
    + cbn [rev list_ascii_of_string] in IH.
      destruct (rev r); discriminate IH.
    + rewrite rev_app_distr. cbn [rev app list_ascii_of_string].
      f_equal. exact IH.
Qed.

(** Trimming, in the two ways it is written. *)
Lemma trim_spec s : JsString.trim s = FrameTableSpec.trim s.
Proof.
  unfold JsString.trim, FrameTableSpec.trim.
  rewrite <- trimStart_chars, <- trimEnd_chars.
  symmetry. apply string_of_list_ascii_of_string.
Qed.

Lemma trimStart_starts s :
  starts_with Char.is_space (JsString.trimStart s) = false.
Proof.
  induction s as [ | c s IH]; [reflexivity | ].
  cbn [JsString.trimStart]. destruct (Char.is_space c) eqn:E; [exact IH | ].
  cbn [starts_with]. exact E.
Qed.

Lemma trimEnd_starts s :
  starts_with Char.is_space s = false ->
  starts_with Char.is_space (JsString.trimEnd s) = false.
Proof.
  destruct s as [ | c s]; [reflexivity | ].
  cbn [starts_with JsString.trimEnd]. intros E.
  destruct (JsString.trimEnd s); [rewrite E | ]; exact E.
Qed.

Lemma trim_shape s :
  JsString.trimEnd (JsString.trim s) = JsString.trim s
  /\ starts_with Char.is_space (JsString.trim s) = false.
Proof.
  unfold JsString.trim. split.
  - apply trimEnd_idempotent.
  - apply trimEnd_starts, trimStart_starts.
Qed.

(** A string that [trimEnd] leaves alone ends by its last unit or by
    nothing. *)
Lemma trimEnd_fixed c s :
  JsString.trimEnd (String c s) = String c s ->
  (s = EmptyString /\ Char.is_space c = false)
  \/ (s <> EmptyString /\ JsString.trimEnd s = s).
Proof.
  cbn [JsString.trimEnd].
  destruct (JsString.trimEnd s) as [ | c' r] eqn:E.
  - destruct (Char.is_space c); [discriminate | ].
    intros H. injection H as <-. left. split; reflexivity.
  - intros H. injection H as <-. right. split; [discriminate | reflexivity].
Qed.

(** On a trimmed string that is not empty, the pieces of [split(/\s+/)]
    are the maximal runs of units that are not white space. *)
Lemma split_spaces_from_tokens s :
  JsString.trimEnd s = s -> s <> EmptyString ->
  JsString.split_spaces_from true s = FrameTableSpec.tokens s
  /\ (starts_with Char.is_space s = false ->
      JsString.split_spaces_from false s = FrameTableSpec.tokens s).
Proof.
  induction s as [ | c s IH]; [contradiction | ].
  intros Hfix _. apply trimEnd_fixed in Hfix.
  destruct Hfix as [[-> Hc] | [Hne Hfix]].
  - cbn [JsString.split_spaces_from FrameTableSpec.tokens].
    rewrite Hc. split; reflexivity.
  - destruct (IH Hfix Hne) as [IH1 IH2]. clear IH.
    cbn [JsString.split_spaces_from FrameTableSpec.tokens starts_with].
    destruct (Char.is_space c) eqn:Ec.
    + split; [exact IH1 | discriminate].
    + destruct s as [ | c' s']; [contradiction | ].
      assert (E : JsString.cons_head c (JsString.split_spaces_from false (String c' s'))
                  = if Char.is_space c'
                    then String c EmptyString :: FrameTableSpec.tokens (String c' s')
                    else JsString.cons_head c (FrameTableSpec.tokens (String c' s'))).
      { cbn [starts_with] in IH2. destruct (Char.is_space c') eqn:Ec'.
        - rewrite <- IH1. cbn [JsString.split_spaces_from]. rewrite Ec'.
          reflexivity.
        - rewrite IH2 by reflexivity. reflexivity. }
      split; intros; exact E.
Qed.

Lemma split_spaces_tokens s :
  JsString.trim s <> EmptyString ->
  JsString.split_spaces (JsString.trim s) = FrameTableSpec.tokens (JsString.trim s).
Proof.
  intros Hne. destruct (trim_shape s) as [Hfix Hstart].
  apply split_spaces_from_tokens; assumption.
Qed.

Lemma digit_or_blank_token c :
  digit_or_blank c = true -> Char.is_space c = false -> Char.is_digit c = true.
Proof.
  unfold digit_or_blank. intros H Hs.
  apply orb_true_iff in H. destruct H as [H | H]; [exact H | ].
  apply Ascii.eqb_eq in H. subst c. discriminate Hs.
Qed.

Lemma every_cons_head c l :
  Char.is_digit c = true ->
  Forall (fun t => every Char.is_digit t = true /\ t <> EmptyString) l ->
  Forall (fun t => every Char.is_digit t = true /\ t <> EmptyString)
    (JsString.cons_head c l).
Proof.
  intros Hc [ | h t [Hh _] Ht]; cbn [JsString.cons_head].
  - apply Forall_cons; [ | apply Forall_nil ].
    cbn [every]. rewrite Hc. split; [reflexivity | discriminate].
  - apply Forall_cons; [ | exact Ht ].
    cbn [every]. rewrite Hc, Hh. split; [reflexivity | discriminate].
Qed.

(** The tokens of a string of digits and blanks are strings of digits, and
    none is empty. *)
Lemma tokens_digits s :
  every digit_or_blank s = true ->
  Forall (fun t => every Char.is_digit t = true /\ t <> EmptyString)
    (FrameTableSpec.tokens s).
Proof.
  induction s as [ | c s IH]; intros H; [apply Forall_nil | ].
  cbn [every] in H. apply andb_true_iff in H. destruct H as [Hc Hs].
  specialize (IH Hs). cbn [FrameTableSpec.tokens].
  destruct (Char.is_space c) eqn:Ec; [exact IH | ].
  pose proof (digit_or_blank_token c Hc Ec) as Hd.
  destruct s as [ | c' s'].
  - apply Forall_cons; [ | apply Forall_nil ].
    cbn [every]. rewrite Hd. split; [reflexivity | discriminate].
  - destruct (Char.is_space c').
    + apply Forall_cons; [ | exact IH ].
      cbn [every]. rewrite Hd. split; [reflexivity | discriminate].
    + apply every_cons_head; assumption.
Qed.

Lemma digit_no_sign c (r : string) :
  Char.is_digit c = true ->
  match String c r with
  | String "-" r0 => (-1, r0)
  | String "+" r0 => (1, r0)
  | _ => (1, String c r)
  end = (1, String c r).
Proof.
  intros H.
  destruct c as [[] [] [] [] [] [] [] []]; try reflexivity;
    vm_compute in H; discriminate H.
Qed.

Lemma leading_digits_all s :
  every Char.is_digit s = true ->
  JsNumber.leading_digits s = map Char.digit_value (list_ascii_of_string s).
Proof.
  induction s as [ | c s IH]; [reflexivity | ].
  cbn [every JsNumber.leading_digits list_ascii_of_string map]. intros H.
  apply andb_true_iff in H. destruct H as [Hc Hs].
  rewrite Hc, (IH Hs). reflexivity.
Qed.

(** Reading digits from the left gives the sum of their weights. *)
Lemma fold_digits_decimal s : forall a,
  fold_left (fun acc d => 10 * acc + d)
    (map Char.digit_value (list_ascii_of_string s)) a
  = a * 10 ^ Z.of_nat (String.length s) + FrameTableSpec.decimal s.
Proof.
  induction s as [ | c s IH]; intros a.
  - cbn. lia.
  - cbn [list_ascii_of_string map fold_left String.length FrameTableSpec.decimal].
    rewrite IH, Nat2Z.inj_succ, Z.pow_succ_r by lia. ring.
Qed.

Lemma parseInt_digits t :
  every Char.is_digit t = true -> t <> EmptyString ->
  JsNumber.parseInt t = JsNumber.of_Z (FrameTableSpec.decimal t).
Proof.
  intros H Hne. destruct t as [ | c r]; [contradiction | ].
  pose proof H as Hall. cbn [every] in H.
  apply andb_true_iff in H. destruct H as [Hc Hr].
  unfold JsNumber.parseInt. cbn [JsString.trimStart].
  rewrite (digit_not_space c Hc), (digit_no_sign c r Hc).
  rewrite (leading_digits_all _ Hall).
  cbn [list_ascii_of_string map].
  change (Char.digit_value c :: map Char.digit_value (list_ascii_of_string r))
    with (map Char.digit_value (list_ascii_of_string (String c r))).
  unfold JsNumber.of_digits. rewrite fold_digits_decimal. f_equal. lia.
Qed.

Lemma append_empty (s : string) : s ++ EmptyString = s.
Proof. induction s as [ | c s IH]; cbn; [ | rewrite IH ]; reflexivity. Qed.

Lemma append_unit (a : string) c (b : string) :
  (a ++ String c EmptyString) ++ b = a ++ String c b.
Proof. induction a as [ | x a IH]; cbn; [ | rewrite IH ]; reflexivity. Qed.

Lemma split_not_empty delimiter s : JsString.split delimiter s <> [].
Proof.
  destruct s as [ | c s]; cbn [JsString.split]; [discriminate | ].
  destruct (Ascii.eqb c delimiter); [discriminate | ].
  destruct (JsString.split delimiter s); discriminate.
Qed.

(** Splitting on a delimiter, in the two ways it is written. *)
Lemma pieces_from_split delimiter s : forall piece h t,
  JsString.split delimiter s = h :: t ->
  FrameTableSpec.pieces_from delimiter piece s = (piece ++ h) :: t.
Proof.
  induction s as [ | c s IH]; intros piece h t.
  - cbn. intros E. injection E as <- <-. rewrite append_empty. reflexivity.
  - cbn [FrameTableSpec.pieces_from JsString.split].
    destruct (JsString.split delimiter s) as [ | h' t'] eqn:Es;
      [destruct (split_not_empty _ _ Es) | ].
    destruct (Ascii.eqb c delimiter).
    + intros E. injection E as <- <-. rewrite append_empty.
      rewrite (IH EmptyString h' t' eq_refl). reflexivity.
    + cbn [JsString.cons_head]. intros E. injection E as <- <-.
      rewrite (IH _ h' t' eq_refl), append_unit. reflexivity.
Qed.

Lemma split_pieces delimiter s :
  JsString.split delimiter s = FrameTableSpec.pieces delimiter s.
Proof.
  destruct (JsString.split delimiter s) as [ | h t] eqn:E;
    [destruct (split_not_empty _ _ E) | ].
  unfold FrameTableSpec.pieces.
  rewrite (pieces_from_split delimiter s EmptyString h t E). reflexivity.
Qed.

Lemma decimal_nonneg t :
  every Char.is_digit t = true -> 0 <= FrameTableSpec.decimal t.
Proof.
  induction t as [ | c t IH]; cbn [every FrameTableSpec.decimal]; [lia | ].
  intros H. apply andb_true_iff in H. destruct H as [Hc Ht].
  unfold Char.is_digit, Char.digit_value in *.
  apply andb_true_iff in Hc. destruct Hc as [H1 H2].
  apply Z.leb_le in H1. apply Z.leb_le in H2. specialize (IH Ht).
  assert (0 <= 10 ^ Z.of_nat (String.length t)) by (apply Z.pow_nonneg; lia).
  nia.
Qed.

(** The tokens of a segment are strings of digits, none of them empty. *)
Lemma row_tokens segment :
  Forall (fun t => every Char.is_digit t = true /\ t <> EmptyString)
    (FrameTableSpec.tokens (JsString.trim (FrameTableSpec.squash segment))).
Proof.
  apply tokens_digits. unfold JsString.trim.
  apply every_trimEnd, every_trimStart, every_squash.
Qed.

(** One row, as the code computes it: the integers that the specification
    words, each turned into a Number. *)
Lemma frame_row_spec item :
  frame_row item = map JsNumber.of_Z (FrameTableSpec.row item).
Proof.
  unfold frame_row, FrameTableSpec.row.
  rewrite replace_non_digits_squash, <- trim_spec.
  destruct (JsString.trim (FrameTableSpec.squash item)) as [ | c r] eqn:E;
    [reflexivity | ].
  rewrite <- E. rewrite split_spaces_tokens by (rewrite E; discriminate).
  rewrite map_map. apply map_ext_in. intros t Ht.
  pose proof (row_tokens item) as Htok.
  rewrite Forall_forall in Htok. destruct (Htok t Ht) as [Hd Hne].
  apply parseInt_digits; assumption.
Qed.

Lemma row_nonneg item : Forall (fun v => 0 <= v) (FrameTableSpec.row item).
Proof.
  unfold FrameTableSpec.row. rewrite <- trim_spec.
  apply Forall_map. eapply Forall_impl; [ | apply row_tokens ].
  intros t [Hd _]. apply decimal_nonneg, Hd.
Qed.

(** The frame table, as the code computes it: the table of integers that
    the specification words, each integer turned into a Number. *)
Lemma frame_table_rounded pathData :
  frame_table pathData = map (map JsNumber.of_Z) (FrameTableSpec.parse pathData).
Proof.
  unfold frame_table, FrameTableSpec.parse.
  rewrite substring_from_spec, split_pieces, map_map.
  apply map_ext. apply frame_row_spec.
Qed.

Lemma parse_nonneg pathData :
  Forall (Forall (fun v => 0 <= v)) (FrameTableSpec.parse pathData).
Proof.
  unfold FrameTableSpec.parse. apply Forall_map, Forall_forall.
  intros item _. apply row_nonneg.
Qed.

(** C6, the amended claim. The frame table of a path-data string is what
    the specification describes: the first nine characters dropped, the
    rest split on [C], and in each segment the runs of non-digits turned
    into single spaces, the ends trimmed, the text split on white space and
    every token read as a base-10 integer, where the integer is then turned
    into a Number: it is kept when it is at most 2^53, so that a path whose
    integers are at most 2^53 gives the table of the specification, and it
    is rounded to the nearest double beyond. A segment that is reduced to
    the empty string gives a row of length zero. *)
Theorem frame_table_spec pathData :
  frame_table pathData = map (map JsNumber.of_Z) (FrameTableSpec.parse pathData)
  /\ (FrameTableSpec.exact (FrameTableSpec.parse pathData) = true ->
      frame_table pathData = map (map Finite) (FrameTableSpec.parse pathData))
  /\ forall segment,
       FrameTableSpec.trim (FrameTableSpec.squash segment) = EmptyString ->
       frame_row segment = [] /\ FrameTableSpec.row segment = [].
Proof.
  split; [apply frame_table_rounded | ]. split.
  - intros Hx. rewrite frame_table_rounded.
    pose proof (parse_nonneg pathData) as Hn.
    unfold FrameTableSpec.exact in Hx. rewrite forallb_forall in Hx.
    rewrite Forall_forall in Hn.
    apply map_ext_in. intros row Hrow.
    specialize (Hx row Hrow). specialize (Hn row Hrow).
    rewrite forallb_forall in Hx. rewrite Forall_forall in Hn.
    apply map_ext_in. intros v Hv.
    specialize (Hx v Hv). specialize (Hn v Hv). apply Z.leb_le in Hx.
    apply of_Z_exact. lia.
  - intros segment E. rewrite frame_row_spec.
    unfold FrameTableSpec.row. rewrite E. split; reflexivity.
Qed.

(** C6 as stated fails: an integer beyond 2^53 is not kept. The second
    number of the path is 2^53 + 1, and the table holds 2^53. *)
Lemma frame_table_spec_counterexample :
  FrameTableSpec.parse Edge.path_beyond = [[7; 9007199254740993]; [5]]
  /\ frame_table Edge.path_beyond
     = [[Finite 7; Finite 9007199254740992]; [Finite 5]]
  /\ frame_table Edge.path_beyond
     <> map (map Finite) (FrameTableSpec.parse Edge.path_beyond).
Proof.
  split; [vm_compute; reflexivity | ].
  split; [vm_compute; reflexivity | ].
  vm_compute. discriminate.
Qed.

(** ** The arguments of [animate] *)

Lemma getFrames_run response s :
  getFrames response s = (Returns (loadingFrames (document_of response s)), s).
Proof. destruct response; reflexivity. Qed.

Lemma get2dArray_no_frames kb response s :
  loadingFrames (document_of response s) = [] ->
  get2dArray kb response None s = (Returns [[]], s).
Proof.
  intros H. unfold get2dArray.
  rewrite bind_read_only, getFrames_run by auto with frame.
  cbn [fst]. rewrite H. reflexivity.
Qed.

(** With frame elements, the table is parsed from the path data found at
    the second child of the first child of one frame: the one at index
    [keyBytes[5] % 4]. *)
Lemma get2dArray_frames kb response s table :
  loadingFrames (document_of response s) <> [] ->
  fst (get2dArray kb response None s) = Returns table ->
  exists frame firstChild targetChild,
    JsNumber.index (loadingFrames (document_of response s))
      (JsNumber.rem (nth_error kb 5) 4) = Some frame
    /\ nth_error (children frame) 0 = Some firstChild
    /\ nth_error (children firstChild) 1 = Some targetChild
    /\ match getAttribute targetChild "d" with
       | Some dAttr => table = frame_table dAttr
       | None => table = []
       end.
Proof.
  intros Hne. unfold get2dArray.
  rewrite bind_read_only, getFrames_run by auto with frame. cbn [fst].
  destruct (loadingFrames (document_of response s)) as [ | f fs] eqn:Ef;
    [contradiction | ].
  destruct (JsNumber.index (f :: fs) _) as [frame | ]; [ | discriminate ].
  destruct (nth_error (children frame) 0) as [firstChild | ] eqn:E0;
    [ | discriminate ].
  destruct (nth_error (children firstChild) 1) as [targetChild | ] eqn:E1;
    [ | discriminate ].
  intros H. exists frame, firstChild, targetChild.
  split; [reflexivity | ]. split; [exact E0 | ]. split; [exact E1 | ].
  destruct (getAttribute targetChild "d"); unfold ret in H; cbn [fst] in H;
    injection H as <-; reflexivity.
Qed.

(** [animationArguments], step by step. *)
Lemma animationArguments_steps kb response s :
  animationArguments kb response s =
  match DEFAULT_ROW_INDEX s, DEFAULT_KEY_BYTES_INDICES s with
  | Some row_index, Some key_bytes_indices =>
      match fst (get2dArray kb response None s) with
      | Throws e => (Throws e, s)
      | Returns arr =>
          match JsNumber.index arr
                  (JsNumber.rem (JsNumber.index kb row_index) 16) with
          | None => (Throws InvalidFrameData, s)
          | Some frameRow =>
              (Returns
                 (frameRow,
                  JsNumber.div
                    (JsNumber.round_to_tens
                       (frame_time_product kb key_bytes_indices)) 4096), s)
          end
      end
  | _, _ => (Throws IndicesNotInitialized, s)
  end.
Proof.
  unfold animationArguments.
  rewrite bind_read_only by auto with frame. cbn [this fst].
  destruct (DEFAULT_ROW_INDEX s) as [row_index | ]; [ | reflexivity ].
  destruct (DEFAULT_KEY_BYTES_INDICES s) as [indices | ]; [ | reflexivity ].
  rewrite bind_read_only by auto with frame.
  destruct (fst (get2dArray kb response None s)) as [arr | e]; [ | reflexivity ].
  destruct (JsNumber.index arr _); reflexivity.
Qed.

(** C3, the amended claim. The frame row handed to [animate] is the row of
    the frame table at index [keyBytes[rowIndex] % 16], where [rowIndex] is
    the first index of the session; and when the document has frame
    elements, the frame table is the one parsed from the path data of the
    frame element at index [keyBytes[5] % 4]. *)
Theorem animationArguments_row kb response s frameRow targetTime :
  fst (animationArguments kb response s) = Returns (frameRow, targetTime) ->
  exists row_index table,
    DEFAULT_ROW_INDEX s = Some row_index
    /\ fst (get2dArray kb response None s) = Returns table
    /\ JsNumber.index table (JsNumber.rem (JsNumber.index kb row_index) 16)
       = Some frameRow
    /\ (loadingFrames (document_of response s) <> [] ->
        exists frame firstChild targetChild dAttr,
          JsNumber.index (loadingFrames (document_of response s))
            (JsNumber.rem (nth_error kb 5) 4) = Some frame
          /\ nth_error (children frame) 0 = Some firstChild
          /\ nth_error (children firstChild) 1 = Some targetChild
          /\ getAttribute targetChild "d" = Some dAttr
          /\ table = frame_table dAttr).
Proof.
  rewrite animationArguments_steps.
  destruct (DEFAULT_ROW_INDEX s) as [row_index | ]; [ | discriminate ].
  destruct (DEFAULT_KEY_BYTES_INDICES s) as [indices | ]; [ | discriminate ].
  destruct (fst (get2dArray kb response None s)) as [table | e] eqn:Etable;
    [ | discriminate ].
  destruct (JsNumber.index table _) as [row | ] eqn:Erow; [ | discriminate ].
  cbn [fst]. intros H. injection H as <- _.
  exists row_index, table.
  split; [reflexivity | ]. split; [reflexivity | ]. split; [exact Erow | ].
  intros Hne.
  destruct (get2dArray_frames kb response s table Hne Etable)
    as (frame & firstChild & targetChild & Ef & E0 & E1 & Ed).
  destruct (getAttribute targetChild "d") as [dAttr | ] eqn:Eattr.
  - exists frame, firstChild, targetChild, dAttr. auto.
  - subst table. destruct (JsNumber.rem _ 16) as [ | n | z]; cbn in Erow;
      try discriminate.
    destruct (z <? 0); [discriminate | ].
    destruct (Z.to_nat z); discriminate.
Qed.

(** C3 as stated fails. On the sample session the frame element is the one
    at index [keyBytes[5] % 4 = 1], its table has three rows, and the row
    handed to [animate] is row 0 of that table, not row 1. *)
Lemma animationArguments_row_counterexample :
  JsNumber.rem (nth_error Sample.key_bytes 5) 4 = Finite 1
  /\ fst (get2dArray Sample.key_bytes None None Sample.session)
     = Returns
         [[Finite 21; Finite 22; Finite 23; Finite 24; Finite 25; Finite 26; Finite 27; Finite 28];
          [Finite 31; Finite 32; Finite 33; Finite 34; Finite 35; Finite 36; Finite 37; Finite 38];
          [Finite 41; Finite 42; Finite 43; Finite 44; Finite 45; Finite 46; Finite 47; Finite 48]]
  /\ fst (animationArguments Sample.key_bytes None Sample.session)
     = Returns
         ([Finite 21; Finite 22; Finite 23; Finite 24; Finite 25; Finite 26; Finite 27; Finite 28],
          Finite (60 # 4096))
  /\ forall table frameRow targetTime,
       fst (get2dArray Sample.key_bytes None None Sample.session)
       = Returns table ->
       fst (animationArguments Sample.key_bytes None Sample.session)
       = Returns (frameRow, targetTime) ->
       JsNumber.index table (JsNumber.rem (nth_error Sample.key_bytes 5) 4)
       <> Some frameRow.
Proof.
  split; [reflexivity | ]. split; [vm_compute; reflexivity | ].
  split; [vm_compute; reflexivity | ].
  intros table frameRow targetTime Ht Ha.
  vm_compute in Ht. vm_compute in Ha.
  injection Ht as <-. injection Ha as <- _.
  vm_compute. discriminate.
Qed.

(** C7. On a document without frame elements the frame table is a table of
    one empty row, so row index 0 passes the test of [getAnimationKey]:
    with the sample key and indices, whose row index is 0, the derivation
    gets an empty row and a time instead of the error [InvalidFrameData],
    and [initialize] succeeds on the page, its animation key made from the
    empty row. *)
Theorem animationArguments_without_frames :
  loadingFrames Sample.document_without_frames = []
  /\ fst (get2dArray Sample.key_bytes (Some Sample.document_without_frames)
            None Sample.session) = Returns [[]]
  /\ fst (animationArguments Sample.key_bytes
            (Some Sample.document_without_frames) Sample.session)
     = Returns ([], Finite (60 # 4096))
  /\ fst (initialize Sample.fetch Sample.curves Sample.Cubic_getValue
            Sample.encode (constructor Sample.document_without_frames))
     = Returns tt
  /\ exists ak,
       animate Sample.curves Sample.Cubic_getValue Sample.encode []
         (Finite (60 # 4096)) = Returns ak
       /\ animationKey
            (snd (initialize Sample.fetch Sample.curves Sample.Cubic_getValue
                    Sample.encode (constructor Sample.document_without_frames)))
          = Some ak.
Proof.
  split; [reflexivity | ]. split; [vm_compute; reflexivity | ].
  split; [vm_compute; reflexivity | ]. split; [vm_compute; reflexivity | ].
  exists "00". split; vm_compute; reflexivity.
Qed.

(** Without frame elements every row index other than 0 is refused with
    [InvalidFrameData], and row index 0 is accepted with an empty row. *)
Lemma animationArguments_no_frames kb response s row_index indices :
  loadingFrames (document_of response s) = [] ->
  DEFAULT_ROW_INDEX s = Some row_index ->
  DEFAULT_KEY_BYTES_INDICES s = Some indices ->
  fst (animationArguments kb response s) =
  match JsNumber.rem (JsNumber.index kb row_index) 16 with
  | Finite 0 =>
      Returns ([], JsNumber.div
                     (JsNumber.round_to_tens (frame_time_product kb indices))
                     4096)
  | _ => Throws InvalidFrameData
  end.
Proof.
  intros Hf Hr Hi. rewrite animationArguments_steps, Hr, Hi.
  rewrite (get2dArray_no_frames kb response s Hf). cbn [fst].
  destruct (JsNumber.rem _ 16) as [ | n | z]; try reflexivity.
  destruct z as [ | p | p]; cbn; try reflexivity.
  destruct (Pos.to_nat p) eqn:E; [lia | ]. destruct n; reflexivity.
Qed.

(** ** The target time *)

Lemma index_in_range (kb : list Z) i :
  0 <= i < Z.of_nat (List.length kb) ->
  JsNumber.index kb (Finite i) = Some (nth (Z.to_nat i) kb 0)
  /\ In (nth (Z.to_nat i) kb 0) kb.
Proof.
  intros H. unfold JsNumber.index.
  destruct (i <? 0) eqn:E; [apply Z.ltb_lt in E; lia | ].
  assert (Hn : (Z.to_nat i < List.length kb)%nat) by lia.
  split; [apply nth_error_nth' | apply nth_In]; exact Hn.
Qed.

(** The product of the code is the product of the low four bits, when
    every place is inside the key and no product met on the way is beyond
    2^53. *)
Lemma frame_time_product_from kb places : forall a,
  Forall is_byte kb ->
  Forall (fun i => 0 <= i < Z.of_nat (List.length kb)) places ->
  0 <= a ->
  products_within (2 ^ 53) kb places a = true ->
  fold_left
    (fun num1 num2 =>
       JsNumber.mul num1 (JsNumber.rem (JsNumber.index kb num2) 16))
    (map Finite places) (Finite a)
  = Finite (fold_left (fun acc i => acc * (nth (Z.to_nat i) kb 0 mod 16)) places a)
  /\ 0 <= fold_left (fun acc i => acc * (nth (Z.to_nat i) kb 0 mod 16)) places a
  /\ (a <= 2 ^ 53 ->
      fold_left (fun acc i => acc * (nth (Z.to_nat i) kb 0 mod 16)) places a
      <= 2 ^ 53).
Proof.
  induction places as [ | i places IH]; intros a Hkb Hp Ha Hw.
  - cbn. auto.
  - inversion Hp as [ | ? ? Hi Hrest]; subst.
    cbn [map fold_left products_within] in *.
    apply andb_true_iff in Hw. destruct Hw as [Hle Hw].
    apply Z.leb_le in Hle.
    destruct (index_in_range kb i Hi) as [E Hin].
    rewrite E. cbn [JsNumber.rem JsNumber.mul].
    pose proof (proj1 (Forall_forall _ _) Hkb _ Hin) as Hb.
    rewrite Z.rem_mod_nonneg by (unfold is_byte in Hb; lia).
    pose proof (Z.mod_pos_bound (nth (Z.to_nat i) kb 0) 16 ltac:(lia)) as Hn.
    set (n := nth (Z.to_nat i) kb 0 mod 16) in *.
    assert (Hnext : 0 <= a * n) by nia.
    rewrite of_Z_exact by lia.
    destruct (IH (a * n) Hkb Hrest Hnext Hw) as (E1 & E2 & E3).
    split; [exact E1 | ]. split; [exact E2 | ]. intros _. apply E3, Hle.
Qed.

Lemma frame_time_product_places kb places :
  Forall is_byte kb ->
  Forall (fun i => 0 <= i < Z.of_nat (List.length kb)) places ->
  products_within (2 ^ 53) kb places 1 = true ->
  frame_time_product kb (map Finite places) = Finite (nibble_product kb places)
  /\ 0 <= nibble_product kb places <= 2 ^ 53.
Proof.
  intros Hkb Hp Hw.
  destruct (frame_time_product_from kb places 1 Hkb Hp ltac:(lia) Hw)
    as (E1 & E2 & E3).
  split; [exact E1 | ]. split; [exact E2 | ].
  apply E3. change (2 ^ 53) with 9007199254740992. lia.
Qed.

Lemma mul_NaN x : JsNumber.mul x NaN = NaN.
Proof. destruct x; reflexivity. Qed.

Lemma frame_time_product_stays_NaN kb rest :
  fold_left
    (fun num1 num2 =>
       JsNumber.mul num1 (JsNumber.rem (JsNumber.index kb num2) 16))
    rest NaN = NaN.
Proof. induction rest as [ | j rest IH]; [reflexivity | exact IH]. Qed.

(** A place outside the key makes the product, and so the time, [NaN]. *)
Lemma frame_time_product_NaN kb indices i rest :
  JsNumber.index kb i = None ->
  frame_time_product kb (indices ++ i :: rest) = NaN.
Proof.
  intros Hi. unfold frame_time_product.
  rewrite fold_left_app. cbn [fold_left]. rewrite Hi.
  cbn [JsNumber.rem]. rewrite mul_NaN.
  apply frame_time_product_stays_NaN.
Qed.

Lemma frame_time_product_outside kb indices :
  Exists (fun i => JsNumber.index kb i = None) indices ->
  frame_time_product kb indices = NaN.
Proof.
  intros H. apply Exists_exists in H. destruct H as (i & Hin & Hi).
  apply in_split in Hin. destruct Hin as (l1 & l2 & ->).
  apply frame_time_product_NaN, Hi.
Qed.

(** C10, the amended claim. In the derivation of the animation key the
    time handed to [animate], and by it to the curve solver, is
    [frameTime / 4096]. When every key-byte index lies inside the key and
    no product met on the way is beyond 2^53, [frameTime] is the multiple
    of ten nearest to the product, taken from left to right and starting
    from 1, of the low four bits of the key bytes at these indices, a half
    going up. When a key-byte index lies outside the key, the time is
    [NaN]. *)
Theorem getAnimationKey_target_time {float : Type}
    (curves : list number -> Outcome (list float))
    (Cubic_getValue : list float -> Number Q -> Outcome float)
    (encode : list number -> float -> Outcome string)
    kb response s indices frameRow targetTime :
  DEFAULT_KEY_BYTES_INDICES s = Some indices ->
  fst (animationArguments kb response s) = Returns (frameRow, targetTime) ->
  fst (getAnimationKey curves Cubic_getValue encode kb response s)
  = animate curves Cubic_getValue encode frameRow targetTime
  /\ (forall places,
        indices = map Finite places ->
        Forall is_byte kb ->
        Forall (fun i => 0 <= i < Z.of_nat (List.length kb)) places ->
        products_within (2 ^ 53) kb places 1 = true ->
        exists frameTime,
          nearest_multiple_of_10 (nibble_product kb places) frameTime
          /\ frameTime = (nibble_product kb places + 5) / 10 * 10
          /\ targetTime = Finite (frameTime # 4096))
  /\ (Exists (fun i => JsNumber.index kb i = None) indices ->
      targetTime = NaN).
Proof.
  intros Hidx Hargs. split; [ | split ].
  - unfold getAnimationKey. rewrite bind_read_only by auto with frame.
    rewrite Hargs. reflexivity.
  - intros places -> Hkb Hp Hw. revert Hargs.
    rewrite animationArguments_steps, Hidx.
    destruct (DEFAULT_ROW_INDEX s) as [row_index | ]; [ | discriminate ].
    destruct (fst (get2dArray kb response None s)) as [table | e];
      [ | discriminate ].
    destruct (JsNumber.index table _) as [row | ]; [ | discriminate ].
    cbn [fst].
    destruct (frame_time_product_places kb places Hkb Hp Hw) as [E Hb].
    rewrite E, (round_to_tens_exact _ Hb). cbn [JsNumber.div].
    intros H. injection H as _ <-.
    exists ((nibble_product kb places + 5) / 10 * 10).
    split; [ | split; reflexivity ].
    unfold nearest_multiple_of_10. split.
    + apply Z.mod_mul. lia.
    + Z.div_mod_to_equations. lia.
  - intros Hout. revert Hargs.
    rewrite animationArguments_steps, Hidx.
    destruct (DEFAULT_ROW_INDEX s) as [row_index | ]; [ | discriminate ].
    destruct (fst (get2dArray kb response None s)) as [table | e];
      [ | discriminate ].
    destruct (JsNumber.index table _) as [row | ]; [ | discriminate ].
    cbn [fst]. rewrite (frame_time_product_outside kb indices Hout).
    intros H. injection H as _ <-. reflexivity.
Qed.

(** C10 as stated fails. With the row index 0 and fourteen times the
    index 15 in the auxiliary script, the session that [create] returns has
    fourteen key-byte indices at a key byte whose low four bits are 15. The
    product 15^14 is beyond 2^53, and the [frameTime] of the code is
    29192926025390632, which is not a multiple of ten. *)
Lemma getAnimationKey_target_time_counterexample :
  exists s frameRow,
    create Edge.fetch_fifteen Sample.curves Sample.Cubic_getValue Sample.encode
      Sample.document = Returns s
    /\ keyBytes s = Some Sample.key_bytes
    /\ DEFAULT_KEY_BYTES_INDICES s = Some (map Finite (repeat 15 14))
    /\ nibble_product Sample.key_bytes (repeat 15 14) = 29192926025390625
    /\ fst (animationArguments Sample.key_bytes None s)
       = Returns (frameRow, Finite (29192926025390632 # 4096))
    /\ forall frameTime,
         nearest_multiple_of_10
           (nibble_product Sample.key_bytes (repeat 15 14)) frameTime ->
         frameTime <> 29192926025390632.
Proof.
  eexists. eexists.
  split; [vm_compute; reflexivity | ].
  split; [reflexivity | ]. split; [reflexivity | ].
  split; [vm_compute; reflexivity | ].
  split; [vm_compute; reflexivity | ].
  intros frameTime [Hm _] ->. vm_compute in Hm. discriminate Hm.
Qed.

(** ** The indices *)

Lemma getIndices_steps fetch doc s :
  getIndices fetch doc s =
  match Regex.on_demand_file (outerHTML (document_of doc s)) with
  | Some name =>
      match fetch (onDemandFileUrl name) with
      | fetch_response true (Some text) =>
          match Regex.indices text with
          | [] => (Throws IndicesNotFound, s)
          | first :: rest =>
              (Returns (JsNumber.parseInt first, map JsNumber.parseInt rest), s)
          end
      | _ => (Throws IndicesNotFound, s)
      end
  | None => (Throws IndicesNotFound, s)
  end.
Proof.
  unfold getIndices. rewrite bind_read_only by auto with frame.
  replace (fst (document_or_own doc s)) with (Returns (document_of doc s))
    by (destruct doc; reflexivity).
  fold (onDemandFileUrl).
  destruct (Regex.on_demand_file _) as [name | ]; [ | reflexivity ].
  change ("https://abs.twimg.com/responsive-web/client-web/ondemand.s."
            ++ name ++ "a.js") with (onDemandFileUrl name).
  destruct (fetch (onDemandFileUrl name)) as [ | [ | ] [text | ]];
    try reflexivity.
  destruct (Regex.indices text); reflexivity.
Qed.


Lemma Char_digit_value_range c :
  Char.is_digit c = true -> 0 <= Char.digit_value c <= 9.
Proof.
  unfold Char.is_digit, Char.digit_value. intros H.
  apply andb_true_iff in H. destruct H as [H1 H2].
  apply Z.leb_le in H1. apply Z.leb_le in H2. lia.
Qed.

(** Every literal that [INDICES_REGEX] captures is one or two digits, so
    the indices are integers from 0 to 99 and never [NaN]. *)
Lemma indices_at_literal s digits len :
  Regex.indices_at s = Some (digits, len) ->
  every Char.is_digit digits = true
  /\ (String.length digits = 1 \/ String.length digits = 2)%nat.
Proof.
  unfold Regex.indices_at.
  destruct s as [ | c0 [ | w [ | c2 r1]]]; try discriminate;
    destruct c0 as [[] [] [] [] [] [] [] []]; try discriminate.
  destruct c2 as [[] [] [] [] [] [] [] []]; try discriminate.
  destruct (Char.is_word w); [ | discriminate ].
  destruct r1 as [ | d1 [ | d2 r]]; [discriminate | | ];
    destruct (Char.is_digit d1) eqn:E1; try discriminate;
    try (destruct (Char.is_digit d2) eqn:E2); cbn [andb];
    repeat match goal with
           | |- match ?x with _ => _ end = _ -> _ => destruct x
           end;
    try discriminate;
    intros H; injection H as <- _; cbn [every String.length];
    rewrite ?E1, ?E2; auto.
Qed.

Lemma indices_from_literals s : forall skip,
  Forall (fun digits =>
            every Char.is_digit digits = true
            /\ (String.length digits = 1 \/ String.length digits = 2)%nat)
    (Regex.indices_from skip s).
Proof.
  induction s as [ | c s IH]; intros skip; [apply Forall_nil | ].
  cbn [Regex.indices_from]. destruct skip as [ | k]; [ | apply IH ].
  destruct (Regex.indices_at (String c s)) as [[digits len] | ] eqn:E;
    [ | apply IH ].
  apply Forall_cons; [eapply indices_at_literal, E | apply IH].
Qed.

Lemma decimal_two_digits digits :
  every Char.is_digit digits = true ->
  (String.length digits = 1 \/ String.length digits = 2)%nat ->
  0 <= FrameTableSpec.decimal digits <= 99.
Proof.
  intros Hd Hl.
  destruct digits as [ | d1 [ | d2 [ | d3 r]]]; cbn [String.length] in Hl;
    try lia; cbn [every] in Hd;
    repeat (apply andb_true_iff in Hd; destruct Hd as [? Hd]);
    repeat match goal with
           | H : Char.is_digit _ = true |- _ =>
               apply Char_digit_value_range in H
           end;
    cbn [FrameTableSpec.decimal String.length]; cbn; lia.
Qed.

Lemma indices_numbers text :
  Forall (fun digits =>
            exists v, JsNumber.parseInt digits = Finite v /\ 0 <= v <= 99)
    (Regex.indices text).
Proof.
  unfold Regex.indices.
  eapply Forall_impl; [ | apply indices_from_literals ].
  intros digits [Hd Hl]. exists (FrameTableSpec.decimal digits).
  pose proof (decimal_two_digits digits Hd Hl) as Hv.
  split; [ | exact Hv ].
  rewrite parseInt_digits;
    [ | exact Hd | destruct digits; [cbn in Hl; lia | discriminate] ].
  apply of_Z_exact. change (2 ^ 53) with 9007199254740992. lia.
Qed.

(** ** Initialization *)

Lemma getKey_of_document d s s' :
  fst (getKey (Some d) s) = fst (getKey (Some d) s').
Proof.
  unfold getKey. rewrite !bind_read_only by auto with frame. cbn [document_or_own].
  unfold document_or_own. rewrite !bind_read_only by auto with frame.
  cbn [this fst ret].
  destruct (match siteVerification d with Some _ => _ | None => _ end);
    reflexivity.
Qed.

Lemma get2dArray_of_document kb d s s' :
  fst (get2dArray kb (Some d) None s) = fst (get2dArray kb (Some d) None s').
Proof.
  unfold get2dArray. rewrite !bind_read_only, !getFrames_run by auto with frame.
  cbn [fst document_of].
  repeat match goal with
         | |- context [match ?x with _ => _ end] => destruct x
         end; reflexivity.
Qed.

(** The animation key depends on the session through its indices only,
    when the document is given. *)
Lemma getAnimationKey_of_indices {float : Type}
    (curves : list number -> Outcome (list float))
    (Cubic_getValue : list float -> Number Q -> Outcome float)
    (encode : list number -> float -> Outcome string) kb d s s' :
  DEFAULT_ROW_INDEX s = DEFAULT_ROW_INDEX s' ->
  DEFAULT_KEY_BYTES_INDICES s = DEFAULT_KEY_BYTES_INDICES s' ->
  fst (getAnimationKey curves Cubic_getValue encode kb (Some d) s)
  = fst (getAnimationKey curves Cubic_getValue encode kb (Some d) s').
Proof.
  intros E1 E2. unfold getAnimationKey.
  rewrite !bind_read_only by auto with frame.
  rewrite !animationArguments_steps, E1, E2.
  rewrite (get2dArray_of_document kb d s s').
  destruct (DEFAULT_ROW_INDEX s') as [ri | ]; [ | reflexivity ].
  destruct (DEFAULT_KEY_BYTES_INDICES s') as [idx | ]; [ | reflexivity ].
  destruct (fst (get2dArray kb (Some d) None s')) as [arr | e]; [ | reflexivity ].
  destruct (JsNumber.index arr _); reflexivity.
Qed.

(** What a successful [initialize] leaves in a new session: the indices
    read from the auxiliary script, the key of the document, its bytes, the
    animation key derived from them, and the flag. *)
Lemma initialize_establishes fetch {float : Type}
    (curves : list number -> Outcome (list float))
    (Cubic_getValue : list float -> Number Q -> Outcome float)
    (encode : list number -> float -> Outcome string) doc s :
  initialize fetch curves Cubic_getValue encode (constructor doc)
  = (Returns tt, s) ->
  exists row_index indices k kb ak,
    fst (getIndices fetch (Some doc) (constructor doc))
    = Returns (row_index, indices)
    /\ fst (getKey (Some doc) (constructor doc)) = Returns k
    /\ k <> EmptyString
    /\ Base64.decodeBase64 k = Some kb
    /\ fst (getAnimationKey curves Cubic_getValue encode kb (Some doc) s)
       = Returns ak
    /\ s = {| DEFAULT_ROW_INDEX := Some row_index;
              DEFAULT_KEY_BYTES_INDICES := Some indices;
              homePageDocument := doc;
              key := Some k;
              keyBytes := Some kb;
              animationKey := Some ak;
              isInitialized := true |}.
Proof.
  unfold initialize.
  rewrite bind_read_only by auto with frame.
  cbn [this fst constructor isInitialized homePageDocument].
  rewrite bind_read_only by auto with frame.
  destruct (fst (getIndices fetch (Some doc) _)) as [[row_index indices] | e]
    eqn:Ei; [ | discriminate ].
  unfold bind at 1. cbn [set_DEFAULT_ROW_INDEX].
  unfold bind at 1. cbn [set_DEFAULT_KEY_BYTES_INDICES].
  rewrite bind_read_only by auto with frame.
  match goal with
  | |- context [fst (getKey (Some doc) ?s0)] =>
      rewrite (getKey_of_document doc s0 (constructor doc))
  end.
  destruct (fst (getKey (Some doc) (constructor doc))) as [k | e] eqn:Ek;
    [ | discriminate ].
  pose proof (getKey_nonempty _ _ _ Ek) as Hk.
  unfold bind at 1. cbn [set_key].
  destruct k as [ | c k']; [contradiction | ].
  rewrite bind_read_only by auto with frame.
  unfold getKeyBytes at 1.
  destruct (Base64.decodeBase64 (String c k')) as [kb | ] eqn:Ekb;
    [ | discriminate ].
  cbn [ret fst]. unfold bind at 1. cbn [set_keyBytes].
  rewrite bind_read_only by auto with frame.
  match goal with
  | |- context [fst (getAnimationKey _ _ _ kb (Some doc) ?s0)] =>
      destruct (fst (getAnimationKey curves Cubic_getValue encode kb (Some doc) s0))
        as [ak | e] eqn:Eak; [ | discriminate ]
  end.
  unfold bind at 1. cbn [set_animationKey]. unfold set_isInitialized.
  cbn [DEFAULT_ROW_INDEX DEFAULT_KEY_BYTES_INDICES homePageDocument key
       keyBytes animationKey isInitialized constructor].
  intros H. injection H as <-.
  exists row_index, indices, (String c k'), kb, ak.
  split; [reflexivity | ]. split; [reflexivity | ]. split; [exact Hk | ].
  split; [exact Ekb | ]. split; [ | reflexivity ].
  rewrite <- Eak. apply getAnimationKey_of_indices; reflexivity.
Qed.

(** ** Examples and instances *)

Example split_keeps_empty_pieces :
  JsString.split "C" "aCCb" = ["a"; ""; "b"]
  /\ JsString.split "C" "" = [""].
Proof. split; reflexivity. Qed.

Example split_spaces_keeps_ends :
  JsString.split_spaces "1 22 " = ["1"; "22"; ""]
  /\ JsString.split_spaces " 1" = [""; "1"].
Proof. split; reflexivity. Qed.

Example parseInt_examples :
  JsNumber.parseInt "042" = Finite 42
  /\ JsNumber.parseInt " -7x" = Finite (-7)
  /\ JsNumber.parseInt "" = NaN
  /\ JsNumber.parseInt "9007199254740993" = Finite 9007199254740992
  /\ JsNumber.parseInt "9007199254740995" = Finite 9007199254740996.
Proof. repeat split; vm_compute; reflexivity. Qed.

(** The string of a time: all its digits up to 2^53, its shortest digits
    and zeros up to 21 digits, the exponent form from 10^21 on. *)
Example toString_examples :
  JsNumber.toString (-120) = "-120" /\ JsNumber.toString 0 = "0"
  /\ JsNumber.toString 1700000000 = "1700000000"
  /\ JsNumber.toString 9007199254740991 = "9007199254740991"
  /\ JsNumber.toString (2 ^ 60) = "1152921504606847000"
  /\ JsNumber.toString (10 ^ 21) = "1e+21"
  /\ JsNumber.toString (2 ^ 70) = "1.1805916207174113e+21".
Proof. repeat split; vm_compute; reflexivity. Qed.

Example of_Z_examples :
  JsNumber.of_Z (2 ^ 53 + 1) = Finite (2 ^ 53)
  /\ JsNumber.of_Z (2 ^ 53 + 3) = Finite (2 ^ 53 + 4)
  /\ JsNumber.of_Z (2 ^ 1024 - 2 ^ 970 - 1) = Finite (2 ^ 1024 - 2 ^ 971)
  /\ JsNumber.of_Z (2 ^ 1024 - 2 ^ 970) = Infinity false
  /\ JsNumber.mul (Infinity false) (Finite 0) = NaN
  /\ JsNumber.round_to_tens (Finite 125) = Finite 130
  /\ JsNumber.round_to_tens (Finite 29192926025390624)
     = Finite 29192926025390632.
Proof. repeat split; vm_compute; reflexivity. Qed.

Example frame_table_example :
  frame_table "M 10,20 C 81.5,4 h3 012C,C7"
  = [[Finite 81; Finite 5; Finite 4; Finite 3; Finite 12]; []; [Finite 7]].
Proof. vm_compute. reflexivity. Qed.

Example sha256_abc :
  Sha256.digest (Utf8.encode "abc")
  = [186; 120; 22; 191; 143; 1; 207; 234; 65; 65; 64; 222; 93; 174; 34; 35;
     176; 3; 97; 163; 150; 23; 122; 156; 180; 16; 255; 97; 242; 0; 21; 173].
Proof. vm_compute. reflexivity. Qed.

Example sha256_two_blocks :
  Sha256.digest
    (Utf8.encode "abcdbcdecdefdefgefghfghighijhijkijkljklmklmnlmnomnopnopq")
  = [36; 141; 106; 97; 210; 6; 56; 184; 229; 192; 38; 147; 12; 62; 96; 57;
     163; 60; 228; 89; 100; 255; 33; 103; 246; 236; 237; 212; 25; 219; 6; 193].
Proof. vm_compute. reflexivity. Qed.

Example sha256_constants :
  List.length Sha256.K = 64%nat
  /\ nth 0 Sha256.K 0 = 0x428a2f98 /\ nth 63 Sha256.K 0 = 0xc67178f2
  /\ nth 0 Sha256.H0 0 = 0x6a09e667 /\ nth 7 Sha256.H0 0 = 0x5be0cd19.
Proof. repeat split. Qed.

Example base64_example :
  Base64.encodeBase64 Sample.key_bytes = "AAECAwQFBgcICQoLDA0ODw=="
  /\ Base64.decodeBase64 "AAECAwQFBgcICQoLDA0ODw==" = Some Sample.key_bytes
  /\ Base64.decodeBase64 "AAECAwQFBgcICQoLDA0ODw" = Some Sample.key_bytes
  /\ Base64.decodeBase64 "A" = None.
Proof. repeat split. Qed.

Example indices_example :
  Regex.on_demand_file Sample.markup = Some "abc123"
  /\ Regex.indices "f(a[12], 16),(b[3],16)(c[456],16)(_[7],16 )(x[0],  16)"
     = ["12"; "3"; "0"].
Proof. split; reflexivity. Qed.

(** [initialize] writes the session: on the sample page it turns the new
    session into the sample session. *)
Example initialize_sample :
  initialize Sample.fetch Sample.curves Sample.Cubic_getValue Sample.encode
    (constructor Sample.document)
  = (Returns tt, Sample.session).
Proof. vm_compute. reflexivity. Qed.

Example generateTransactionId_sample :
  generateTransactionId Sample.curves Sample.Cubic_getValue Sample.encode
    "GET" "/1.1/jot/client_event.json" None None None
    (Some (seconds 1000)) 0 66 Sample.session
  = (Returns "QkJDQEFGR0RFSktISU5PTE2qQUJCfgoO/1HshmSRAdTBW3jvYUE", Sample.session).
Proof. vm_compute. reflexivity. Qed.

(** At the time 10^21 the message holds the text [1e+21]. *)
Example generateTransactionId_late :
  generateTransactionId Sample.curves Sample.Cubic_getValue Sample.encode
    "GET" "/1.1/jot/client_event.json" None None None
    (Some (seconds (10 ^ 21))) 0 66 Sample.session
  = (Returns "QkJDQEFGR0RFSktISU5PTE1CQuKcPylk0f0Jun73OrjxVI6UvUE", Sample.session).
Proof. vm_compute. reflexivity. Qed.

Example generateTransactionId_before_initialize :
  fst (generateTransactionId Sample.curves Sample.Cubic_getValue Sample.encode
         "GET" "/" None None None None 0 0 (constructor Sample.document))
  = Throws NotInitialized.
Proof. reflexivity. Qed.



Lemma animationArguments_row_witness :
  exists row_index table,
    DEFAULT_ROW_INDEX Sample.session = Some row_index
    /\ fst (get2dArray Sample.key_bytes None None Sample.session)
       = Returns table
    /\ JsNumber.index table
         (JsNumber.rem (JsNumber.index Sample.key_bytes row_index) 16)
       = Some [Finite 21; Finite 22; Finite 23; Finite 24; Finite 25;
               Finite 26; Finite 27; Finite 28]
    /\ (loadingFrames (document_of None Sample.session) <> [] ->
        exists frame firstChild targetChild dAttr,
          JsNumber.index (loadingFrames (document_of None Sample.session))
            (JsNumber.rem (nth_error Sample.key_bytes 5) 4) = Some frame
          /\ nth_error (children frame) 0 = Some firstChild
          /\ nth_error (children firstChild) 1 = Some targetChild
          /\ getAttribute targetChild "d" = Some dAttr
          /\ table = frame_table dAttr).
Proof.
  apply (animationArguments_row Sample.key_bytes None Sample.session
           [Finite 21; Finite 22; Finite 23; Finite 24; Finite 25; Finite 26;
            Finite 27; Finite 28]
           (Finite (60 # 4096))).
  vm_compute. reflexivity.
Defined.



Lemma frame_table_spec_witness :
  FrameTableSpec.exact (FrameTableSpec.parse Sample.path1) = true
  /\ frame_table Sample.path1
     = map (map Finite) (FrameTableSpec.parse Sample.path1)
  /\ forall segment,
       FrameTableSpec.trim (FrameTableSpec.squash segment) = EmptyString ->
       frame_row segment = [] /\ FrameTableSpec.row segment = [].
Proof.
  split; [vm_compute; reflexivity | ].
  destruct (frame_table_spec Sample.path1) as (_ & H & Hrow).
  split; [apply H; vm_compute; reflexivity | exact Hrow].
Defined.

Lemma generateTransactionId_deterministic_witness :
  exists id,
    fst (generateTransactionId Sample.curves Sample.Cubic_getValue Sample.encode
           "GET" "/1.1/jot/client_event.json"
           None None None (Some (seconds 1000)) 0 66 Sample.session) = Returns id
    /\ fst (generateTransactionId Sample.curves Sample.Cubic_getValue
              Sample.encode "GET" "/1.1/jot/client_event.json"
              (Some Sample.document_without_frames)
              (Some "AAECAwQFBgcICQoLDA0ODw") (Some "00") None
              1682925400345 66 Sample.session) = Returns id.
Proof.
  apply (generateTransactionId_deterministic
           Sample.curves Sample.Cubic_getValue Sample.encode
           "GET" "/1.1/jot/client_event.json" 66 Sample.key_bytes "00"
           None None None (Some (seconds 1000)) 0 Sample.session
           "AAECAwQFBgcICQoLDA0ODw=="
           (Some Sample.document_without_frames)
           (Some "AAECAwQFBgcICQoLDA0ODw") (Some "00") None
           1682925400345 Sample.session "AAECAwQFBgcICQoLDA0ODw");
    vm_compute; reflexivity.
Defined.

Lemma getAnimationKey_target_time_witness :
  fst (getAnimationKey Sample.curves Sample.Cubic_getValue Sample.encode
         Sample.key_bytes None Sample.session)
  = animate Sample.curves Sample.Cubic_getValue Sample.encode
      [Finite 21; Finite 22; Finite 23; Finite 24; Finite 25; Finite 26;
       Finite 27; Finite 28]
      (Finite (60 # 4096))
  /\ exists frameTime,
       nearest_multiple_of_10 (nibble_product Sample.key_bytes [7; 9]) frameTime
       /\ frameTime = (nibble_product Sample.key_bytes [7; 9] + 5) / 10 * 10
       /\ Finite (60 # 4096) = Finite (frameTime # 4096).
Proof.
  destruct (getAnimationKey_target_time
              Sample.curves Sample.Cubic_getValue Sample.encode
              Sample.key_bytes None Sample.session [Finite 7; Finite 9]
              [Finite 21; Finite 22; Finite 23; Finite 24; Finite 25;
               Finite 26; Finite 27; Finite 28]
              (Finite (60 # 4096)) eq_refl)
    as (H1 & H2 & _).
  - vm_compute. reflexivity.
  - split; [exact H1 | ].
    apply (H2 [7; 9]).
    + reflexivity.
    + unfold Sample.key_bytes, is_byte.
      repeat (apply Forall_cons; [lia | ]). apply Forall_nil.
    + unfold Sample.key_bytes. cbn [List.length].
      repeat (apply Forall_cons; [lia | ]). apply Forall_nil.
    + vm_compute. reflexivity.
Defined.

(** * Further properties of the class *)

(** ** [initialize] and [create] *)

Lemma getIndices_of_document fetch d s s' :
  fst (getIndices fetch (Some d) s) = fst (getIndices fetch (Some d) s').
Proof.
  rewrite !getIndices_steps. cbn [document_of].
  repeat match goal with
         | |- context [match ?x with _ => _ end] => destruct x
         end; reflexivity.
Qed.

(** [initialize], step by step, from any session. *)
Lemma initialize_steps fetch {float : Type}
    (curves : list number -> Outcome (list float))
    (Cubic_getValue : list float -> Number Q -> Outcome float)
    (encode : list number -> float -> Outcome string) s :
  initialize fetch curves Cubic_getValue encode s =
  if isInitialized s then (Returns tt, s)
  else
    let doc := homePageDocument s in
    match fst (getIndices fetch (Some doc) s) with
    | Throws e => (Throws e, s)
    | Returns (row_index, indices) =>
        let s1 :=
          {| DEFAULT_ROW_INDEX := Some row_index;
             DEFAULT_KEY_BYTES_INDICES := Some indices;
             homePageDocument := doc;
             key := key s; keyBytes := keyBytes s;
             animationKey := animationKey s; isInitialized := false |} in
        match fst (getKey (Some doc) s) with
        | Throws e => (Throws e, s1)
        | Returns k =>
            let s2 :=
              {| DEFAULT_ROW_INDEX := Some row_index;
                 DEFAULT_KEY_BYTES_INDICES := Some indices;
                 homePageDocument := doc;
                 key := Some k; keyBytes := keyBytes s;
                 animationKey := animationKey s; isInitialized := false |} in
            match Base64.decodeBase64 k with
            | None => (Throws InvalidCharacterError, s2)
            | Some kb =>
                let s3 :=
                  {| DEFAULT_ROW_INDEX := Some row_index;
                     DEFAULT_KEY_BYTES_INDICES := Some indices;
                     homePageDocument := doc;
                     key := Some k; keyBytes := Some kb;
                     animationKey := animationKey s;
                     isInitialized := false |} in
                match fst (getAnimationKey curves Cubic_getValue encode kb
                             (Some doc) s3) with
                | Throws e => (Throws e, s3)
                | Returns ak =>
                    (Returns tt, ready doc row_index indices k kb ak)
                end
            end
        end
    end.
Proof.
  unfold initialize.
  rewrite bind_read_only by auto with frame. cbn [this fst].
  destruct (isInitialized s) eqn:Einit; [reflexivity | ]. cbv zeta.
  rewrite bind_read_only by auto with frame.
  destruct (fst (getIndices fetch (Some (homePageDocument s)) s))
    as [[row_index indices] | e]; [ | reflexivity ].
  unfold bind at 1. cbn [set_DEFAULT_ROW_INDEX].
  unfold bind at 1. cbn [set_DEFAULT_KEY_BYTES_INDICES].
  rewrite bind_read_only by auto with frame.
  match goal with
  | |- context [fst (getKey (Some ?d) ?s0)] =>
      rewrite (getKey_of_document d s0 s)
  end.
  cbn [DEFAULT_ROW_INDEX DEFAULT_KEY_BYTES_INDICES homePageDocument key
       keyBytes animationKey isInitialized].
  rewrite Einit.
  destruct (fst (getKey (Some (homePageDocument s)) s)) as [k | e] eqn:Ek;
    [ | reflexivity ].
  pose proof (getKey_nonempty _ _ _ Ek) as Hk.
  unfold bind at 1. cbn [set_key].
  cbn [DEFAULT_ROW_INDEX DEFAULT_KEY_BYTES_INDICES homePageDocument key
       keyBytes animationKey isInitialized].
  destruct k as [ | c k']; [contradiction | ].
  rewrite bind_read_only by auto with frame.
  unfold getKeyBytes at 1.
  destruct (Base64.decodeBase64 (String c k')) as [kb | ]; [ | reflexivity ].
  cbn [ret fst]. unfold bind at 1. cbn [set_keyBytes].
  cbn [DEFAULT_ROW_INDEX DEFAULT_KEY_BYTES_INDICES homePageDocument key
       keyBytes animationKey isInitialized].
  rewrite bind_read_only by auto with frame.
  destruct (fst (getAnimationKey curves Cubic_getValue encode kb _ _))
    as [ak | e]; [ | reflexivity ].
  unfold bind at 1. cbn [set_animationKey]. unfold set_isInitialized.
  reflexivity.
Qed.

Lemma getKey_steps response s :
  getKey response s =
  match siteVerification (document_of response s) with
  | Some element =>
      match getAttribute element "content" with
      | Some (String c k) => (Returns (String c k), s)
      | _ => (Throws KeyNotFound, s)
      end
  | None => (Throws KeyNotFound, s)
  end.
Proof.
  unfold getKey. rewrite bind_read_only by auto with frame.
  replace (fst (document_or_own response s))
    with (Returns (document_of response s)) by (destruct response; reflexivity).
  destruct (siteVerification (document_of response s)) as [element | ];
    [ | reflexivity ].
  destruct (getAttribute element "content") as [[ | c k] | ]; reflexivity.
Qed.

Lemma getAnimationKey_depends {float : Type}
    (curves : list number -> Outcome (list float))
    (Cubic_getValue : list float -> Number Q -> Outcome float)
    (encode : list number -> float -> Outcome string) kb response s response' s' :
  DEFAULT_ROW_INDEX s = DEFAULT_ROW_INDEX s' ->
  DEFAULT_KEY_BYTES_INDICES s = DEFAULT_KEY_BYTES_INDICES s' ->
  document_of response s = document_of response' s' ->
  fst (getAnimationKey curves Cubic_getValue encode kb response s)
  = fst (getAnimationKey curves Cubic_getValue encode kb response' s').
Proof.
  intros E1 E2 Ed.
  assert (H : forall r t,
             fst (getAnimationKey curves Cubic_getValue encode kb r t)
             = fst (getAnimationKey curves Cubic_getValue encode kb
                      (Some (document_of r t)) t)).
  { intros r t. unfold getAnimationKey.
    rewrite !bind_read_only by auto with frame.
    rewrite !animationArguments_steps.
    assert (G : fst (get2dArray kb r None t)
                = fst (get2dArray kb (Some (document_of r t)) None t)).
    { unfold get2dArray.
      rewrite !bind_read_only, !getFrames_run by auto with frame.
      reflexivity. }
    rewrite G. reflexivity. }
  rewrite (H response s), (H response' s'), Ed.
  apply getAnimationKey_of_indices; congruence.
Qed.

(** X1. A session returned by [create] is complete: its document is the
    one given, its indices are those read from the auxiliary script, its
    key is the content attribute of the verification element and is not
    empty, its key bytes are the decoding of the key, its animation key is
    the one derived from these, and its flag is set. *)
Theorem create_ready fetch {float : Type}
    (curves : list number -> Outcome (list float))
    (Cubic_getValue : list float -> Number Q -> Outcome float)
    (encode : list number -> float -> Outcome string) doc s :
  create fetch curves Cubic_getValue encode doc = Returns s ->
  exists row_index indices element k kb ak,
    s = ready doc row_index indices k kb ak
    /\ fst (getIndices fetch (Some doc) s) = Returns (row_index, indices)
    /\ siteVerification doc = Some element
    /\ getAttribute element "content" = Some k
    /\ k <> EmptyString
    /\ Base64.decodeBase64 k = Some kb
    /\ Forall is_byte kb
    /\ fst (getAnimationKey curves Cubic_getValue encode kb None s) = Returns ak.
Proof.
  unfold create. rewrite initialize_steps.
  cbn [constructor isInitialized homePageDocument key keyBytes animationKey].
  cbv zeta.
  destruct (fst (getIndices fetch (Some doc) (constructor doc)))
    as [[row_index indices] | e] eqn:Ei; [ | discriminate ].
  rewrite getKey_steps. cbn [document_of].
  destruct (siteVerification doc) as [element | ] eqn:Es; [ | discriminate ].
  destruct (getAttribute element "content") as [[ | c k] | ] eqn:Ec;
    try discriminate.
  cbn [fst].
  destruct (Base64.decodeBase64 (String c k)) as [kb | ] eqn:Ekb;
    [ | discriminate ].
  destruct (fst (getAnimationKey curves Cubic_getValue encode kb (Some doc) _))
    as [ak | e] eqn:Eak; [ | discriminate ].
  intros H. injection H as <-.
  exists row_index, indices, element, (String c k), kb, ak.
  split; [reflexivity | ].
  split; [rewrite <- Ei; apply getIndices_of_document | ].
  split; [reflexivity | ]. split; [exact Ec | ]. split; [discriminate | ].
  split; [exact Ekb | ].
  split; [eapply decodeBase64_bytes, Ekb | ].
  rewrite <- Eak. apply getAnimationKey_depends; reflexivity.
Qed.

(** X2. [initialize] is idempotent: a call on an initialized session
    returns at once and changes nothing, so a second call after a
    successful one is without effect. *)
Theorem initialize_twice fetch {float : Type}
    (curves : list number -> Outcome (list float))
    (Cubic_getValue : list float -> Number Q -> Outcome float)
    (encode : list number -> float -> Outcome string) s :
  fst (initialize fetch curves Cubic_getValue encode s) = Returns tt ->
  let s' := snd (initialize fetch curves Cubic_getValue encode s) in
  isInitialized s' = true
  /\ initialize fetch curves Cubic_getValue encode s' = (Returns tt, s').
Proof.
  intros H. cbv zeta.
  assert (Hflag : isInitialized
                    (snd (initialize fetch curves Cubic_getValue encode s))
                  = true).
  { revert H. rewrite initialize_steps.
    destruct (isInitialized s) eqn:Einit; [intros _; exact Einit | ].
    cbv zeta.
    repeat match goal with
           | |- context [match ?x with _ => _ end] => destruct x
           end; cbn [fst snd]; try discriminate; reflexivity. }
  split; [exact Hflag | ].
  rewrite (initialize_steps fetch curves Cubic_getValue encode (snd _)).
  rewrite Hflag. reflexivity.
Qed.

(** X3. A failed [initialize] never sets the flag and never changes the
    document: the session it leaves is not initialized, and every call of
    [generateTransactionId] on it throws the not-initialized error. *)
Theorem initialize_failure fetch {float : Type}
    (curves : list number -> Outcome (list float))
    (Cubic_getValue : list float -> Number Q -> Outcome float)
    (encode : list number -> float -> Outcome string) s e :
  fst (initialize fetch curves Cubic_getValue encode s) = Throws e ->
  let s' := snd (initialize fetch curves Cubic_getValue encode s) in
  isInitialized s' = false
  /\ homePageDocument s' = homePageDocument s
  /\ forall method path response key_arg animationKey_arg timeNow_arg
            nowMillis randomNum,
       generateTransactionId curves Cubic_getValue encode method path response
         key_arg animationKey_arg timeNow_arg nowMillis randomNum s'
       = (Throws NotInitialized, s').
Proof.
  intros H. cbv zeta.
  assert (Hs : isInitialized
                 (snd (initialize fetch curves Cubic_getValue encode s)) = false
               /\ homePageDocument
                    (snd (initialize fetch curves Cubic_getValue encode s))
                  = homePageDocument s).
  { revert H. rewrite initialize_steps.
    destruct (isInitialized s) eqn:Einit; [discriminate | ].
    cbv zeta.
    repeat match goal with
           | |- context [match ?x with _ => _ end] => destruct x
           end; cbn [fst snd]; try discriminate; intros _; split;
      try reflexivity; exact Einit. }
  destruct Hs as [Hflag Hdoc].
  split; [exact Hflag | ]. split; [exact Hdoc | ].
  intros. rewrite generateTransactionId_steps, Hflag. reflexivity.
Qed.

Lemma get2dArray_throws kb response frames s e :
  fst (get2dArray kb response frames s) = Throws e -> e = TypeError.
Proof.
  unfold get2dArray. destruct frames as [f | ];
    rewrite bind_read_only by auto with frame.
  - cbn [ret fst].
    repeat match goal with
           | |- context [match ?x with _ => _ end] => destruct x
           end; cbn; congruence.
  - rewrite getFrames_run. cbn [fst].
    repeat match goal with
           | |- context [match ?x with _ => _ end] => destruct x
           end; cbn; congruence.
Qed.

Lemma animationArguments_throws kb response s e :
  fst (animationArguments kb response s) = Throws e ->
  (e = IndicesNotInitialized
   /\ (DEFAULT_ROW_INDEX s = None \/ DEFAULT_KEY_BYTES_INDICES s = None))
  \/ e = TypeError \/ e = InvalidFrameData.
Proof.
  rewrite animationArguments_steps.
  destruct (DEFAULT_ROW_INDEX s) as [row_index | ];
    [ | cbn; intros H; injection H as <-; auto ].
  destruct (DEFAULT_KEY_BYTES_INDICES s) as [indices | ];
    [ | cbn; intros H; injection H as <-; auto ].
  destruct (fst (get2dArray kb response None s)) as [arr | e'] eqn:E.
  - destruct (JsNumber.index arr _); cbn; [discriminate | ].
    intros H; injection H as <-; auto.
  - cbn. intros H; injection H as <-.
    right. left. eapply get2dArray_throws, E.
Qed.

(** A failure of [getAnimationKey] is a failure of its preparation, or a
    failure of [animate] on the arguments prepared. *)
Lemma getAnimationKey_throws {float : Type}
    (curves : list number -> Outcome (list float))
    (Cubic_getValue : list float -> Number Q -> Outcome float)
    (encode : list number -> float -> Outcome string) kb response s e :
  fst (getAnimationKey curves Cubic_getValue encode kb response s) = Throws e ->
  fst (animationArguments kb response s) = Throws e
  \/ exists frameRow targetTime,
       fst (animationArguments kb response s) = Returns (frameRow, targetTime)
       /\ animate curves Cubic_getValue encode frameRow targetTime = Throws e.
Proof.
  unfold getAnimationKey. rewrite bind_read_only by auto with frame.
  destruct (fst (animationArguments kb response s)) as [[row t] | e'].
  - cbn [lift fst]. intros H. right. exists row, t. auto.
  - cbn [fst]. intros H; injection H as <-. left. reflexivity.
Qed.

(** X4. Apart from what [animate] throws, [initialize] fails in five ways
    only: the indices are not found, the key is not found, the key is not
    base64, a frame element or one of its children is missing, or the frame
    row is missing. Every other error is thrown by [animate], called on the
    frame row and the time prepared from the decoded key of the page. *)
Theorem initialize_errors fetch {float : Type}
    (curves : list number -> Outcome (list float))
    (Cubic_getValue : list float -> Number Q -> Outcome float)
    (encode : list number -> float -> Outcome string) s e :
  fst (initialize fetch curves Cubic_getValue encode s) = Throws e ->
  In e [IndicesNotFound; KeyNotFound; InvalidCharacterError; TypeError;
        InvalidFrameData]
  \/ exists k kb s' frameRow targetTime,
       fst (getKey (Some (homePageDocument s)) s) = Returns k
       /\ Base64.decodeBase64 k = Some kb
       /\ fst (animationArguments kb (Some (homePageDocument s)) s')
          = Returns (frameRow, targetTime)
       /\ animate curves Cubic_getValue encode frameRow targetTime = Throws e.
Proof.
  rewrite initialize_steps.
  destruct (isInitialized s); [discriminate | ]. cbv zeta.
  rewrite getIndices_steps. cbn [document_of].
  assert (Hi : forall o : Outcome (number * list number) * ClientTransaction,
             o = match Regex.on_demand_file (outerHTML (homePageDocument s)) with
                 | Some name =>
                     match fetch (onDemandFileUrl name) with
                     | fetch_response true (Some text) =>
                         match Regex.indices text with
                         | [] => (Throws IndicesNotFound, s)
                         | first :: rest =>
                             (Returns (JsNumber.parseInt first,
                                       map JsNumber.parseInt rest), s)
                         end
                     | _ => (Throws IndicesNotFound, s)
                     end
                 | None => (Throws IndicesNotFound, s)
                 end ->
             forall e', fst o = Throws e' -> e' = IndicesNotFound).
  { intros o ->.
    repeat match goal with
           | |- context [match ?x with _ => _ end] => destruct x
           end; cbn; congruence. }
  specialize (Hi _ eq_refl).
  destruct (fst _) as [[row_index indices] | e1] eqn:E1.
  - clear Hi.
    destruct (fst (getKey (Some (homePageDocument s)) s)) as [k | e2] eqn:Ek.
    + destruct (Base64.decodeBase64 k) as [kb | ] eqn:Ekb;
        [ | cbn; intros H; injection H as <-; left; cbn [In]; auto 10 ].
      destruct (fst (getAnimationKey _ _ _ kb _ _)) as [ak | e3] eqn:E3;
        [discriminate | ].
      cbn [fst]. intros H; injection H as <-.
      apply getAnimationKey_throws in E3.
      destruct E3 as [E3 | (frameRow & targetTime & Ea & Et)].
      * apply animationArguments_throws in E3.
        destruct E3 as [[_ [E | E]] | [-> | ->]];
          try discriminate E; left; cbn [In]; auto 10.
      * right. exists k, kb. eexists. exists frameRow, targetTime.
        split; [reflexivity | ]. split; [exact Ekb | ].
        split; [exact Ea | exact Et].
    + cbn. intros H; injection H as <-.
      revert Ek. rewrite getKey_steps. cbn [document_of].
      repeat match goal with
             | |- context [match ?x with _ => _ end] => destruct x
             end; cbn; intros H; try discriminate H;
        injection H as <-; left; cbn [In]; auto 10.
  - cbn. intros H; injection H as <-. rewrite (Hi e1 eq_refl).
    left. cbn [In]. auto 10.
Qed.

(** X5. What an uninitialized session still holds from an earlier, failed
    attempt does not count: two uninitialized sessions on the same document
    get the same outcome from [initialize], and on success the same
    session. *)
Theorem initialize_retry fetch {float : Type}
    (curves : list number -> Outcome (list float))
    (Cubic_getValue : list float -> Number Q -> Outcome float)
    (encode : list number -> float -> Outcome string) s s' :
  isInitialized s = false -> isInitialized s' = false ->
  homePageDocument s = homePageDocument s' ->
  fst (initialize fetch curves Cubic_getValue encode s)
  = fst (initialize fetch curves Cubic_getValue encode s')
  /\ (fst (initialize fetch curves Cubic_getValue encode s) = Returns tt ->
      snd (initialize fetch curves Cubic_getValue encode s)
      = snd (initialize fetch curves Cubic_getValue encode s')).
Proof.
  intros I I' Hd. rewrite !initialize_steps, I, I'. cbv zeta. rewrite <- Hd.
  rewrite (getIndices_of_document fetch (homePageDocument s) s' s).
  rewrite (getKey_of_document (homePageDocument s) s' s).
  destruct (fst (getIndices fetch _ s)) as [[row_index indices] | e];
    [ | split; [reflexivity | discriminate] ].
  destruct (fst (getKey _ s)) as [k | e];
    [ | split; [reflexivity | discriminate] ].
  destruct (Base64.decodeBase64 k) as [kb | ];
    [ | split; [reflexivity | discriminate] ].
  match goal with
  | |- context [fst (getAnimationKey _ _ _ kb (Some ?d) ?a)] =>
      match goal with
      | |- context [fst (getAnimationKey _ _ _ kb (Some d) ?b)] =>
          lazymatch a with
          | b => fail
          | _ => rewrite (getAnimationKey_of_indices curves Cubic_getValue
                            encode kb d b a eq_refl eq_refl)
          end
      end
  end.
  destruct (fst (getAnimationKey _ _ _ kb _ _)) as [ak | e];
    split; try reflexivity; discriminate.
Qed.

(** ** [generateTransactionId] on a ready session *)

(** X6. After a successful [create], a call of [generateTransactionId]
    without optional arguments always returns: it reads the cached key and
    animation key, whatever the clock and the random byte, and its
    identifier is made of the cached key bytes and animation key. *)
Theorem generateTransactionId_after_create fetch {float : Type}
    (curves : list number -> Outcome (list float))
    (Cubic_getValue : list float -> Number Q -> Outcome float)
    (encode : list number -> float -> Outcome string)
    doc s method path timeNow_arg nowMillis randomNum :
  create fetch curves Cubic_getValue encode doc = Returns s ->
  is_byte randomNum ->
  exists kb ak,
    keyBytes s = Some kb /\ animationKey s = Some ak
    /\ generateTransactionId curves Cubic_getValue encode method path
         None None None timeNow_arg nowMillis randomNum s
       = (Returns
            (identifier
               (masked randomNum
                  (payload method path (resolveTimeNow timeNow_arg nowMillis)
                     kb ak))), s).
Proof.
  intros Hc Hr. unfold create in Hc. rewrite initialize_steps in Hc.
  cbn [constructor isInitialized homePageDocument key keyBytes animationKey]
    in Hc.
  cbv zeta in Hc.
  destruct (fst (getIndices fetch (Some doc) (constructor doc)))
    as [[row_index indices] | e]; [ | discriminate ].
  destruct (fst (getKey (Some doc) (constructor doc))) as [k | e] eqn:Ek;
    [ | discriminate ].
  pose proof (getKey_nonempty _ _ _ Ek) as Hk.
  destruct (Base64.decodeBase64 k) as [kb | ] eqn:Ekb; [ | discriminate ].
  destruct (fst (getAnimationKey curves Cubic_getValue encode kb (Some doc) _))
    as [ak | e] eqn:Eak; [ | discriminate ].
  injection Hc as <-. exists kb, ak.
  split; [reflexivity | ]. split; [reflexivity | ].
  rewrite generateTransactionId_steps.
  cbn [ready isInitialized].
  assert (E1 : fst (resolveKey None None (ready doc row_index indices k kb ak))
               = Returns k).
  { unfold resolveKey. rewrite bind_read_only by auto with frame.
    cbn [this fst truthy ready key].
    destruct k; [contradiction | reflexivity]. }
  assert (E2 : fst (resolveKeyBytes k (ready doc row_index indices k kb ak))
               = Returns kb).
  { apply resolveKeyBytes_decode; assumption. }
  assert (E3 : fst (resolveAnimationKey curves Cubic_getValue encode None kb
                      None (ready doc row_index indices k kb ak))
               = Returns ak).
  { unfold resolveAnimationKey. rewrite bind_read_only by auto with frame.
    cbn [this fst truthy ready animationKey].
    destruct ak as [ | c a]; [ | reflexivity ].
    rewrite <- Eak. apply getAnimationKey_depends; reflexivity. }
  rewrite E1, E2, E3.
  rewrite code_identifier; [reflexivity | exact Hr | ].
  apply payload_bytes. eapply decodeBase64_bytes, Ekb.
Qed.

(** An optional argument that is falsy counts as absent: the empty
    string as key or as animation key, and the times 0 and [NaN], give the
    call the same outcome as no argument at all. *)
Lemma generateTransactionId_falsy_arguments {float : Type}
    (curves : list number -> Outcome (list float))
    (Cubic_getValue : list float -> Number Q -> Outcome float)
    (encode : list number -> float -> Outcome string)
    method path response key_arg animationKey_arg timeNow_arg nowMillis
    randomNum s :
  generateTransactionId curves Cubic_getValue encode method path response
    (Some EmptyString) animationKey_arg timeNow_arg nowMillis randomNum s
  = generateTransactionId curves Cubic_getValue encode method path response
      None animationKey_arg timeNow_arg nowMillis randomNum s
  /\ generateTransactionId curves Cubic_getValue encode method path response
       key_arg (Some EmptyString) timeNow_arg nowMillis randomNum s
     = generateTransactionId curves Cubic_getValue encode method path response
         key_arg None timeNow_arg nowMillis randomNum s
  /\ generateTransactionId curves Cubic_getValue encode method path response
       key_arg animationKey_arg (Some (seconds 0)) nowMillis randomNum s
     = generateTransactionId curves Cubic_getValue encode method path response
         key_arg animationKey_arg None nowMillis randomNum s
  /\ generateTransactionId curves Cubic_getValue encode method path response
       key_arg animationKey_arg (Some seconds_NaN) nowMillis randomNum s
     = generateTransactionId curves Cubic_getValue encode method path response
         key_arg animationKey_arg None nowMillis randomNum s.
Proof.
  repeat split; reflexivity.
Qed.

(** X7. With a key and an animation key given, both not empty, an
    initialized session is not consulted beyond its flag, and the document
    not at all: the call returns the identifier made of the decoded key and
    the given animation key, or throws when the key is not base64. *)
Theorem generateTransactionId_with_overrides {float : Type}
    (curves : list number -> Outcome (list float))
    (Cubic_getValue : list float -> Number Q -> Outcome float)
    (encode : list number -> float -> Outcome string)
    method path response k ak timeNow_arg nowMillis randomNum s :
  isInitialized s = true ->
  k <> EmptyString -> ak <> EmptyString -> is_byte randomNum ->
  generateTransactionId curves Cubic_getValue encode method path response
    (Some k) (Some ak) timeNow_arg nowMillis randomNum s
  = match Base64.decodeBase64 k with
    | Some kb =>
        (Returns
           (identifier
              (masked randomNum
                 (payload method path (resolveTimeNow timeNow_arg nowMillis)
                    kb ak))), s)
    | None => (Throws InvalidCharacterError, s)
    end.
Proof.
  intros Hi Hk Hak Hr. rewrite generateTransactionId_steps, Hi.
  assert (E1 : fst (resolveKey (Some k) response s) = Returns k).
  { unfold resolveKey. rewrite bind_read_only by auto with frame.
    cbn [this fst truthy]. destruct k; [contradiction | reflexivity]. }
  rewrite E1.
  assert (E2 : fst (resolveKeyBytes k s)
               = match Base64.decodeBase64 k with
                 | Some kb => Returns kb
                 | None => Throws InvalidCharacterError
                 end).
  { unfold resolveKeyBytes. rewrite bind_read_only by auto with frame.
    cbn [this fst]. destruct k as [ | c k']; [contradiction | ].
    unfold getKeyBytes. destruct (Base64.decodeBase64 _); reflexivity. }
  rewrite E2.
  destruct (Base64.decodeBase64 k) as [kb | ] eqn:Ekb; [ | reflexivity ].
  assert (E3 : fst (resolveAnimationKey curves Cubic_getValue encode (Some ak)
                      kb response s) = Returns ak).
  { unfold resolveAnimationKey. rewrite bind_read_only by auto with frame.
    cbn [this fst truthy]. destruct ak; [contradiction | reflexivity]. }
  rewrite E3, code_identifier; [reflexivity | exact Hr | ].
  apply payload_bytes. eapply decodeBase64_bytes, Ekb.
Qed.

(** ** The indices, the key and its bytes *)

(** X8. The indices that [getIndices] returns are integers from 0 to 99,
    none of them [NaN]: each is the value of a literal of one or two
    digits. *)
Theorem getIndices_bounds fetch doc s row_index indices :
  fst (getIndices fetch doc s) = Returns (row_index, indices) ->
  Forall (fun i => exists v, i = Finite v /\ 0 <= v <= 99)
    (row_index :: indices).
Proof.
  rewrite getIndices_steps.
  destruct (Regex.on_demand_file _) as [name | ]; [ | discriminate ].
  destruct (fetch (onDemandFileUrl name)) as [ | [ | ] [text | ]];
    try discriminate.
  pose proof (indices_numbers text) as H.
  destruct (Regex.indices text) as [ | first rest]; [discriminate | ].
  cbn [fst]. intros E. injection E as <- <-.
  change (JsNumber.parseInt first :: map JsNumber.parseInt rest)
    with (map JsNumber.parseInt (first :: rest)).
  apply Forall_map. eapply Forall_impl; [ | exact H ].
  intros digits (v & Ev & Hv). exists v. auto.
Qed.

(** X9. [getKey] returns the content attribute of the verification
    element exactly when the element is there and the attribute is there
    and not empty; it never returns the empty string, and its only error is
    that the key is not found. *)
Theorem getKey_spec response s :
  (forall k,
     fst (getKey response s) = Returns k
     <-> k <> EmptyString
         /\ exists element,
              siteVerification (document_of response s) = Some element
              /\ getAttribute element "content" = Some k)
  /\ (forall e, fst (getKey response s) = Throws e -> e = KeyNotFound).
Proof.
  rewrite getKey_steps.
  destruct (siteVerification (document_of response s)) as [element | ].
  - destruct (getAttribute element "content") as [[ | c k'] | ] eqn:Ec.
    + split.
      * intros k. split; [discriminate | ].
        intros (Hk & el & E1 & E2). injection E1 as <-.
        rewrite Ec in E2. injection E2 as <-. contradiction.
      * cbn. congruence.
    + split.
      * intros k. split.
        -- cbn. intros H. injection H as <-.
           split; [discriminate | ]. exists element. auto.
        -- intros (_ & el & E1 & E2). injection E1 as <-.
           rewrite Ec in E2. injection E2 as <-. reflexivity.
      * discriminate.
    + split.
      * intros k. split; [discriminate | ].
        intros (_ & el & E1 & E2). injection E1 as <-.
        rewrite Ec in E2. discriminate.
      * cbn. congruence.
  - split.
    + intros k. split; [discriminate | ].
      intros (_ & el & E1 & _). discriminate.
    + cbn. congruence.
Qed.

Lemma drop_last_if_some x s r :
  JsString.drop_last_if x s = Some r -> s = r ++ String x EmptyString.
Proof.
  revert r. induction s as [ | c s IH]; intros r; [discriminate | ].
  cbn [JsString.drop_last_if]. destruct s as [ | c' s'].
  - destruct (Ascii.eqb c x) eqn:E; [ | discriminate ].
    apply Ascii.eqb_eq in E. subst c. intros H. injection H as <-. reflexivity.
  - destruct (JsString.drop_last_if x (String c' s')) as [r0 | ];
      [ | discriminate ].
    cbn [option_map]. intros H. injection H as <-.
    cbn [append]. f_equal. apply IH. reflexivity.
Qed.

Lemma strip_padding_cons c s :
  (2 <= String.length s)%nat ->
  strip_padding (String c s) = String c (strip_padding s).
Proof.
  intros H. destruct s as [ | c1 [ | c2 s2]]; cbn [String.length] in H;
    try lia.
  unfold strip_padding.
  change (JsString.drop_last_if "=" (String c (String c1 (String c2 s2))))
    with (option_map (String c)
            (JsString.drop_last_if "=" (String c1 (String c2 s2)))).
  destruct (JsString.drop_last_if "=" (String c1 (String c2 s2)))
    as [r0 | ] eqn:E; [ | reflexivity ].
  cbn [option_map]. apply drop_last_if_some in E.
  destruct r0 as [ | a r0']; [discriminate E | ].
  change (JsString.drop_last_if "=" (String c (String a r0')))
    with (option_map (String c) (JsString.drop_last_if "=" (String a r0'))).
  destruct (JsString.drop_last_if "=" (String a r0')); reflexivity.
Qed.

Lemma encodeBase64_length bs :
  (bs = [] \/ 4 <= String.length (Base64.encodeBase64 bs))%nat
  /\ Nat.modulo (String.length (Base64.encodeBase64 bs)) 4 = 0%nat.
Proof.
  induction bs as [ | a | a b | a b c rest [_ IH]] using list_ind3;
    try (split; [auto; right; cbn; lia | reflexivity]).
  split; [right; cbn [Base64.encodeBase64 String.length]; lia | ].
  cbn [Base64.encodeBase64 String.length].
  change (S (S (S (S ?n)))) with (4 + n)%nat.
  rewrite <- Nat.Div0.add_mod_idemp_l. exact IH.
Qed.

Lemma strip_padding_encodeBase64 bs :
  Forall is_byte bs ->
  strip_padding (Base64.encodeBase64 bs) = text_of_values (sextets bs).
Proof.
  unfold text_of_values.
  induction bs as [ | a | a b | a b c rest IH] using list_ind3; intros H;
    pose proof (sextets_range _ H) as Hs; cbn [sextets] in Hs.
  - reflexivity.
  - reflexivity.
  - pose proof (Forall_inv (Forall_inv_tail (Forall_inv_tail Hs))) as H3.
    destruct (char_of_value _ H3) as (_ & E & _).
    cbn [Base64.encodeBase64 sextets map string_of_list_ascii].
    unfold strip_padding. cbn [JsString.drop_last_if option_map].
    change (Ascii.eqb "=" "=") with true.
    cbn [JsString.drop_last_if option_map]. rewrite E. reflexivity.
  - pose proof (Forall_inv
                  (Forall_inv_tail (Forall_inv_tail (Forall_inv_tail Hs))))
      as H4.
    destruct (char_of_value _ H4) as (_ & E & _).
    pose proof (Forall_inv_tail (Forall_inv_tail (Forall_inv_tail H)))
      as Hrest.
    cbn [Base64.encodeBase64 sextets map string_of_list_ascii].
    destruct (encodeBase64_length rest) as [[-> | Hlen] _].
    + cbn [Base64.encodeBase64 sextets map string_of_list_ascii].
      unfold strip_padding. cbn [JsString.drop_last_if option_map].
      rewrite E. reflexivity.
    + rewrite !strip_padding_cons by (cbn [String.length]; lia).
      rewrite (IH Hrest). reflexivity.
Qed.

Lemma remove_whitespace_encodeBase64 bs :
  Forall is_byte bs ->
  Base64.remove_whitespace (Base64.encodeBase64 bs) = Base64.encodeBase64 bs.
Proof.
  assert (W : forall v s, is_sextet v ->
            Base64.remove_whitespace (String (Base64.char_of v) s)
            = String (Base64.char_of v) (Base64.remove_whitespace s)).
  { intros v s Hv. destruct (char_of_value v Hv) as (_ & _ & E).
    cbn [Base64.remove_whitespace]. rewrite E. reflexivity. }
  induction bs as [ | a | a b | a b c rest IH] using list_ind3; intros H;
    pose proof (sextets_range _ H) as Hs; cbn [sextets] in Hs.
  - reflexivity.
  - inversion Hs as [ | ? ? H1 Hs1]; subst. inversion Hs1 as [ | ? ? H2 _]; subst.
    cbn [Base64.encodeBase64]. rewrite !W by assumption. reflexivity.
  - inversion Hs as [ | ? ? H1 Hs1]; subst. inversion Hs1 as [ | ? ? H2 Hs2]; subst.
    inversion Hs2 as [ | ? ? H3 _]; subst.
    cbn [Base64.encodeBase64]. rewrite !W by assumption. reflexivity.
  - inversion Hs as [ | ? ? H1 Hs1]; subst. inversion Hs1 as [ | ? ? H2 Hs2]; subst.
    inversion Hs2 as [ | ? ? H3 Hs3]; subst. inversion Hs3 as [ | ? ? H4 _]; subst.
    inversion H as [ | ? ? _ H']; subst. inversion H' as [ | ? ? _ H'']; subst.
    inversion H'' as [ | ? ? _ Hrest]; subst.
    cbn [Base64.encodeBase64]. rewrite !W by assumption.
    rewrite (IH Hrest). reflexivity.
Qed.

(** Decoding undoes encoding, padding included. *)
Lemma decodeBase64_encodeBase64 bs :
  Forall is_byte bs -> Base64.decodeBase64 (Base64.encodeBase64 bs) = Some bs.
Proof.
  intros H. pose proof (sextets_range bs H) as Hs.
  unfold Base64.decodeBase64.
  rewrite (remove_whitespace_encodeBase64 bs H).
  change (Base64.remove_padding (Base64.encodeBase64 bs))
    with (if (Nat.modulo (String.length (Base64.encodeBase64 bs)) 4 =? 0)%nat
          then strip_padding (Base64.encodeBase64 bs)
          else Base64.encodeBase64 bs).
  rewrite (proj2 (encodeBase64_length bs)). cbn [Nat.eqb].
  rewrite (strip_padding_encodeBase64 bs H). fold (text_of_values (sextets bs)).
  rewrite (values_text _ Hs). apply bytes_of_sextets, H.
Qed.

(** X10. [getKeyBytes] undoes the base64 encoding of any list of bytes,
    with its padding or without it; and whatever it returns is a list of
    bytes, its only error being that the key is not base64. *)
Theorem getKeyBytes_round_trip s :
  (forall bs, Forall is_byte bs ->
     getKeyBytes (Base64.encodeBase64 bs) s = (Returns bs, s)
     /\ getKeyBytes (JsString.remove_char "=" (Base64.encodeBase64 bs)) s
        = (Returns bs, s))
  /\ (forall k kb, fst (getKeyBytes k s) = Returns kb -> Forall is_byte kb)
  /\ (forall k e, fst (getKeyBytes k s) = Throws e -> e = InvalidCharacterError).
Proof.
  split; [ | split ].
  - intros bs H. unfold getKeyBytes.
    rewrite (decodeBase64_encodeBase64 bs H).
    change (JsString.remove_char "=" (Base64.encodeBase64 bs))
      with (identifier bs).
    rewrite (decodeBase64_identifier bs H). split; reflexivity.
  - intros k kb. unfold getKeyBytes.
    destruct (Base64.decodeBase64 k) as [bs | ] eqn:E; [ | discriminate ].
    cbn. intros H. injection H as <-. eapply decodeBase64_bytes, E.
  - intros k e. unfold getKeyBytes.
    destruct (Base64.decodeBase64 k); cbn; congruence.
Qed.

(** ** The frame table and the arguments of [animate], at the edges *)

Lemma split_length sep s :
  List.length (JsString.split sep s) = S (occurrences sep s).
Proof.
  induction s as [ | c s IH]; [reflexivity | ].
  cbn [JsString.split occurrences].
  destruct (Ascii.eqb c sep).
  - cbn [List.length]. rewrite IH. reflexivity.
  - destruct (JsString.split sep s); [discriminate IH | ].
    cbn [JsString.cons_head List.length] in *. exact IH.
Qed.

Lemma substring_from_short n : forall s,
  (String.length s <= n)%nat -> JsString.substring_from n s = EmptyString.
Proof.
  induction n as [ | n IH]; intros [ | c s] H; cbn [String.length] in H;
    try reflexivity; try lia.
  cbn [JsString.substring_from]. apply IH. lia.
Qed.

Lemma frame_row_entries item :
  Forall (fun x => x = Infinity false \/ exists v, x = Finite v /\ 0 <= v)
    (frame_row item).
Proof.
  rewrite frame_row_spec. apply Forall_map.
  eapply Forall_impl; [ | apply row_nonneg ].
  intros v Hv. apply of_Z_nonneg, Hv.
Qed.

(** X11. The frame table of any path data has one row more than there are
    [C] after the ninth character, so it is never empty; path data of nine
    characters or fewer give the table of one empty row; and every entry of
    every row is a whole number that is not negative, or the positive
    infinity when the digits go beyond the doubles, and never [NaN]: signs
    and decimal points only separate the numbers. *)
Theorem frame_table_shape pathData :
  List.length (frame_table pathData)
  = S (occurrences "C" (JsString.substring_from 9 pathData))
  /\ ((String.length pathData <= 9)%nat -> frame_table pathData = [[]])
  /\ Forall
       (Forall
          (fun x => x = Infinity false \/ exists v, x = Finite v /\ 0 <= v))
       (frame_table pathData).
Proof.
  unfold frame_table. split; [ | split ].
  - rewrite length_map. apply split_length.
  - intros H. rewrite (substring_from_short 9 pathData H). reflexivity.
  - apply Forall_map, Forall_forall. intros item _. apply frame_row_entries.
Qed.

(** X12. [get2dArray] on a document with frame elements throws a type
    error when the key has fewer than six bytes, and when there are fewer
    frame elements than the index [keyBytes[5] % 4] needs; when the chosen
    frame has its two children but no path data it returns the empty
    table; and a type error is the only error it ever throws. *)
Theorem get2dArray_edges kb response s :
  loadingFrames (document_of response s) <> [] ->
  ((List.length kb <= 5)%nat ->
   fst (get2dArray kb response None s) = Throws TypeError)
  /\ (forall b,
        nth_error kb 5 = Some b ->
        Z.of_nat (List.length (loadingFrames (document_of response s)))
        <= Z.rem b 4 ->
        fst (get2dArray kb response None s) = Throws TypeError)
  /\ (forall frame firstChild targetChild,
        JsNumber.index (loadingFrames (document_of response s))
          (JsNumber.rem (nth_error kb 5) 4) = Some frame ->
        nth_error (children frame) 0 = Some firstChild ->
        nth_error (children firstChild) 1 = Some targetChild ->
        getAttribute targetChild "d" = None ->
        fst (get2dArray kb response None s) = Returns [])
  /\ (forall e, fst (get2dArray kb response None s) = Throws e -> e = TypeError).
Proof.
  intros Hne.
  assert (E : fst (get2dArray kb response None s)
              = match JsNumber.index (loadingFrames (document_of response s))
                        (JsNumber.rem (nth_error kb 5) 4) with
                | None => Throws TypeError
                | Some frame =>
                    match nth_error (children frame) 0 with
                    | None => Throws TypeError
                    | Some firstChild =>
                        match nth_error (children firstChild) 1 with
                        | None => Throws TypeError
                        | Some targetChild =>
                            match getAttribute targetChild "d" with
                            | None => Returns []
                            | Some dAttr => Returns (frame_table dAttr)
                            end
                        end
                    end
                end).
  { unfold get2dArray.
    rewrite bind_read_only, getFrames_run by auto with frame. cbn [fst].
    destruct (loadingFrames (document_of response s)) as [ | f fs];
      [contradiction | ].
    repeat match goal with
           | |- context [match ?x with _ => _ end] => destruct x
           end; reflexivity. }
  split; [ | split; [ | split ] ].
  - intros Hk. rewrite E.
    rewrite (proj2 (nth_error_None kb 5)) by lia. reflexivity.
  - intros b Hb Hlen. rewrite E, Hb. cbn [JsNumber.rem JsNumber.index].
    destruct (Z.rem b 4 <? 0) eqn:Eneg; [reflexivity | ].
    rewrite (proj2 (nth_error_None _ _)) by lia. reflexivity.
  - intros frame firstChild targetChild E0 E1 E2 E3.
    rewrite E, E0, E1, E2, E3. reflexivity.
  - intros e. apply get2dArray_throws.
Qed.


Lemma of_Z_not_NaN z : JsNumber.of_Z z <> NaN.
Proof.
  unfold JsNumber.of_Z. destruct (z =? 0); [discriminate | ].
  destruct (JsNumber.nearest (Z.abs z) 1) as [m sc].
  destruct (2 ^ 1024 <=? Z.shiftl m sc); discriminate.
Qed.

(** Rounding and dividing neither make nor lose a [NaN]. *)
Lemma target_time_NaN x :
  JsNumber.div (JsNumber.round_to_tens x) 4096 = NaN <-> x = NaN.
Proof.
  destruct x as [ | n | v]; cbn [JsNumber.round_to_tens JsNumber.div];
    split; try discriminate; try reflexivity.
  destruct (JsNumber.of_Z _) eqn:E; try discriminate.
  intros _. destruct (of_Z_not_NaN _ E).
Qed.

(** Up to 255 factors of less than 16 the product stays finite, so it is
    [NaN] only for a place outside the key. *)
Lemma frame_time_product_finite kb indices : forall a j,
  0 <= j -> 4 * (j + Z.of_nat (List.length indices)) <= 1023 ->
  Z.abs a <= 2 ^ (4 * j) ->
  fold_left
    (fun num1 num2 =>
       JsNumber.mul num1 (JsNumber.rem (JsNumber.index kb num2) 16))
    indices (Finite a) = NaN ->
  Exists (fun i => JsNumber.index kb i = None) indices.
Proof.
  induction indices as [ | i indices IH]; intros a j Hj Hlen Ha.
  - cbn. discriminate.
  - cbn [fold_left List.length] in *.
    destruct (JsNumber.index kb i) as [b | ] eqn:E;
      [ | intros _; apply Exists_cons_hd; exact E ].
    cbn [JsNumber.rem JsNumber.mul].
    pose proof (Z.rem_bound_abs b 16 ltac:(lia)) as Hb.
    change (Z.abs 16) with 16 in Hb.
    assert (Hprod : Z.abs (a * Z.rem b 16) <= 2 ^ (4 * (j + 1))).
    { replace (4 * (j + 1)) with (4 * j + 4) by lia.
      rewrite Z.pow_add_r, Z.abs_mul by lia. change (2 ^ 4) with 16.
      assert (0 < 2 ^ (4 * j)) by (apply Z.pow_pos_nonneg; lia).
      pose proof (Z.abs_nonneg a). pose proof (Z.abs_nonneg (Z.rem b 16)).
      nia. }
    destruct (of_Z_bounded (a * Z.rem b 16) (4 * (j + 1)) ltac:(lia) Hprod)
      as (v & Ev & Hv).
    rewrite Ev. intros H. apply Exists_cons_tl.
    apply (IH v (j + 1)); [lia | lia | exact Hv | exact H].
Qed.

(** X14. The time handed to [animate] is [NaN] whenever one of the
    key-byte indices of the session lies outside the key bytes, and the
    derivation does not fail for it. With at most 255 key-byte indices this
    is the only way: the product stays finite, so that no infinity meets a
    zero. *)
Theorem targetTime_NaN kb response s indices frameRow targetTime :
  DEFAULT_KEY_BYTES_INDICES s = Some indices ->
  fst (animationArguments kb response s) = Returns (frameRow, targetTime) ->
  (Exists (fun i => JsNumber.index kb i = None) indices -> targetTime = NaN)
  /\ ((List.length indices <= 255)%nat ->
      targetTime = NaN ->
      Exists (fun i => JsNumber.index kb i = None) indices).
Proof.
  intros Hi. rewrite animationArguments_steps, Hi.
  destruct (DEFAULT_ROW_INDEX s) as [row_index | ]; [ | discriminate ].
  destruct (fst (get2dArray kb response None s)) as [table | e];
    [ | discriminate ].
  destruct (JsNumber.index table _) as [row | ]; [ | discriminate ].
  cbn [fst]. intros H. injection H as _ <-. split.
  - intros Hout. rewrite (frame_time_product_outside kb indices Hout).
    reflexivity.
  - intros Hlen Hnan. apply target_time_NaN in Hnan.
    apply (frame_time_product_finite kb indices 1 0);
      [lia | lia | cbn; lia | exact Hnan].
Qed.

(** Beyond that the product can overflow: 263 factors 15 give an infinity,
    and a factor 0 after them gives [NaN], with every index inside the
    key. *)
Example frame_time_product_overflow :
  frame_time_product Sample.key_bytes (repeat (Finite 15) 263)
  = Infinity false
  /\ frame_time_product Sample.key_bytes (repeat (Finite 15) 263 ++ [Finite 0])
     = NaN.
Proof. split; vm_compute; reflexivity. Qed.

(** ** The text of a time *)


(** ** The shape of an identifier *)

Lemma round_length st k w :
  List.length (Sha256.round st k w) = List.length st.
Proof.
  unfold Sha256.round.
  destruct st as [ | a [ | b [ | c [ | d [ | e [ | f [ | g [ | h [ | i r]]]]]]]]];
    reflexivity.
Qed.

Lemma rounds_length ks : forall win st,
  List.length (Sha256.rounds ks win st) = List.length st.
Proof.
  induction ks as [ | k ks IH]; intros win st; [reflexivity | ].
  cbn [Sha256.rounds]. rewrite IH. apply round_length.
Qed.

Lemma compress_length h block :
  List.length (Sha256.compress h block) = List.length h.
Proof.
  unfold Sha256.compress.
  rewrite length_map, length_combine, rounds_length. apply Nat.min_id.
Qed.

Lemma blocks_length n : forall bs h,
  List.length (Sha256.blocks n bs h) = List.length h.
Proof.
  induction n as [ | n IH]; intros bs h; [reflexivity | ].
  cbn [Sha256.blocks]. rewrite IH. apply compress_length.
Qed.

Lemma word_bytes_length (ws : list Z) :
  List.length (flat_map Sha256.word_bytes ws) = (4 * List.length ws)%nat.
Proof.
  induction ws as [ | w ws IH]; [reflexivity | ].
  cbn [flat_map]. rewrite length_app, IH. cbn [Sha256.word_bytes List.length].
  lia.
Qed.

(** A digest has thirty-two bytes. *)
Lemma digest_length m : List.length (Sha256.digest m) = 32%nat.
Proof.
  unfold Sha256.digest. rewrite word_bytes_length, blocks_length. reflexivity.
Qed.

Lemma payload_length method path t kb ak :
  List.length (payload method path t kb ak) = (List.length kb + 21)%nat.
Proof.
  unfold payload. rewrite !length_app, length_firstn, digest_length.
  cbn [timeBytes List.length]. lia.
Qed.

Lemma sextets_length bs :
  List.length (sextets bs) = ((4 * List.length bs + 2) / 3)%nat.
Proof.
  induction bs as [ | a | a b | a b c rest IH] using list_ind3;
    try reflexivity.
  cbn [sextets List.length]. rewrite IH.
  replace (4 * S (S (S (List.length rest))) + 2)%nat
    with ((4 * List.length rest + 2) + 4 * 3)%nat by lia.
  rewrite Nat.div_add by lia. lia.
Qed.

Lemma text_of_values_shape vs :
  Forall is_sextet vs ->
  String.length (text_of_values vs) = List.length vs
  /\ every is_alphabet (text_of_values vs) = true
  /\ occurrences "=" (text_of_values vs) = 0%nat.
Proof.
  unfold text_of_values. induction 1 as [ | v vs Hv _ (IH1 & IH2 & IH3)];
    [repeat split | ].
  destruct (char_of_value v Hv) as (E1 & E2 & _).
  cbn [map string_of_list_ascii String.length List.length every occurrences].
  unfold is_alphabet at 1. rewrite E1, E2, IH1, IH2, IH3. repeat split.
Qed.

(** X15. A returned identifier is made of characters of the base64
    alphabet only, without any padding character, and its length depends
    on the number of key bytes alone: the bytes encoded are one random
    byte, the key bytes and twenty-one more, four characters for every
    three bytes, rounded up. *)
Theorem identifier_shape {float : Type}
    (curves : list number -> Outcome (list float))
    (Cubic_getValue : list float -> Number Q -> Outcome float)
    (encode : list number -> float -> Outcome string)
    method path response key_arg animationKey_arg timeNow_arg nowMillis
    randomNum s id :
  is_byte randomNum ->
  fst (generateTransactionId curves Cubic_getValue encode method path response
         key_arg animationKey_arg timeNow_arg nowMillis randomNum s)
  = Returns id ->
  every is_alphabet id = true
  /\ occurrences "=" id = 0%nat
  /\ exists k kb,
       fst (resolveKey key_arg response s) = Returns k
       /\ fst (resolveKeyBytes k s) = Returns kb
       /\ String.length id = ((4 * (List.length kb + 22) + 2) / 3)%nat.
Proof.
  intros Hr H.
  apply (generateTransactionId_returns curves Cubic_getValue encode) in H;
    [ | exact Hr ].
  destruct H as (_ & k & kb & ak & Ek & Ekb & _ & Hbytes & ->).
  rewrite (identifier_text _ Hbytes).
  destruct (text_of_values_shape _ (sextets_range _ Hbytes)) as (L & A & P).
  split; [exact A | ]. split; [exact P | ].
  exists k, kb. split; [exact Ek | ]. split; [exact Ekb | ].
  rewrite L, sextets_length. unfold masked.
  cbn [List.length]. rewrite length_map, payload_length.
  do 2 f_equal. lia.
Qed.

(** X16. The random byte shows in the identifier: two calls that differ in
    nothing but the random byte return different identifiers. *)
Theorem generateTransactionId_random_byte {float : Type}
    (curves : list number -> Outcome (list float))
    (Cubic_getValue : list float -> Number Q -> Outcome float)
    (encode : list number -> float -> Outcome string)
    method path response key_arg animationKey_arg timeNow_arg nowMillis
    r1 r2 s id1 id2 :
  is_byte r1 -> is_byte r2 -> r1 <> r2 ->
  fst (generateTransactionId curves Cubic_getValue encode method path response
         key_arg animationKey_arg timeNow_arg nowMillis r1 s) = Returns id1 ->
  fst (generateTransactionId curves Cubic_getValue encode method path response
         key_arg animationKey_arg timeNow_arg nowMillis r2 s) = Returns id2 ->
  id1 <> id2.
Proof.
  intros H1 H2 Hne G1 G2 E.
  apply (generateTransactionId_returns curves Cubic_getValue encode) in G1;
    [ | exact H1 ].
  apply (generateTransactionId_returns curves Cubic_getValue encode) in G2;
    [ | exact H2 ].
  destruct G1 as (_ & k1 & kb1 & ak1 & _ & _ & _ & B1 & ->).
  destruct G2 as (_ & k2 & kb2 & ak2 & _ & _ & _ & B2 & ->).
  apply Hne. eapply identifier_reveals_mask; eassumption.
Qed.

(** X17. The four time bytes are those of the time modulo 2^32, least
    significant byte first, for every integer time: a time before the
    epoch offset, which is negative, and a time of 2^32 or more wrap
    around. *)
Theorem timeNowBytes_wrap t :
  little_endian (timeNowBytes t) = t mod 2 ^ 32
  /\ forall k, timeNowBytes (t + k * 2 ^ 32) = timeNowBytes t.
Proof.
  split.
  - rewrite timeNowBytes_timeBytes. unfold timeBytes, little_endian, fold_right.
    cbv zeta. pose proof (Z.mod_pos_bound t (2 ^ 32) ltac:(lia)) as H.
    set (m := t mod 2 ^ 32) in *. clearbody m.
    change (2 ^ 8) with 256. change (2 ^ 16) with 65536.
    change (2 ^ 24) with 16777216. change (2 ^ 32) with 4294967296 in H.
    Z.div_mod_to_equations. lia.
  - intros k. rewrite !timeNowBytes_timeBytes. unfold timeBytes.
    rewrite Z.mod_add by lia. reflexivity.
Qed.

(** ** The two regular expressions on well-formed text *)

Lemma append_length (a b : string) :
  String.length (a ++ b) = (String.length a + String.length b)%nat.
Proof. induction a as [ | c a IH]; cbn; [ | rewrite IH ]; reflexivity. Qed.

Lemma string_append_assoc (a b c : string) : a ++ b ++ c = (a ++ b) ++ c.
Proof. induction a as [ | x a IH]; cbn; [ | rewrite IH ]; reflexivity. Qed.

Lemma strip_prefix_append p s : Regex.strip_prefix p (p ++ s) = Some s.
Proof.
  induction p as [ | c p IH]; [reflexivity | ].
  cbn [append Regex.strip_prefix]. rewrite Ascii.eqb_refl. exact IH.
Qed.

Lemma span_append f a c s :
  every f a = true -> f c = false ->
  Regex.span f (a ++ String c s) = (a, String c s).
Proof.
  intros Ha Hc. induction a as [ | x a IH].
  - cbn [append Regex.span]. rewrite Hc. reflexivity.
  - cbn [every] in Ha. apply andb_true_iff in Ha. destruct Ha as [Hx Ha].
    cbn [append Regex.span]. rewrite Hx, (IH Ha). reflexivity.
Qed.

Lemma indices_at_other c s :
  Ascii.eqb c "(" = false -> Regex.indices_at (String c s) = None.
Proof.
  intros H. unfold Regex.indices_at.
  destruct c as [[] [] [] [] [] [] [] []]; try reflexivity; discriminate H.
Qed.

Lemma indices_from_prefix pre rest :
  occurrences "(" pre = 0%nat ->
  Regex.indices_from 0 (pre ++ rest) = Regex.indices_from 0 rest.
Proof.
  induction pre as [ | c pre IH]; [reflexivity | ].
  cbn [occurrences append]. destruct (Ascii.eqb c "(") eqn:E; [discriminate | ].
  intros H. cbn [Regex.indices_from].
  rewrite (indices_at_other c _ E). apply IH, H.
Qed.

Lemma indices_from_skip x rest :
  Regex.indices_from (String.length x) (x ++ rest) = Regex.indices_from 0 rest.
Proof.
  induction x as [ | c x IH]; [reflexivity | ].
  cbn [String.length append Regex.indices_from]. exact IH.
Qed.

Lemma indices_at_literal_found w d sp rest :
  Char.is_word w = true ->
  every Char.is_digit d = true ->
  (String.length d = 1 \/ String.length d = 2)%nat ->
  every Char.is_space sp = true ->
  Regex.indices_at
    (String "(" (String w (String "[" (d ++ "]," ++ sp ++ "16)" ++ rest))))
  = Some (d, (3 + String.length d + 2 + String.length sp + 3)%nat).
Proof.
  intros Hw Hd Hl Hs. unfold Regex.indices_at. rewrite Hw.
  assert (Hspan : Regex.span Char.is_space (sp ++ "16)" ++ rest)
                  = (sp, "16)" ++ rest)).
  { apply (span_append Char.is_space sp "1" ("6)" ++ rest)); [exact Hs | ].
    reflexivity. }
  pose proof (strip_prefix_append "16)" rest) as Htail.
  set (tail := "16)" ++ rest) in *.
  assert (Hclose : Regex.strip_prefix "]," ("]," ++ sp ++ tail)
                   = Some (sp ++ tail)) by apply strip_prefix_append.
  set (closing := "]," ++ sp ++ tail) in *.
  destruct d as [ | d1 [ | d2 [ | d3 d']]]; cbn [String.length] in Hl;
    try lia; cbn [every] in Hd.
  - apply andb_true_iff in Hd. destruct Hd as [H1 _].
    cbn [append].
    assert (Hc : closing = String "]" (String "," (sp ++ tail)))
      by reflexivity.
    rewrite Hc at 1. change (Char.is_digit "]") with false.
    rewrite H1. cbn [andb]. rewrite <- Hc, Hclose, Hspan, Htail.
    reflexivity.
  - apply andb_true_iff in Hd. destruct Hd as [H1 Hd].
    apply andb_true_iff in Hd. destruct Hd as [H2 _].
    cbn [append]. rewrite H1, H2. cbn [andb].
    rewrite Hclose, Hspan, Htail. reflexivity.
Qed.

Lemma indices_from_match c s digits len :
  Regex.indices_at (String c s) = Some (digits, len) ->
  Regex.indices_from 0 (String c s)
  = digits :: Regex.indices_from (Nat.pred len) s.
Proof. intros H. cbn [Regex.indices_from]. rewrite H. reflexivity. Qed.

(** X18. The loop over [INDICES_REGEX] finds a literal wherever it stands
    and goes on right after it: in a text made of a part without an opening
    parenthesis, then [(w[d],] white space [16)] with [w] a word character,
    [d] one or two digits, then any rest, the matches are [d] followed by
    the matches of the rest. *)
Theorem indices_scan pre w d sp rest :
  occurrences "(" pre = 0%nat ->
  Char.is_word w = true ->
  every Char.is_digit d = true ->
  (String.length d = 1 \/ String.length d = 2)%nat ->
  every Char.is_space sp = true ->
  Regex.indices
    (pre ++ String "(" (String w (String "[" (d ++ "]," ++ sp ++ "16)" ++ rest))))
  = d :: Regex.indices rest.
Proof.
  intros Hp Hw Hd Hl Hs. unfold Regex.indices.
  rewrite (indices_from_prefix pre _ Hp).
  rewrite (indices_from_match _ _ _ _
             (indices_at_literal_found w d sp rest Hw Hd Hl Hs)).
  f_equal.
  set (x := String w (String "[" (d ++ "]," ++ sp ++ "16)"))).
  transitivity (Regex.indices_from (String.length x) (x ++ rest)).
  - f_equal.
    + unfold x. cbn [String.length]. rewrite !append_length.
      cbn [String.length]. lia.
    + unfold x.
      change (String w (String "[" (d ++ "]," ++ sp ++ "16)" ++ rest))
              = String w (String "[" ((d ++ "]," ++ sp ++ "16)") ++ rest))).
      rewrite <- !string_append_assoc. reflexivity.
  - apply indices_from_skip.
Qed.

Lemma on_demand_file_at_other c s :
  Regex.is_quote c = false -> Regex.on_demand_file_at (String c s) = None.
Proof.
  intros H. unfold Regex.on_demand_file_at. rewrite H. reflexivity.
Qed.

Lemma on_demand_file_here s name :
  Regex.on_demand_file_at s = Some name -> Regex.on_demand_file s = Some name.
Proof. intros H. destruct s; cbn [Regex.on_demand_file]; rewrite H; reflexivity. Qed.

Lemma on_demand_file_next c s :
  Regex.on_demand_file_at (String c s) = None ->
  Regex.on_demand_file (String c s) = Regex.on_demand_file s.
Proof. intros H. cbn [Regex.on_demand_file]. rewrite H. reflexivity. Qed.

Lemma quote_not_space q : Regex.is_quote q = true -> Char.is_space q = false.
Proof.
  unfold Regex.is_quote. intros H. apply orb_true_iff in H.
  destruct H as [H | H]; apply Ascii.eqb_eq in H; subst q; reflexivity.
Qed.

Lemma quote_not_word q : Regex.is_quote q = true -> Char.is_word q = false.
Proof.
  unfold Regex.is_quote. intros H. apply orb_true_iff in H.
  destruct H as [H | H]; apply Ascii.eqb_eq in H; subst q; reflexivity.
Qed.

(** X19. [ON_DEMAND_FILE_REGEX] finds the name of the auxiliary script
    behind the first quote of the markup, whichever of the two quotes is
    used on either side and whatever white space follows the colon: in a
    markup made of a part without quotes, then a quoted [ondemand.s], a
    colon, white space and a quoted name of word characters, group 3 is
    the name. *)
Theorem on_demand_file_found pre q1 sp q2 name rest :
  every (fun c => negb (Regex.is_quote c)) pre = true ->
  Regex.is_quote q1 = true -> Regex.is_quote q2 = true ->
  every Char.is_space sp = true ->
  every Char.is_word name = true ->
  Regex.on_demand_file
    (pre ++ String q1 ("ondemand.s" ++ String q1 ":" ++ sp
                         ++ String q2 (name ++ String q2 rest)))
  = Some name.
Proof.
  intros Hp H1 H2 Hs Hn.
  induction pre as [ | c pre IH].
  - match goal with
    | |- Regex.on_demand_file (EmptyString ++ ?x) = _ =>
        change (Regex.on_demand_file x = Some name)
    end.
    apply on_demand_file_here.
    unfold Regex.on_demand_file_at. cbv beta match. rewrite H1.
    replace ("ondemand.s" ++ String q1 ":" ++ sp
               ++ String q2 (name ++ String q2 rest))
      with (("ondemand.s" ++ String q1 ":")
              ++ sp ++ String q2 (name ++ String q2 rest))
      by (rewrite <- !string_append_assoc; reflexivity).
    rewrite strip_prefix_append.
    rewrite (span_append Char.is_space sp q2 _ Hs (quote_not_space q2 H2)).
    cbn [snd]. rewrite H2.
    rewrite (span_append Char.is_word name q2 rest Hn (quote_not_word q2 H2)).
    rewrite Ascii.eqb_refl. reflexivity.
  - cbn [every] in Hp. apply andb_true_iff in Hp. destruct Hp as [Hc Hp].
    apply negb_true_iff in Hc.
    change ((String c pre) ++ ?x) with (String c (pre ++ x)).
    rewrite on_demand_file_next by (apply on_demand_file_at_other, Hc).
    apply IH, Hp.
Qed.

(** ** Instances of the further properties *)

Lemma create_ready_witness :
  exists row_index indices element k kb ak,
    Sample.session = ready Sample.document row_index indices k kb ak
    /\ fst (getIndices Sample.fetch (Some Sample.document) Sample.session)
       = Returns (row_index, indices)
    /\ siteVerification Sample.document = Some element
    /\ getAttribute element "content" = Some k
    /\ k <> EmptyString
    /\ Base64.decodeBase64 k = Some kb
    /\ Forall is_byte kb
    /\ fst (getAnimationKey Sample.curves Sample.Cubic_getValue Sample.encode
              kb None Sample.session) = Returns ak.
Proof.
  apply (create_ready Sample.fetch Sample.curves Sample.Cubic_getValue
           Sample.encode Sample.document Sample.session).
  vm_compute. reflexivity.
Defined.

Lemma initialize_twice_witness :
  let s' := snd (initialize Sample.fetch Sample.curves Sample.Cubic_getValue
                   Sample.encode (constructor Sample.document)) in
  isInitialized s' = true
  /\ initialize Sample.fetch Sample.curves Sample.Cubic_getValue Sample.encode s'
     = (Returns tt, s').
Proof.
  apply (initialize_twice Sample.fetch Sample.curves Sample.Cubic_getValue
           Sample.encode (constructor Sample.document)).
  vm_compute. reflexivity.
Defined.

Lemma initialize_failure_witness :
  let s' := snd (initialize Edge.fetch_down Sample.curves Sample.Cubic_getValue
                   Sample.encode (constructor Sample.document)) in
  isInitialized s' = false
  /\ homePageDocument s' = homePageDocument (constructor Sample.document)
  /\ forall method path response key_arg animationKey_arg timeNow_arg
            nowMillis randomNum,
       generateTransactionId Sample.curves Sample.Cubic_getValue Sample.encode
         method path response key_arg animationKey_arg timeNow_arg nowMillis
         randomNum s'
       = (Throws NotInitialized, s').
Proof.
  apply (initialize_failure Edge.fetch_down Sample.curves Sample.Cubic_getValue
           Sample.encode (constructor Sample.document) IndicesNotFound).
  vm_compute. reflexivity.
Defined.

Lemma initialize_errors_witness :
  fst (initialize Sample.fetch Sample.curves Sample.Cubic_getValue
         Edge.encode_strict (constructor Sample.document_without_frames))
  = Throws (HelperError "vectors of unequal length")
  /\ (In (HelperError "vectors of unequal length")
         [IndicesNotFound; KeyNotFound; InvalidCharacterError; TypeError;
          InvalidFrameData]
      \/ exists k kb s' frameRow targetTime,
           fst (getKey
                  (Some (homePageDocument
                           (constructor Sample.document_without_frames)))
                  (constructor Sample.document_without_frames)) = Returns k
           /\ Base64.decodeBase64 k = Some kb
           /\ fst (animationArguments kb
                     (Some (homePageDocument
                              (constructor Sample.document_without_frames)))
                     s') = Returns (frameRow, targetTime)
           /\ animate Sample.curves Sample.Cubic_getValue Edge.encode_strict
                frameRow targetTime
              = Throws (HelperError "vectors of unequal length")).
Proof.
  split; [vm_compute; reflexivity | ].
  apply (initialize_errors Sample.fetch Sample.curves Sample.Cubic_getValue
           Edge.encode_strict (constructor Sample.document_without_frames)
           (HelperError "vectors of unequal length")).
  vm_compute. reflexivity.
Defined.

Lemma initialize_retry_witness :
  fst (initialize Sample.fetch Sample.curves Sample.Cubic_getValue
         Sample.encode Edge.half_filled)
  = fst (initialize Sample.fetch Sample.curves Sample.Cubic_getValue
           Sample.encode (constructor Sample.document))
  /\ (fst (initialize Sample.fetch Sample.curves Sample.Cubic_getValue
             Sample.encode Edge.half_filled) = Returns tt ->
      snd (initialize Sample.fetch Sample.curves Sample.Cubic_getValue
             Sample.encode Edge.half_filled)
      = snd (initialize Sample.fetch Sample.curves Sample.Cubic_getValue
               Sample.encode (constructor Sample.document))).
Proof.
  apply (initialize_retry Sample.fetch Sample.curves Sample.Cubic_getValue
           Sample.encode Edge.half_filled (constructor Sample.document));
    reflexivity.
Defined.

Lemma generateTransactionId_after_create_witness :
  exists kb ak,
    keyBytes Sample.session = Some kb /\ animationKey Sample.session = Some ak
    /\ generateTransactionId Sample.curves Sample.Cubic_getValue Sample.encode
         "GET" "/1.1/jot/client_event.json" None None None
           (Some (seconds 1000)) 0 66
         Sample.session
       = (Returns
            (identifier
               (masked 66
                  (payload "GET" "/1.1/jot/client_event.json"
                     (resolveTimeNow (Some (seconds 1000)) 0) kb ak))), Sample.session).
Proof.
  apply (generateTransactionId_after_create Sample.fetch Sample.curves
           Sample.Cubic_getValue Sample.encode Sample.document Sample.session
           "GET" "/1.1/jot/client_event.json" (Some (seconds 1000)) 0 66).
  - vm_compute. reflexivity.
  - unfold is_byte. lia.
Defined.

Lemma generateTransactionId_with_overrides_witness :
  generateTransactionId Sample.curves Sample.Cubic_getValue Sample.encode
    "GET" "/" (Some Sample.document_without_frames) (Some "AAEC") (Some "ab")
    (Some (seconds 1000)) 0 66 Sample.session
  = match Base64.decodeBase64 "AAEC" with
    | Some kb =>
        (Returns
           (identifier
              (masked 66
                 (payload "GET" "/" (resolveTimeNow (Some (seconds 1000)) 0) kb "ab"))),
         Sample.session)
    | None => (Throws InvalidCharacterError, Sample.session)
    end.
Proof.
  apply (generateTransactionId_with_overrides Sample.curves
           Sample.Cubic_getValue Sample.encode "GET" "/"
           (Some Sample.document_without_frames) "AAEC" "ab" (Some (seconds 1000)) 0 66
           Sample.session).
  - reflexivity.
  - discriminate.
  - discriminate.
  - unfold is_byte. lia.
Defined.

Lemma getIndices_bounds_witness :
  Forall (fun i => exists v, i = Finite v /\ 0 <= v <= 99)
    [Finite 0; Finite 7; Finite 9].
Proof.
  apply (getIndices_bounds Sample.fetch None Sample.session (Finite 0)
           [Finite 7; Finite 9]).
  vm_compute. reflexivity.
Defined.

Lemma getKey_spec_witness :
  fst (getKey None Sample.session) = Returns "AAECAwQFBgcICQoLDA0ODw==".
Proof.
  apply (proj2 (proj1 (getKey_spec None Sample.session)
                  "AAECAwQFBgcICQoLDA0ODw==")).
  split; [discriminate | ].
  exists (mkElement [("name", "twitter-site-verification");
                     ("content", "AAECAwQFBgcICQoLDA0ODw==")] []).
  split; reflexivity.
Defined.

Lemma getKeyBytes_round_trip_witness :
  getKeyBytes (Base64.encodeBase64 Sample.key_bytes) Sample.session
  = (Returns Sample.key_bytes, Sample.session)
  /\ getKeyBytes (JsString.remove_char "=" (Base64.encodeBase64 Sample.key_bytes))
       Sample.session
     = (Returns Sample.key_bytes, Sample.session).
Proof.
  apply (proj1 (getKeyBytes_round_trip Sample.session) Sample.key_bytes).
  unfold Sample.key_bytes, is_byte.
  repeat (apply Forall_cons; [lia | ]). apply Forall_nil.
Defined.

Lemma frame_table_shape_witness : frame_table "M 0,0" = [[]].
Proof.
  apply (proj1 (proj2 (frame_table_shape "M 0,0"))). cbn. lia.
Defined.

Lemma get2dArray_edges_witness :
  fst (get2dArray [1; 2; 3] None None Sample.session) = Throws TypeError.
Proof.
  apply (proj1 (get2dArray_edges [1; 2; 3] None Sample.session
                  ltac:(discriminate))).
  cbn. lia.
Defined.


Lemma targetTime_NaN_witness :
  fst (animationArguments Sample.key_bytes None Edge.far_index)
  = Returns
      ([Finite 21; Finite 22; Finite 23; Finite 24; Finite 25; Finite 26;
        Finite 27; Finite 28], NaN)
  /\ Exists (fun i => JsNumber.index Sample.key_bytes i = None)
       [Finite 7; Finite 40].
Proof.
  split; [vm_compute; reflexivity | ].
  apply (proj2 (targetTime_NaN Sample.key_bytes None Edge.far_index
                  [Finite 7; Finite 40]
                  [Finite 21; Finite 22; Finite 23; Finite 24; Finite 25;
                   Finite 26; Finite 27; Finite 28]
                  NaN eq_refl ltac:(vm_compute; reflexivity))).
  - cbn. lia.
  - reflexivity.
Defined.

Lemma identifier_shape_witness :
  every is_alphabet "QkJDQEFGR0RFSktISU5PTE2qQUJCfgoO/1HshmSRAdTBW3jvYUE" = true
  /\ occurrences "=" "QkJDQEFGR0RFSktISU5PTE2qQUJCfgoO/1HshmSRAdTBW3jvYUE"
     = 0%nat
  /\ exists k kb,
       fst (resolveKey None None Sample.session) = Returns k
       /\ fst (resolveKeyBytes k Sample.session) = Returns kb
       /\ String.length "QkJDQEFGR0RFSktISU5PTE2qQUJCfgoO/1HshmSRAdTBW3jvYUE"
          = ((4 * (List.length kb + 22) + 2) / 3)%nat.
Proof.
  apply (identifier_shape Sample.curves Sample.Cubic_getValue Sample.encode
           "GET" "/1.1/jot/client_event.json" None None None
           (Some (seconds 1000)) 0 66
           Sample.session).
  - unfold is_byte. lia.
  - vm_compute. reflexivity.
Defined.

Lemma generateTransactionId_random_byte_witness :
  "QkJDQEFGR0RFSktISU5PTE2qQUJCfgoO/1HshmSRAdTBW3jvYUE"
  <> "Q0NCQUBHRkVES0pJSE9OTUyrQENDfwsP/lDth2WQANXAWnnuYEA".
Proof.
  apply (generateTransactionId_random_byte Sample.curves Sample.Cubic_getValue
           Sample.encode "GET" "/1.1/jot/client_event.json" None None None
           (Some (seconds 1000)) 0 66 67 Sample.session).
  - unfold is_byte. lia.
  - unfold is_byte. lia.
  - discriminate.
  - vm_compute. reflexivity.
  - vm_compute. reflexivity.
Defined.

Lemma indices_scan_witness :
  Regex.indices
    ("f=[n" ++ String "(" (String "e" (String "[" ("12" ++ "]," ++ " " ++ "16)"
                                                     ++ ",n(e[7],16)]"))))
  = "12" :: Regex.indices ",n(e[7],16)]".
Proof.
  apply (indices_scan "f=[n" "e" "12" " " ",n(e[7],16)]"); try reflexivity.
  right. reflexivity.
Defined.

Lemma on_demand_file_found_witness :
  Regex.on_demand_file
    ("<script>{" ++ String "'" ("ondemand.s" ++ String "'" ":" ++ " "
                                  ++ String "'" ("abc123" ++ String "'" "}")))
  = Some "abc123".
Proof.
  apply (on_demand_file_found "<script>{" "'" " " "'" "abc123" "}");
    reflexivity.
Defined.

